(** * The X11 presentation engine of the Vulkan WSI layer

    A shallow embedding of [src/vulkan/wsi/wsi_common_x11.c]: the connection
    probe, the surface queries, the swapchain state with its sticky status,
    the Present event handler, acquire, present and the queue manager.

    C integers are [Z] with the wrap-around of the C type written out where
    an operation can overflow; arrays are lists read with [!!] and written
    with [<[ _ := _ ]>]; what the X server, the clock and the allocator
    answer is an explicit argument of the function that asks. *)

From stdpp Require Import base numbers list strings sorting gmap.

Open Scope Z_scope.

(** ** Vulkan and XCB constants

    The numeric values are those of [vulkan_core.h] and [xcb/present.h],
    which the C file includes. *)

Abbreviation VkResult := Z.

Definition VK_SUCCESS : VkResult := 0.
Definition VK_NOT_READY : VkResult := 1.
Definition VK_TIMEOUT : VkResult := 2.
Definition VK_INCOMPLETE : VkResult := 5.
Definition VK_SUBOPTIMAL_KHR : VkResult := 1000001003.
Definition VK_ERROR_OUT_OF_HOST_MEMORY : VkResult := -1.
Definition VK_ERROR_SURFACE_LOST_KHR : VkResult := -1000000000.
Definition VK_ERROR_OUT_OF_DATE_KHR : VkResult := -1000001004.

Definition UINT32_MAX : Z := 4294967295.
Definition UINT64_MAX : Z := 18446744073709551615.
Definition INT64_MAX : Z := 9223372036854775807.

(** The conversions of C: [(uint32_t) x], arithmetic in [uint64_t], [(int)
    x] and the 16-bit fields of the X protocol. *)
Definition to_uint32 (x : Z) : Z := x mod 2 ^ 32.
Definition to_uint64 (x : Z) : Z := x mod 2 ^ 64.
Definition to_int32 (x : Z) : Z := (x + 2 ^ 31) mod 2 ^ 32 - 2 ^ 31.
Definition to_int16 (x : Z) : Z := (x + 2 ^ 15) mod 2 ^ 16 - 2 ^ 15.
Definition to_uint16 (x : Z) : Z := x mod 2 ^ 16.

(** [MIN2] and [MAX2] of [util/macros.h], as the conditional expressions
    they expand to. *)
Definition MIN2 (a b : Z) : Z := if a <? b then a else b.
Definition MAX2 (a b : Z) : Z := if b <? a then a else b.

Inductive VkPresentModeKHR :=
| VK_PRESENT_MODE_IMMEDIATE_KHR
| VK_PRESENT_MODE_MAILBOX_KHR
| VK_PRESENT_MODE_FIFO_KHR
| VK_PRESENT_MODE_FIFO_RELAXED_KHR
| VK_PRESENT_MODE_SHARED_DEMAND_REFRESH_KHR
| VK_PRESENT_MODE_SHARED_CONTINUOUS_REFRESH_KHR.

Abbreviation VkFormat := Z.
Definition VK_FORMAT_UNDEFINED : VkFormat := 0.
Definition VK_FORMAT_B8G8R8A8_UNORM : VkFormat := 44.
Definition VK_FORMAT_B8G8R8A8_SRGB : VkFormat := 50.
Definition VK_FORMAT_A2R10G10B10_UNORM_PACK32 : VkFormat := 58.

Definition XCB_NONE : Z := 0.
Definition XCB_PRESENT_OPTION_NONE : Z := 0.
Definition XCB_PRESENT_OPTION_ASYNC : Z := 1.
Definition XCB_PRESENT_OPTION_SUBOPTIMAL : Z := 8.
Definition BadRequest : Z := 1.
Definition MAX_DAMAGE_RECTS : Z := 64.

(** ** Data model *)

(** [struct wsi_x11_connection]. *)
Record wsi_x11_connection := {
  has_dri3 : bool;
  has_dri3_modifiers : bool;
  has_present : bool;
  is_proprietary_x11 : bool;
  is_xwayland : bool;
  has_mit_shm : bool;
  has_xfixes : bool;
}.

(** The fields of [struct wsi_device] that the X11 engine reads; the fields
    of its nested [x11] struct carry the prefix [x11_]. *)
Record wsi_device := {
  has_import_memory_host : bool;
  supports_modifiers : bool;
  force_bgra8_unorm_first : bool;
  enable_adaptive_sync : bool;
  x11_override_minImageCount : Z;
  x11_strict_imageCount : bool;
  x11_ensure_minImageCount : bool;
  x11_xwaylandWaitReady : bool;
  sw : bool;
}.

Record VkExtent2D := { width : Z; height : Z }.

Record xcb_rectangle_t := {
  rect_x : Z; rect_y : Z; rect_width : Z; rect_height : Z;
}.

(** [VkRectLayerKHR]. *)
Record VkRectLayerKHR := {
  offset_x : Z; offset_y : Z; extent : VkExtent2D; layer : Z;
}.

(** [VkPresentRegionKHR]: [pRectangles] is a pointer and may be [NULL]
    whatever [rectangleCount] says. *)
Record VkPresentRegionKHR := {
  rectangleCount : Z;
  pRectangles : option (list VkRectLayerKHR);
}.

(** The requests acquire, present and the manager thread send.
    [xcb_connection_t] is modelled by the log of them, oldest request first;
    a request keeps the arguments the engine chooses. *)
Inductive xcb_request :=
| xcb_flush
| xcb_xfixes_set_region (region : Z) (nrects : Z) (rects : list xcb_rectangle_t)
| xcb_present_pixmap_checked
    (window pixmap serial update idle_fence options target_msc : Z)
| xcb_put_image (window gc w h dst_y len : Z)
| xcb_get_geometry (window : Z).

Definition xcb_connection_t := list xcb_request.

(** [struct x11_image].  [shm_fence] is the state of the shared-memory
    fence: [true] when triggered.  [row_pitch] is [base.row_pitches[0]]. *)
Record x11_image := {
  row_pitch : Z;
  pixmap : Z;
  update_region : Z;
  update_area : Z;
  busy : bool;
  present_queued : bool;
  shm_fence : bool;
  sync_fence : Z;
  serial : Z;
}.

(** The fields of [struct wsi_swapchain] ([chain->base]) used here. *)
Record wsi_swapchain := {
  wsi : wsi_device;
  image_count : Z;
  present_mode : VkPresentModeKHR;
}.

(** [struct x11_swapchain].  The two [wsi_queue]s are lists, head first. *)
Record x11_swapchain := {
  base : wsi_swapchain;
  chain_has_dri3_modifiers : bool;
  chain_has_mit_shm : bool;
  conn : xcb_connection_t;
  window : Z;
  gc : Z;
  depth : Z;
  chain_extent : VkExtent2D;
  send_sbc : Z;
  last_present_msc : Z;
  sent_image_count : Z;
  has_present_queue : bool;
  has_acquire_queue : bool;
  status : VkResult;
  copy_is_suboptimal : bool;
  present_queue : list Z;
  acquire_queue : list Z;
  images : list x11_image;
}.

(** Assignments to one field. *)
Definition set_conn (c : x11_swapchain) (v : xcb_connection_t) : x11_swapchain :=
  {| base := base c; chain_has_dri3_modifiers := chain_has_dri3_modifiers c;
     chain_has_mit_shm := chain_has_mit_shm c; conn := v; window := window c;
     gc := gc c; depth := depth c; chain_extent := chain_extent c;
     send_sbc := send_sbc c; last_present_msc := last_present_msc c;
     sent_image_count := sent_image_count c;
     has_present_queue := has_present_queue c;
     has_acquire_queue := has_acquire_queue c; status := status c;
     copy_is_suboptimal := copy_is_suboptimal c;
     present_queue := present_queue c; acquire_queue := acquire_queue c;
     images := images c |}.

Definition set_send_sbc (c : x11_swapchain) (v : Z) : x11_swapchain :=
  {| base := base c; chain_has_dri3_modifiers := chain_has_dri3_modifiers c;
     chain_has_mit_shm := chain_has_mit_shm c; conn := conn c; window := window c;
     gc := gc c; depth := depth c; chain_extent := chain_extent c;
     send_sbc := v; last_present_msc := last_present_msc c;
     sent_image_count := sent_image_count c;
     has_present_queue := has_present_queue c;
     has_acquire_queue := has_acquire_queue c; status := status c;
     copy_is_suboptimal := copy_is_suboptimal c;
     present_queue := present_queue c; acquire_queue := acquire_queue c;
     images := images c |}.

Definition set_last_present_msc (c : x11_swapchain) (v : Z) : x11_swapchain :=
  {| base := base c; chain_has_dri3_modifiers := chain_has_dri3_modifiers c;
     chain_has_mit_shm := chain_has_mit_shm c; conn := conn c; window := window c;
     gc := gc c; depth := depth c; chain_extent := chain_extent c;
     send_sbc := send_sbc c; last_present_msc := v;
     sent_image_count := sent_image_count c;
     has_present_queue := has_present_queue c;
     has_acquire_queue := has_acquire_queue c; status := status c;
     copy_is_suboptimal := copy_is_suboptimal c;
     present_queue := present_queue c; acquire_queue := acquire_queue c;
     images := images c |}.

Definition set_sent_image_count (c : x11_swapchain) (v : Z) : x11_swapchain :=
  {| base := base c; chain_has_dri3_modifiers := chain_has_dri3_modifiers c;
     chain_has_mit_shm := chain_has_mit_shm c; conn := conn c; window := window c;
     gc := gc c; depth := depth c; chain_extent := chain_extent c;
     send_sbc := send_sbc c; last_present_msc := last_present_msc c;
     sent_image_count := v;
     has_present_queue := has_present_queue c;
     has_acquire_queue := has_acquire_queue c; status := status c;
     copy_is_suboptimal := copy_is_suboptimal c;
     present_queue := present_queue c; acquire_queue := acquire_queue c;
     images := images c |}.

Definition set_status (c : x11_swapchain) (v : VkResult) : x11_swapchain :=
  {| base := base c; chain_has_dri3_modifiers := chain_has_dri3_modifiers c;
     chain_has_mit_shm := chain_has_mit_shm c; conn := conn c; window := window c;
     gc := gc c; depth := depth c; chain_extent := chain_extent c;
     send_sbc := send_sbc c; last_present_msc := last_present_msc c;
     sent_image_count := sent_image_count c;
     has_present_queue := has_present_queue c;
     has_acquire_queue := has_acquire_queue c; status := v;
     copy_is_suboptimal := copy_is_suboptimal c;
     present_queue := present_queue c; acquire_queue := acquire_queue c;
     images := images c |}.

Definition set_copy_is_suboptimal (c : x11_swapchain) (v : bool) : x11_swapchain :=
  {| base := base c; chain_has_dri3_modifiers := chain_has_dri3_modifiers c;
     chain_has_mit_shm := chain_has_mit_shm c; conn := conn c; window := window c;
     gc := gc c; depth := depth c; chain_extent := chain_extent c;
     send_sbc := send_sbc c; last_present_msc := last_present_msc c;
     sent_image_count := sent_image_count c;
     has_present_queue := has_present_queue c;
     has_acquire_queue := has_acquire_queue c; status := status c;
     copy_is_suboptimal := v;
     present_queue := present_queue c; acquire_queue := acquire_queue c;
     images := images c |}.

Definition set_present_queue (c : x11_swapchain) (v : list Z) : x11_swapchain :=
  {| base := base c; chain_has_dri3_modifiers := chain_has_dri3_modifiers c;
     chain_has_mit_shm := chain_has_mit_shm c; conn := conn c; window := window c;
     gc := gc c; depth := depth c; chain_extent := chain_extent c;
     send_sbc := send_sbc c; last_present_msc := last_present_msc c;
     sent_image_count := sent_image_count c;
     has_present_queue := has_present_queue c;
     has_acquire_queue := has_acquire_queue c; status := status c;
     copy_is_suboptimal := copy_is_suboptimal c;
     present_queue := v; acquire_queue := acquire_queue c;
     images := images c |}.

Definition set_acquire_queue (c : x11_swapchain) (v : list Z) : x11_swapchain :=
  {| base := base c; chain_has_dri3_modifiers := chain_has_dri3_modifiers c;
     chain_has_mit_shm := chain_has_mit_shm c; conn := conn c; window := window c;
     gc := gc c; depth := depth c; chain_extent := chain_extent c;
     send_sbc := send_sbc c; last_present_msc := last_present_msc c;
     sent_image_count := sent_image_count c;
     has_present_queue := has_present_queue c;
     has_acquire_queue := has_acquire_queue c; status := status c;
     copy_is_suboptimal := copy_is_suboptimal c;
     present_queue := present_queue c; acquire_queue := v;
     images := images c |}.

Definition set_images (c : x11_swapchain) (v : list x11_image) : x11_swapchain :=
  {| base := base c; chain_has_dri3_modifiers := chain_has_dri3_modifiers c;
     chain_has_mit_shm := chain_has_mit_shm c; conn := conn c; window := window c;
     gc := gc c; depth := depth c; chain_extent := chain_extent c;
     send_sbc := send_sbc c; last_present_msc := last_present_msc c;
     sent_image_count := sent_image_count c;
     has_present_queue := has_present_queue c;
     has_acquire_queue := has_acquire_queue c; status := status c;
     copy_is_suboptimal := copy_is_suboptimal c;
     present_queue := present_queue c; acquire_queue := acquire_queue c;
     images := v |}.

Definition set_busy (i : x11_image) (v : bool) : x11_image :=
  {| row_pitch := row_pitch i; pixmap := pixmap i;
     update_region := update_region i; update_area := update_area i;
     busy := v; present_queued := present_queued i; shm_fence := shm_fence i;
     sync_fence := sync_fence i; serial := serial i |}.

Definition set_update_area (i : x11_image) (v : Z) : x11_image :=
  {| row_pitch := row_pitch i; pixmap := pixmap i;
     update_region := update_region i; update_area := v;
     busy := busy i; present_queued := present_queued i;
     shm_fence := shm_fence i; sync_fence := sync_fence i;
     serial := serial i |}.

Definition set_present_queued (i : x11_image) (v : bool) : x11_image :=
  {| row_pitch := row_pitch i; pixmap := pixmap i;
     update_region := update_region i; update_area := update_area i;
     busy := busy i; present_queued := v; shm_fence := shm_fence i;
     sync_fence := sync_fence i; serial := serial i |}.

Definition set_shm_fence (i : x11_image) (v : bool) : x11_image :=
  {| row_pitch := row_pitch i; pixmap := pixmap i;
     update_region := update_region i; update_area := update_area i;
     busy := busy i; present_queued := present_queued i; shm_fence := v;
     sync_fence := sync_fence i; serial := serial i |}.

Definition set_serial (i : x11_image) (v : Z) : x11_image :=
  {| row_pitch := row_pitch i; pixmap := pixmap i;
     update_region := update_region i; update_area := update_area i;
     busy := busy i; present_queued := present_queued i;
     shm_fence := shm_fence i; sync_fence := sync_fence i; serial := v |}.

(** [chain->images[i] = f(chain->images[i])]; an index outside the array,
    which in C is undefined behaviour, leaves the array as it is. *)
Definition update_image (c : x11_swapchain) (i : Z)
    (f : x11_image -> x11_image) : x11_swapchain :=
  match images c !! Z.to_nat i with
  | Some img => set_images c (<[Z.to_nat i := f img]> (images c))
  | None => c
  end.

(** Sending one request on [chain->conn]. *)
Definition send (c : x11_swapchain) (r : xcb_request) : x11_swapchain :=
  set_conn c (conn c ++ [r]).

(** ** The status latch *)

(** [_x11_swapchain_result]: merges the result of an operation into
    [chain->status] and returns the combined status.  The [file] and [line]
    arguments only feed a debug print. *)
Definition _x11_swapchain_result (chain : x11_swapchain) (result : VkResult)
    : VkResult * x11_swapchain :=
  if status chain <? 0 then (status chain, chain)
  else if result <? 0 then (result, set_status chain result)
  else if (result =? VK_TIMEOUT) || (result =? VK_NOT_READY) then (result, chain)
  else if result =? VK_SUBOPTIMAL_KHR then (result, set_status chain result)
  else (status chain, chain).

Definition x11_swapchain_result := _x11_swapchain_result.

(** ** Present events *)

Inductive xcb_present_complete_kind_t :=
| XCB_PRESENT_COMPLETE_KIND_PIXMAP
| XCB_PRESENT_COMPLETE_KIND_NOTIFY_MSC.

Inductive xcb_present_complete_mode_t :=
| XCB_PRESENT_COMPLETE_MODE_COPY
| XCB_PRESENT_COMPLETE_MODE_FLIP
| XCB_PRESENT_COMPLETE_MODE_SKIP
| XCB_PRESENT_COMPLETE_MODE_SUBOPTIMAL_COPY.

(** [xcb_present_generic_event_t], by [evtype]; the last constructor stands
    for every event type the handler has no case for. *)
Inductive xcb_present_generic_event_t :=
| XCB_PRESENT_CONFIGURE_NOTIFY (config_width config_height : Z)
| XCB_PRESENT_EVENT_IDLE_NOTIFY (idle_pixmap : Z)
| XCB_PRESENT_EVENT_COMPLETE_NOTIFY
    (kind : xcb_present_complete_kind_t) (mode : xcb_present_complete_mode_t)
    (complete_serial complete_msc : Z)
| XCB_PRESENT_EVENT_REDIRECT_NOTIFY.

Record xcb_get_geometry_reply_t := {
  geom_depth : Z; geom_width : Z; geom_height : Z;
}.

(** ** Loops over the image ring *)

(** The images a loop [for (i = 0; i < chain->base.image_count; i++)]
    visits. *)
Definition ring (c : x11_swapchain) : list x11_image :=
  take (Z.to_nat (image_count (base c))) (images c).

(** The first index, counted from [i], whose element satisfies [p]: where a
    loop that leaves at its first hit stops. *)
Fixpoint find_index {A} (p : A -> bool) (l : list A) (i : Z) : option Z :=
  match l with
  | [] => None
  | x :: l' => if p x then Some i else find_index p l' (i + 1)
  end.

(** A loop that rewrites every image of the ring. *)
Definition map_ring (f : x11_image -> x11_image) (c : x11_swapchain)
    : x11_swapchain :=
  set_images c
    (map f (ring c) ++ drop (Z.to_nat (image_count (base c))) (images c)).

(** ** Image queues *)

(** Modelled from the spec: [wsi_queue_push] and [wsi_queue_pull] are
    defined in [wsi_common_queue.h], which is not among the sources.  The
    spec has a bounded blocking queue of image indices: a push appends, a
    pull takes the oldest index, and a pull on an empty queue blocks up to
    its timeout and then reports [VK_TIMEOUT].  A pull that cannot time out
    (the manager thread pulls with [INT64_MAX], acquire with [UINT64_MAX])
    has no result on an empty queue. *)
Definition wsi_queue_push (q : list Z) (i : Z) : list Z := q ++ [i].

Definition wsi_queue_pull (q : list Z) (timeout : Z)
    : option (VkResult * Z * list Z) :=
  match q with
  | i :: q' => Some (VK_SUCCESS, i, q')
  | [] => if timeout <? INT64_MAX then Some (VK_TIMEOUT, 0, []) else None
  end.

(** ** The engine *)

Section Engine.

(** The build option [HAVE_DRI3_MODIFIERS]: [true] when the [#ifdef] blocks
    are compiled in. *)
Variable HAVE_DRI3_MODIFIERS : bool.

(** *** The connection probe *)

(** [xcb_query_extension_reply_t] and the version replies, with the fields
    the probe reads. *)
Record xcb_query_extension_reply_t := { present : Z }.
Record xcb_query_version_reply_t := { major_version : Z; minor_version : Z }.
Record xcb_shm_query_version_reply_t := { shared_pixmaps : Z }.
Record xcb_randr_get_screen_resources_current_reply_t := { num_outputs : Z }.
Record xcb_randr_get_output_info_reply_t := { output_name : option string }.

(** What the server and the allocator answer to
    [wsi_x11_connection_create]: a reply is [None] when the reply function
    returns [NULL].  The XFIXES and MIT-SHM version replies are read without
    a test for [NULL], so they are taken as present.  [debug_noshm] is
    [WSI_DEBUG & WSI_DEBUG_NOSHM]; [shm_detach_error] is the error code of
    the probing [xcb_shm_detach_checked(conn, 0)], if it fails. *)
Record probe_io := {
  probe_alloc : bool;
  debug_noshm : bool;
  dri3_reply : option xcb_query_extension_reply_t;
  pres_reply : option xcb_query_extension_reply_t;
  randr_reply : option xcb_query_extension_reply_t;
  amd_reply : option xcb_query_extension_reply_t;
  nv_reply : option xcb_query_extension_reply_t;
  xfixes_reply : option xcb_query_extension_reply_t;
  xwl_reply : option xcb_query_extension_reply_t;
  shm_reply : option xcb_query_extension_reply_t;
  dri3_version : option xcb_query_version_reply_t;
  present_version : option xcb_query_version_reply_t;
  xfixes_version : xcb_query_version_reply_t;
  randr_version : option xcb_query_version_reply_t;
  shm_version : xcb_shm_query_version_reply_t;
  shm_detach_error : option Z;
  gsr_reply : option xcb_randr_get_screen_resources_current_reply_t;
  goi_reply : option xcb_randr_get_output_info_reply_t;
}.

(** [reply && reply->present]. *)
Definition reply_present (reply : option xcb_query_extension_reply_t) : bool :=
  match reply with
  | Some r => negb (present r =? 0)
  | None => false
  end.

(** [ver_reply != NULL && (major > 1 || minor >= minor_wanted)]. *)
Definition version_at_least_1 (minor_wanted : Z)
    (ver_reply : option xcb_query_version_reply_t) : bool :=
  match ver_reply with
  | Some v => (1 <? major_version v) || (minor_wanted <=? minor_version v)
  | None => false
  end.

(** [wsi_x11_detect_xwayland]; [strncmp(output_name, "XWAYLAND", 8) == 0]
    is the prefix test. *)
Definition wsi_x11_detect_xwayland (io : probe_io) : bool :=
  if reply_present (xwl_reply io) then true
  else if negb (reply_present (randr_reply io)) then false
  else if negb (version_at_least_1 3 (randr_version io)) then false
  else
    match gsr_reply io with
    | None => false
    | Some gsr =>
        if num_outputs gsr =? 0 then false
        else
          match goi_reply io with
          | None => false
          | Some goi =>
              match output_name goi with
              | Some name => String.prefix "XWAYLAND" name
              | None => false
              end
          end
    end.

(** [wsi_x11_connection_create]; [None] is the [NULL] it returns. *)
Definition wsi_x11_connection_create (wsi_dev : wsi_device) (io : probe_io)
    : option wsi_x11_connection :=
  let wants_shm :=
    sw wsi_dev && negb (debug_noshm io) && has_import_memory_host wsi_dev in
  if negb (probe_alloc io) then None
  else
    match dri3_reply io, pres_reply io, xfixes_reply io with
    | Some dri3, Some pres, Some xfixes =>
        let has_dri3 := negb (present dri3 =? 0) in
        let has_dri3_v1_2 :=
          HAVE_DRI3_MODIFIERS && has_dri3
          && version_at_least_1 2 (dri3_version io) in
        let has_present := negb (present pres =? 0) in
        let has_present_v1_2 :=
          HAVE_DRI3_MODIFIERS && has_present
          && version_at_least_1 2 (present_version io) in
        let has_xfixes := negb (present xfixes =? 0) in
        let has_xfixes :=
          if has_xfixes then 2 <=? major_version (xfixes_version io)
          else has_xfixes in
        let is_proprietary_x11 := false in
        let is_proprietary_x11 :=
          if reply_present (amd_reply io) then true else is_proprietary_x11 in
        let is_proprietary_x11 :=
          if reply_present (nv_reply io) then true else is_proprietary_x11 in
        let has_mit_shm :=
          if has_dri3 && has_present && wants_shm then
            if negb (shared_pixmaps (shm_version io) =? 0) then
              match shm_detach_error io with
              | Some error_code => negb (error_code =? BadRequest)
              | None => false
              end
            else false
          else false in
        Some {| has_dri3 := has_dri3;
                has_dri3_modifiers := has_dri3_v1_2 && has_present_v1_2;
                has_present := has_present;
                is_proprietary_x11 := is_proprietary_x11;
                is_xwayland := wsi_x11_detect_xwayland io;
                has_mit_shm := has_mit_shm;
                has_xfixes := has_xfixes |}
    | _, _, _ => None
    end.

(** [wsi_x11_check_for_dri3], without the warning it prints. *)
Definition wsi_x11_check_for_dri3 (wsi_conn : wsi_x11_connection) : bool :=
  has_dri3 wsi_conn.

(** *** Surface formats *)

Record surface_format := { format : VkFormat; bits_per_rgb : Z }.

Definition formats : list surface_format :=
  [ {| format := VK_FORMAT_B8G8R8A8_SRGB; bits_per_rgb := 8 |};
    {| format := VK_FORMAT_B8G8R8A8_UNORM; bits_per_rgb := 8 |};
    {| format := VK_FORMAT_A2R10G10B10_UNORM_PACK32; bits_per_rgb := 10 |} ].

(** The masks of an [xcb_visualtype_t]. *)
Record xcb_visualtype_t := {
  visual_class : Z;
  red_mask : Z;
  green_mask : Z;
  blue_mask : Z;
}.

(** Modelled from the spec: [util_bitcount] is defined in [util/bitscan.h],
    which is not among the sources; the spec has the popcount of the 32-bit
    mask. *)
Fixpoint bitcount_below (bits : nat) (n : Z) : Z :=
  match bits with
  | O => 0
  | S b => Z.b2z (Z.testbit n (Z.of_nat b)) + bitcount_below b n
  end.

Definition util_bitcount (n : Z) : Z := bitcount_below 32 n.

(** The first loop of [get_sorted_vk_formats]: the array and [*count]
    after the entries [table] of [formats]. *)
Fixpoint keep_formats (table : list surface_format) (visual : xcb_visualtype_t)
    (sorted_formats : list VkFormat) (count : nat) : list VkFormat * nat :=
  match table with
  | [] => (sorted_formats, count)
  | f :: table' =>
      if (bits_per_rgb f =? util_bitcount (red_mask visual))
         && (bits_per_rgb f =? util_bitcount (green_mask visual))
         && (bits_per_rgb f =? util_bitcount (blue_mask visual))
      then keep_formats table' visual
             (<[count := format f]> sorted_formats) (S count)
      else keep_formats table' visual sorted_formats count
  end.

(** The second loop: from index [i], [todo] entries left to look at. *)
Fixpoint bgra8_unorm_first (sorted_formats : list VkFormat) (i todo : nat)
    : list VkFormat :=
  match todo with
  | O => sorted_formats
  | S todo' =>
      if (sorted_formats !!! i) =? VK_FORMAT_B8G8R8A8_UNORM then
        let sorted_formats := <[i := sorted_formats !!! 0%nat]> sorted_formats in
        <[0%nat := VK_FORMAT_B8G8R8A8_UNORM]> sorted_formats
      else bgra8_unorm_first sorted_formats (S i) todo'
  end.

(** [get_sorted_vk_formats]: [visual] is what [get_visualtype_for_window]
    found, [None] for [NULL]; the result is the first [*count] entries of
    the caller's array, [None] when the function returns [false]. *)
Definition get_sorted_vk_formats (visual : option xcb_visualtype_t)
    (wsi_device : wsi_device) : option (list VkFormat) :=
  match visual with
  | None => None
  | Some visual =>
      let '(sorted_formats, count) :=
        keep_formats formats visual
          (replicate (length formats) VK_FORMAT_UNDEFINED) 0 in
      let sorted_formats :=
        if force_bgra8_unorm_first wsi_device
        then bgra8_unorm_first sorted_formats 0 count
        else sorted_formats in
      Some (take count sorted_formats)
  end.

(** *** Event handling *)

(** [x11_handle_dri3_present_event]: processes one Present event; it does
    not update [chain->status]. *)
Definition x11_handle_dri3_present_event (chain : x11_swapchain)
    (event : xcb_present_generic_event_t) : VkResult * x11_swapchain :=
  match event with
  | XCB_PRESENT_CONFIGURE_NOTIFY config_width config_height =>
      if negb (config_width =? width (chain_extent chain))
         || negb (config_height =? height (chain_extent chain))
      then (VK_SUBOPTIMAL_KHR, chain)
      else (VK_SUCCESS, chain)
  | XCB_PRESENT_EVENT_IDLE_NOTIFY idle_pixmap =>
      match find_index (fun img => pixmap img =? idle_pixmap) (ring chain) 0 with
      | Some i =>
          let chain := update_image chain i (fun img => set_busy img false) in
          let chain := set_sent_image_count chain (sent_image_count chain - 1) in
          let chain :=
            if has_acquire_queue chain
            then set_acquire_queue chain (wsi_queue_push (acquire_queue chain) i)
            else chain in
          (VK_SUCCESS, chain)
      | None => (VK_SUCCESS, chain)
      end
  | XCB_PRESENT_EVENT_COMPLETE_NOTIFY kind mode complete_serial complete_msc =>
      let chain :=
        match kind with
        | XCB_PRESENT_COMPLETE_KIND_PIXMAP =>
            let chain :=
              map_ring (fun image =>
                          if present_queued image && (serial image =? complete_serial)
                          then set_present_queued image false
                          else image) chain in
            set_last_present_msc chain complete_msc
        | _ => chain
        end in
      match mode with
      | XCB_PRESENT_COMPLETE_MODE_COPY =>
          if copy_is_suboptimal chain
          then (VK_SUBOPTIMAL_KHR, chain)
          else (VK_SUCCESS, chain)
      | XCB_PRESENT_COMPLETE_MODE_FLIP =>
          (VK_SUCCESS, set_copy_is_suboptimal chain true)
      | XCB_PRESENT_COMPLETE_MODE_SUBOPTIMAL_COPY =>
          if HAVE_DRI3_MODIFIERS
          then (VK_SUBOPTIMAL_KHR, chain)
          else (VK_SUCCESS, chain)
      | _ => (VK_SUCCESS, chain)
      end
  | XCB_PRESENT_EVENT_REDIRECT_NOTIFY => (VK_SUCCESS, chain)
  end.

(** The two lines every caller runs on an event: handle it, then merge its
    result into the status. *)
Definition handle_and_merge (chain : x11_swapchain)
    (event : xcb_present_generic_event_t) : VkResult * x11_swapchain :=
  let '(result, chain) := x11_handle_dri3_present_event chain event in
  x11_swapchain_result chain result.

(** *** Acquire *)

(** [wsi_get_absolute_timeout], with the clock reading as an argument. *)
Definition wsi_get_absolute_timeout (current_time timeout : Z) : Z :=
  let timeout := MIN2 (to_uint64 (UINT64_MAX - current_time)) timeout in
  to_uint64 (current_time + timeout).

(** What one turn of the loop of [x11_acquire_next_image_poll_x11] is
    answered: the special event delivered (or none), the clock when the
    deadline is computed, the return value of [poll], and the clock after
    it. *)
Record poll_io := {
  io_event : option xcb_present_generic_event_t;
  io_time_before : Z;
  io_poll : Z;
  io_time_after : Z;
}.

(** The result of an acquire: the [VkResult] and, when the function wrote
    it, [*image_index]. *)
Definition acquired : Type := VkResult * option Z * x11_swapchain.

Definition returning (out : option Z) (r : VkResult * x11_swapchain) : acquired :=
  (r.1, out, r.2).

(** [x11_acquire_next_image_poll_x11].  The [while (1)] loop takes one
    [poll_io] per turn; [None] is a loop still waiting when the answers are
    used up. *)
Fixpoint x11_acquire_next_image_poll_x11 (ios : list poll_io)
    (chain : x11_swapchain) (timeout : Z) : option acquired :=
  match find_index (fun img => negb (busy img)) (ring chain) 0 with
  | Some i =>
      let chain :=
        update_image chain i (fun img => set_busy (set_shm_fence img true) true) in
      Some (returning (Some i) (x11_swapchain_result chain VK_SUCCESS))
  | None =>
      let chain := send chain xcb_flush in
      match ios with
      | [] => None
      | io :: ios' =>
          let dispatch event :=
            let '(result, chain) := handle_and_merge chain event in
            if result <? 0 then Some (result, None, chain)
            else x11_acquire_next_image_poll_x11 ios' chain timeout in
          if timeout =? UINT64_MAX then
            match io_event io with
            | None =>
                Some (returning None
                        (x11_swapchain_result chain VK_ERROR_SURFACE_LOST_KHR))
            | Some event => dispatch event
            end
          else
            match io_event io with
            | None =>
                if timeout =? 0 then
                  Some (returning None (x11_swapchain_result chain VK_NOT_READY))
                else
                  let atimeout :=
                    wsi_get_absolute_timeout (io_time_before io) timeout in
                  if io_poll io =? 0 then
                    Some (returning None (x11_swapchain_result chain VK_TIMEOUT))
                  else if io_poll io =? -1 then
                    Some (returning None
                            (x11_swapchain_result chain VK_ERROR_OUT_OF_DATE_KHR))
                  else
                    let current_time := io_time_after io in
                    let timeout :=
                      if current_time <? atimeout
                      then atimeout - current_time else 0 in
                    x11_acquire_next_image_poll_x11 ios' chain timeout
            | Some event => dispatch event
            end
      end
  end.

(** [x11_acquire_next_image_from_queue]. *)
Definition x11_acquire_next_image_from_queue (chain : x11_swapchain)
    (timeout : Z) : option acquired :=
  match wsi_queue_pull (acquire_queue chain) timeout with
  | None => None
  | Some (result, image_index, q) =>
      let chain := set_acquire_queue chain q in
      if (result <? 0) || (result =? VK_TIMEOUT) then
        Some (returning None (x11_swapchain_result chain result))
      else if status chain <? 0 then
        Some (status chain, None, chain)
      else
        let chain :=
          update_image chain image_index (fun img => set_shm_fence img true) in
        Some (status chain, Some image_index, chain)
  end.

(** [x11_acquire_next_image].  [geom] is the reply to the geometry request
    of the software path, [ios] what the polling path is answered. *)
Definition x11_acquire_next_image (chain : x11_swapchain) (timeout : Z)
    (geom : option xcb_get_geometry_reply_t) (ios : list poll_io)
    : option acquired :=
  if status chain <? 0 then Some (status chain, None, chain)
  else if sw (wsi (base chain)) && negb (chain_has_mit_shm chain) then
    match find_index (fun img => negb (busy img)) (ring chain) 0 with
    | Some i =>
        let chain := update_image chain i (fun img => set_busy img true) in
        let chain := send chain (xcb_get_geometry (window chain)) in
        let result :=
          match geom with
          | Some geom =>
              if negb (width (chain_extent chain) =? geom_width geom)
                 || negb (height (chain_extent chain) =? geom_height geom)
              then VK_SUBOPTIMAL_KHR
              else VK_SUCCESS
          | None => VK_ERROR_SURFACE_LOST_KHR
          end in
        Some (result, Some i, chain)
    | None => Some (VK_NOT_READY, None, chain)
    end
  else if has_acquire_queue chain then
    x11_acquire_next_image_from_queue chain timeout
  else
    x11_acquire_next_image_poll_x11 ios chain timeout.

(** *** Present *)

#[global] Instance VkPresentModeKHR_eq_dec : EqDecision VkPresentModeKHR.
Proof. solve_decision. Defined.

(** What a present is answered: the connection entry [wsi_x11_get_connection]
    returns ([None] for [NULL]), the special events pending when the present
    polls, whether [xcb_request_check] reports an error, and
    [xcb_get_maximum_request_length]. *)
Record present_io := {
  pio_wsi_conn : option wsi_x11_connection;
  pio_events : list xcb_present_generic_event_t;
  pio_error : bool;
  pio_max_request_length : Z;
}.

(** The loop [while ((event = xcb_poll_for_special_event(...)))] of the
    present: [Some result] when it leaves the function on a negative
    status. *)
Fixpoint poll_pending_events (events : list xcb_present_generic_event_t)
    (chain : x11_swapchain) : option VkResult * x11_swapchain :=
  match events with
  | [] => (None, chain)
  | event :: events' =>
      let '(result, chain) := handle_and_merge chain event in
      if result <? 0 then (Some result, chain)
      else poll_pending_events events' chain
  end.

(** The present options of [x11_present_to_x11_dri3]. *)
Definition present_options (wsi_conn : wsi_x11_connection)
    (chain : x11_swapchain) : Z :=
  let options := XCB_PRESENT_OPTION_NONE in
  let options :=
    if bool_decide (present_mode (base chain) = VK_PRESENT_MODE_IMMEDIATE_KHR)
       || (bool_decide (present_mode (base chain) = VK_PRESENT_MODE_MAILBOX_KHR)
           && is_xwayland wsi_conn)
       || bool_decide (present_mode (base chain) = VK_PRESENT_MODE_FIFO_RELAXED_KHR)
    then Z.lor options XCB_PRESENT_OPTION_ASYNC
    else options in
  if HAVE_DRI3_MODIFIERS && chain_has_dri3_modifiers chain
  then Z.lor options XCB_PRESENT_OPTION_SUBOPTIMAL
  else options.

(** Lines 1316 to 1340 of [x11_present_to_x11_dri3]: the fence is reset,
    the counters go up, the image gets its serial and the request is sent.
    The function asserts [image_index < chain->base.image_count]; outside
    the ring no image is written and no request is sent. *)
Definition present_pixmap (chain : x11_swapchain)
    (image_index options target_msc : Z) : x11_swapchain :=
  let chain :=
    update_image chain image_index (fun image => set_shm_fence image false) in
  let chain := set_sent_image_count chain (sent_image_count chain + 1) in
  let chain := set_send_sbc chain (to_uint64 (send_sbc chain + 1)) in
  let chain :=
    update_image chain image_index (fun image =>
      set_serial (set_present_queued image true) (to_uint32 (send_sbc chain))) in
  match images chain !! Z.to_nat image_index with
  | Some image =>
      send chain
        (xcb_present_pixmap_checked (window chain) (pixmap image)
           (serial image) (update_area image) (sync_fence image)
           options target_msc)
  | None => chain
  end.

(** [x11_present_to_x11_dri3]. *)
Definition x11_present_to_x11_dri3 (io : present_io) (chain : x11_swapchain)
    (image_index target_msc : Z) : VkResult * x11_swapchain :=
  match pio_wsi_conn io with
  | None => (VK_ERROR_OUT_OF_HOST_MEMORY, chain)
  | Some wsi_conn =>
      let options := present_options wsi_conn chain in
      match poll_pending_events (pio_events io) chain with
      | (Some result, chain) => (result, chain)
      | (None, chain) =>
          let chain := present_pixmap chain image_index options target_msc in
          if pio_error io
          then x11_swapchain_result chain VK_ERROR_SURFACE_LOST_KHR
          else x11_swapchain_result chain VK_SUCCESS
      end
  end.

(** The loop [while (y_todo)] of the software present, which sends the
    image in bands of [num_lines] rows.  It needs at most one turn per row
    when [num_lines] is positive; [None] is the loop that does not end. *)
Fixpoint put_image_bands (fuel : nat) (chain : x11_swapchain)
    (w stride_b num_lines y_start y_todo : Z) : option x11_swapchain :=
  if y_todo =? 0 then Some chain
  else
    match fuel with
    | O => None
    | S fuel' =>
        let this_lines := MIN2 num_lines y_todo in
        let chain :=
          send chain
            (xcb_put_image (window chain) (gc chain) w this_lines y_start
               (this_lines * stride_b)) in
        put_image_bands fuel' chain w stride_b num_lines
          (y_start + this_lines) (y_todo - this_lines)
    end.

(** [x11_present_to_x11_sw]; [sizeof(xcb_put_image_request_t)] is 24.
    [stride_b], [num_lines] and [y_todo] are [int]; the product with the
    [uint32_t] height is taken in [unsigned], the quotient in [uint64_t].
    A zero [stride_b] divides by zero in C; here the band loop does not
    end. *)
Definition x11_present_to_x11_sw (io : present_io) (chain : x11_swapchain)
    (image_index target_msc : Z) : option (VkResult * x11_swapchain) :=
  let hdr_len := 24 in
  let pitch := from_option row_pitch 0 (images chain !! Z.to_nat image_index) in
  let stride_b := to_int32 pitch in
  let h := height (chain_extent chain) in
  let size := Z.shiftr (hdr_len + to_uint32 (stride_b * h)) 2 in
  let max_req_len := pio_max_request_length io in
  let sent :=
    if size <? max_req_len then
      Some (send chain
              (xcb_put_image (window chain) (gc chain) (pitch / 4) h 0
                 (to_uint32 (pitch * h))))
    else
      let num_lines :=
        to_int32 (to_uint64 (Z.shiftl max_req_len 2 - hdr_len)
                  / to_uint64 stride_b) in
      put_image_bands (Z.to_nat (to_int32 h)) chain (pitch / 4) stride_b
        num_lines 0 (to_int32 h) in
  match sent with
  | None => None
  | Some chain =>
      let chain := update_image chain image_index (fun img => set_busy img false) in
      let chain := send chain xcb_flush in
      Some (x11_swapchain_result chain VK_SUCCESS)
  end.

(** [x11_present_to_x11]. *)
Definition x11_present_to_x11 (io : present_io) (chain : x11_swapchain)
    (image_index target_msc : Z) : option (VkResult * x11_swapchain) :=
  if sw (wsi (base chain)) && negb (chain_has_mit_shm chain)
  then x11_present_to_x11_sw io chain image_index target_msc
  else Some (x11_present_to_x11_dri3 io chain image_index target_msc).

(** The conversion of a [VkRectLayerKHR] to the 16-bit fields of an
    [xcb_rectangle_t]. *)
Definition damage_rect (rect : VkRectLayerKHR) : xcb_rectangle_t :=
  {| rect_x := to_int16 (offset_x rect); rect_y := to_int16 (offset_y rect);
     rect_width := to_uint16 (width (extent rect));
     rect_height := to_uint16 (height (extent rect)) |}.

(** [x11_queue_present]; [damage] is [None] for a [NULL] pointer. *)
Definition x11_queue_present (chain : x11_swapchain) (image_index : Z)
    (damage : option VkPresentRegionKHR) (io : present_io)
    : option (VkResult * x11_swapchain) :=
  if status chain <? 0 then Some (status chain, chain)
  else
    let '(update_area, chain) :=
      match damage with
      | Some damage =>
          match pRectangles damage with
          | Some rectangles =>
              if (0 <? rectangleCount damage)
                 && (rectangleCount damage <=? MAX_DAMAGE_RECTS)
              then
                let update_area :=
                  from_option update_region 0
                    (images chain !! Z.to_nat image_index) in
                let rects :=
                  map damage_rect
                      (take (Z.to_nat (rectangleCount damage)) rectangles) in
                (update_area,
                 send chain
                   (xcb_xfixes_set_region update_area (rectangleCount damage)
                      rects))
              else (0, chain)
          | None => (0, chain)
          end
      | None => (0, chain)
      end in
    let chain :=
      update_image chain image_index (fun img => set_update_area img update_area) in
    let chain := update_image chain image_index (fun img => set_busy img true) in
    if has_present_queue chain then
      let chain :=
        set_present_queue chain (wsi_queue_push (present_queue chain) image_index) in
      Some (status chain, chain)
    else x11_present_to_x11 io chain image_index 0.

(** *** The queue manager thread *)

(** [x11_needs_wait_for_fences]. *)
Definition x11_needs_wait_for_fences (wsi_device : wsi_device)
    (wsi_conn : wsi_x11_connection) (present_mode : VkPresentModeKHR) : bool :=
  if is_xwayland wsi_conn && negb (x11_xwaylandWaitReady wsi_device) then false
  else
    match present_mode with
    | VK_PRESENT_MODE_MAILBOX_KHR => true
    | VK_PRESENT_MODE_IMMEDIATE_KHR => is_xwayland wsi_conn
    | _ => false
    end.

(** [x11_get_min_image_count]. *)
Definition x11_get_min_image_count (wsi_device : wsi_device) : Z :=
  if negb (x11_override_minImageCount wsi_device =? 0)
  then x11_override_minImageCount wsi_device
  else 3.

(** [x11_driver_owned_images], in [unsigned] arithmetic. *)
Definition x11_driver_owned_images (chain : x11_swapchain) : Z :=
  to_uint32 (image_count (base chain) - sent_image_count chain).

(** What one turn of the manager's loop is answered: the result of
    [WaitForFences], the answers to the present, and what
    [xcb_wait_for_special_event] returns in the wait that follows. *)
Record manager_io := {
  mio_fence_wait : VkResult;
  mio_present : present_io;
  mio_events : list (option xcb_present_generic_event_t);
}.

Inductive waited :=
| wait_done (result : VkResult) (chain : x11_swapchain)
| wait_fail (result : VkResult) (chain : x11_swapchain)
| wait_blocked.

(** The inner loop of the manager: wait until the image has been presented
    and enough images are owned by the driver.  [result] is the thread's
    local variable. *)
Fixpoint wait_for_present (events : list (option xcb_present_generic_event_t))
    (chain : x11_swapchain) (result : VkResult) (image_index threshold : Z)
    : waited :=
  if from_option present_queued false (images chain !! Z.to_nat image_index)
     || (x11_driver_owned_images chain <? threshold)
  then
    match events with
    | [] => wait_blocked
    | None :: _ => wait_fail VK_ERROR_SURFACE_LOST_KHR chain
    | Some event :: events' =>
        let '(result, chain) := handle_and_merge chain event in
        if result <? 0 then wait_fail result chain
        else wait_for_present events' chain result image_index threshold
    end
  else wait_done result chain.

(** The code after the label [fail] of the manager. *)
Definition manager_fail (chain : x11_swapchain) (result : VkResult)
    : x11_swapchain :=
  let chain := (x11_swapchain_result chain result).2 in
  if has_acquire_queue chain
  then set_acquire_queue chain (wsi_queue_push (acquire_queue chain) UINT32_MAX)
  else chain.

Inductive turn :=
| turn_next (result : VkResult) (chain : x11_swapchain)
| turn_exit (chain : x11_swapchain)
| turn_blocked.

(** One turn of [while (chain->status >= 0)] in [x11_manage_fifo_queues],
    the loop test included; [result] is the thread's local variable. *)
Definition manager_turn (wsi_conn : wsi_x11_connection) (io : manager_io)
    (chain : x11_swapchain) (result : VkResult) : turn :=
  if status chain <? 0 then turn_exit (manager_fail chain result)
  else
    match wsi_queue_pull (present_queue chain) INT64_MAX with
    | None => turn_blocked
    | Some (result, image_index, q) =>
        let chain := set_present_queue chain q in
        if result <? 0 then turn_exit (manager_fail chain result)
        else if status chain <? 0 then turn_exit chain
        else if x11_needs_wait_for_fences (wsi (base chain)) wsi_conn
                  (present_mode (base chain))
                && negb (mio_fence_wait io =? VK_SUCCESS)
        then turn_exit (manager_fail chain VK_ERROR_OUT_OF_DATE_KHR)
        else
          let target_msc :=
            if has_acquire_queue chain
            then to_uint64 (last_present_msc chain + 1) else 0 in
          match x11_present_to_x11 (mio_present io) chain image_index target_msc with
          | None => turn_blocked
          | Some (result, chain) =>
              if result <? 0 then turn_exit (manager_fail chain result)
              else if has_acquire_queue chain then
                let min_image_count :=
                  MIN2 (x11_get_min_image_count (wsi (base chain)))
                       (image_count (base chain)) in
                let forward_progress_guaranteed_acquired_images :=
                  to_uint32 (image_count (base chain) - min_image_count + 1) in
                match wait_for_present (mio_events io) chain result image_index
                        forward_progress_guaranteed_acquired_images with
                | wait_done result chain => turn_next result chain
                | wait_fail result chain => turn_exit (manager_fail chain result)
                | wait_blocked => turn_blocked
                end
              else turn_next result chain
          end
    end.

(** [x11_manage_fifo_queues]: the turns in sequence; [Some] is the chain
    when the thread returns, [None] a thread still running or blocked when
    the answers are used up. *)
Fixpoint manager_loop (wsi_conn : wsi_x11_connection) (ios : list manager_io)
    (chain : x11_swapchain) (result : VkResult) : option x11_swapchain :=
  match ios with
  | [] =>
      if status chain <? 0 then Some (manager_fail chain result) else None
  | io :: ios' =>
      match manager_turn wsi_conn io chain result with
      | turn_next result chain => manager_loop wsi_conn ios' chain result
      | turn_exit chain => Some chain
      | turn_blocked => None
      end
  end.

Definition x11_manage_fifo_queues (wsi_conn : wsi_x11_connection)
    (ios : list manager_io) (chain : x11_swapchain) : option x11_swapchain :=
  manager_loop wsi_conn ios chain VK_SUCCESS.

(** *** Swapchain creation *)

(** The fields of [VkSwapchainCreateInfoKHR] read here. *)
Record VkSwapchainCreateInfoKHR := {
  minImageCount : Z;
  imageExtent : VkExtent2D;
}.

(** What [x11_surface_create_swapchain] is answered: the connection entry,
    the geometry reply, whether [vk_zalloc] succeeds, the result of
    [wsi_swapchain_init], the graphics-context id, the result and the image
    of each [x11_image_init], and the return values of the two
    [wsi_queue_init] and of [pthread_create]. *)
Record create_io := {
  cio_wsi_conn : option wsi_x11_connection;
  cio_geometry : option xcb_get_geometry_reply_t;
  cio_alloc : bool;
  cio_swapchain_init : VkResult;
  cio_gc : Z;
  cio_image_init : nat -> VkResult * x11_image;
  cio_present_queue_init : Z;
  cio_acquire_queue_init : Z;
  cio_thread_create : Z;
}.

(** Lines 2040 to 2046: the local variable [num_images]. *)
Definition num_images (wsi_device : wsi_device) (wsi_conn : wsi_x11_connection)
    (present_mode : VkPresentModeKHR) (pCreateInfo : VkSwapchainCreateInfoKHR) : Z :=
  let num_images := minImageCount pCreateInfo in
  if x11_strict_imageCount wsi_device then minImageCount pCreateInfo
  else if x11_needs_wait_for_fences wsi_device wsi_conn present_mode
  then MAX2 num_images 5
  else if x11_ensure_minImageCount wsi_device
  then MAX2 num_images (x11_get_min_image_count wsi_device)
  else num_images.

(** The loop over [x11_image_init]: the images initialised so far, and the
    first result that is not [VK_SUCCESS]. *)
Fixpoint init_images (init : nat -> VkResult * x11_image) (image : nat)
    (todo : nat) : VkResult * list x11_image :=
  match todo with
  | O => (VK_SUCCESS, [])
  | S todo' =>
      let '(result, img) := init image in
      if negb (result =? VK_SUCCESS) then (result, [])
      else
        let '(result, imgs) := init_images init (S image) todo' in
        (result, img :: imgs)
  end.

(** [x11_surface_create_swapchain].  [present_mode] is what
    [wsi_swapchain_get_present_mode] returned; the chain is [None] when
    [*swapchain_out] is not written. *)
Definition x11_surface_create_swapchain (wsi_device : wsi_device)
    (surface_window : Z) (present_mode : VkPresentModeKHR)
    (pCreateInfo : VkSwapchainCreateInfoKHR) (io : create_io)
    : VkResult * option x11_swapchain :=
  match cio_wsi_conn io with
  | None => (VK_ERROR_OUT_OF_HOST_MEMORY, None)
  | Some wsi_conn =>
      let num_images := num_images wsi_device wsi_conn present_mode pCreateInfo in
      match cio_geometry io with
      | None => (VK_ERROR_SURFACE_LOST_KHR, None)
      | Some geometry =>
          let cur_width := to_uint16 (geom_width geometry) in
          let cur_height := to_uint16 (geom_height geometry) in
          if negb (cio_alloc io) then (VK_ERROR_OUT_OF_HOST_MEMORY, None)
          else if negb (cio_swapchain_init io =? VK_SUCCESS)
          then (cio_swapchain_init io, None)
          else
            let chain :=
              {| base := {| wsi := wsi_device; image_count := num_images;
                            present_mode := present_mode |};
                 chain_has_dri3_modifiers := has_dri3_modifiers wsi_conn;
                 chain_has_mit_shm := has_mit_shm wsi_conn;
                 conn := []; window := surface_window; gc := cio_gc io;
                 depth := geom_depth geometry;
                 chain_extent := imageExtent pCreateInfo;
                 send_sbc := 0; last_present_msc := 0; sent_image_count := 0;
                 has_present_queue := false; has_acquire_queue := false;
                 status :=
                   if negb (width (imageExtent pCreateInfo) =? cur_width)
                      || negb (height (imageExtent pCreateInfo) =? cur_height)
                   then VK_SUBOPTIMAL_KHR else VK_SUCCESS;
                 copy_is_suboptimal := false;
                 present_queue := []; acquire_queue := []; images := [] |} in
            if cio_gc io =? 0 then (VK_ERROR_OUT_OF_HOST_MEMORY, None)
            else
              let '(result, imgs) :=
                init_images (cio_image_init io) 0 (Z.to_nat num_images) in
              if negb (result =? VK_SUCCESS) then (result, None)
              else
                let chain := set_images chain imgs in
                if (bool_decide (present_mode = VK_PRESENT_MODE_FIFO_KHR)
                    || bool_decide (present_mode = VK_PRESENT_MODE_FIFO_RELAXED_KHR)
                    || x11_needs_wait_for_fences wsi_device wsi_conn present_mode)
                   && negb (sw wsi_device)
                then
                  if negb (cio_present_queue_init io =? 0) then (result, None)
                  else if bool_decide (present_mode = VK_PRESENT_MODE_FIFO_KHR)
                          || bool_decide (present_mode = VK_PRESENT_MODE_FIFO_RELAXED_KHR)
                  then
                    if negb (cio_acquire_queue_init io =? 0) then (result, None)
                    else if negb (cio_thread_create io =? 0) then (result, None)
                    else
                      (VK_SUCCESS,
                       Some {| base := base chain;
                               chain_has_dri3_modifiers := chain_has_dri3_modifiers chain;
                               chain_has_mit_shm := chain_has_mit_shm chain;
                               conn := conn chain; window := window chain;
                               gc := gc chain; depth := depth chain;
                               chain_extent := chain_extent chain;
                               send_sbc := send_sbc chain;
                               last_present_msc := last_present_msc chain;
                               sent_image_count := sent_image_count chain;
                               has_present_queue := true;
                               has_acquire_queue := true;
                               status := status chain;
                               copy_is_suboptimal := copy_is_suboptimal chain;
                               present_queue := [];
                               acquire_queue := seqZ 0 (image_count (base chain));
                               images := images chain |})
                  else if negb (cio_thread_create io =? 0) then (result, None)
                  else
                    (VK_SUCCESS,
                     Some {| base := base chain;
                             chain_has_dri3_modifiers := chain_has_dri3_modifiers chain;
                             chain_has_mit_shm := chain_has_mit_shm chain;
                             conn := conn chain; window := window chain;
                             gc := gc chain; depth := depth chain;
                             chain_extent := chain_extent chain;
                             send_sbc := send_sbc chain;
                             last_present_msc := last_present_msc chain;
                             sent_image_count := sent_image_count chain;
                             has_present_queue := true;
                             has_acquire_queue := false;
                             status := status chain;
                             copy_is_suboptimal := copy_is_suboptimal chain;
                             present_queue := []; acquire_queue := [];
                             images := images chain |})
                else (VK_SUCCESS, Some chain)
      end
  end.

(** *** Runs of events *)

(** The events of a list handled in order, the results dropped. *)
Definition handle_events (events : list xcb_present_generic_event_t)
    (chain : x11_swapchain) : x11_swapchain :=
  foldl (fun c e => (x11_handle_dri3_present_event c e).2) chain events.

(** *** Runs of acquires *)

(** [n] acquires in a row on a server that answers nothing, each with the
    result and the index it returned; the run stops at an acquire that does
    not return. *)
Fixpoint acquire_run (n : nat) (chain : x11_swapchain) (timeout : Z)
    : list (VkResult * option Z) * x11_swapchain :=
  match n with
  | O => ([], chain)
  | S n' =>
      match x11_acquire_next_image chain timeout None [] with
      | Some (r, out, chain') =>
          let '(rs, chain'') := acquire_run n' chain' timeout in
          ((r, out) :: rs, chain'')
      | None => ([], chain)
      end
  end.

(** *** The queues of a present mode *)

(** The condition under which creation sets up a present queue, and an
    acquire queue. *)
Definition has_present_queue_of_mode (wsi_device : wsi_device)
    (wsi_conn : wsi_x11_connection) (mode : VkPresentModeKHR) : bool :=
  (bool_decide (mode = VK_PRESENT_MODE_FIFO_KHR)
   || bool_decide (mode = VK_PRESENT_MODE_FIFO_RELAXED_KHR)
   || x11_needs_wait_for_fences wsi_device wsi_conn mode)
  && negb (sw wsi_device).

Definition has_acquire_queue_of_mode (wsi_device : wsi_device)
    (mode : VkPresentModeKHR) : bool :=
  (bool_decide (mode = VK_PRESENT_MODE_FIFO_KHR)
   || bool_decide (mode = VK_PRESENT_MODE_FIFO_RELAXED_KHR))
  && negb (sw wsi_device).

(** *** The end of the manager thread *)

(** A chain the manager thread has left: in an error state, and with the
    sentinel last in the acquire queue if there is one. *)
Definition exited (c' : x11_swapchain) : Prop :=
  status c' < 0
  /\ (has_acquire_queue c' = true -> last (acquire_queue c') = Some UINT32_MAX).

(** *** The connection table *)

(** Modelled from the spec: the hash table of [util/hash_table.h] is not
    among the sources; the spec has a table from connections to entries that
    one mutex guards.  The key is the [xcb_connection_t] pointer. *)
Abbreviation connections_table := (gmap Z wsi_x11_connection).

(** What [wsi_x11_get_connection] is answered on a miss: the replies to the
    probe, and the entry another thread has put into the table for the same
    connection while the mutex was released, if any. *)
Record get_connection_io := {
  gio_probe : probe_io;
  gio_raced : option wsi_x11_connection;
}.

(** [wsi_x11_get_connection]: the entry ([None] for [NULL]) and the table
    when the mutex is released at the end. *)
Definition wsi_x11_get_connection (wsi_dev : wsi_device)
    (connections : connections_table) (conn : Z) (io : get_connection_io)
    : option wsi_x11_connection * connections_table :=
  match connections !! conn with
  | Some entry => (Some entry, connections)
  | None =>
      match wsi_x11_connection_create wsi_dev (gio_probe io) with
      | None => (None, connections)
      | Some wsi_conn =>
          let connections :=
            match gio_raced io with
            | Some other => <[conn := other]> connections
            | None => connections
            end in
          match connections !! conn with
          | Some entry => (Some entry, connections)
          | None => (Some wsi_conn, <[conn := wsi_conn]> connections)
          end
      end
  end.

(** *** Present modes *)

Definition present_modes : list VkPresentModeKHR :=
  [ VK_PRESENT_MODE_IMMEDIATE_KHR; VK_PRESENT_MODE_MAILBOX_KHR;
    VK_PRESENT_MODE_FIFO_KHR; VK_PRESENT_MODE_FIFO_RELAXED_KHR ].

(** [x11_surface_get_present_modes]: [pPresentModeCount] is the count on
    entry, [pPresentModes] the caller's array, [None] for [NULL]; the result
    comes with the count and the array on return.  [typed_memcpy] writes the
    first [count] elements of the array, which has to have as many. *)
Definition x11_surface_get_present_modes (pPresentModeCount : Z)
    (pPresentModes : option (list VkPresentModeKHR))
    : VkResult * Z * option (list VkPresentModeKHR) :=
  match pPresentModes with
  | None => (VK_SUCCESS, Z.of_nat (length present_modes), None)
  | Some array =>
      let count := MIN2 pPresentModeCount (Z.of_nat (length present_modes)) in
      let array :=
        take (Z.to_nat count) present_modes ++ drop (Z.to_nat count) array in
      (if count <? Z.of_nat (length present_modes)
       then VK_INCOMPLETE else VK_SUCCESS,
       count, Some array)
  end.

(** *** Visuals *)

(** The screens of [xcb_get_setup(conn)] with their depths and visuals, in
    the order the iterators give them.  A visual stands with its
    [visual_id]. *)
Record xcb_depth_t := {
  depth_depth : Z;
  depth_visuals : list (Z * xcb_visualtype_t);
}.

Record xcb_screen_t := {
  root : Z;
  allowed_depths : list xcb_depth_t;
}.

Definition XCB_VISUAL_CLASS_TRUE_COLOR : Z := 4.
Definition XCB_VISUAL_CLASS_DIRECT_COLOR : Z := 5.

(** [get_screen_for_root]. *)
Fixpoint get_screen_for_root (screens : list xcb_screen_t) (root_window : Z)
    : option xcb_screen_t :=
  match screens with
  | [] => None
  | screen :: screens' =>
      if root screen =? root_window then Some screen
      else get_screen_for_root screens' root_window
  end.

(** The inner loop of [screen_get_visualtype], over the visuals of one
    depth. *)
Fixpoint depth_get_visualtype (visuals : list (Z * xcb_visualtype_t))
    (visual_id : Z) : option xcb_visualtype_t :=
  match visuals with
  | [] => None
  | (id, visual) :: visuals' =>
      if id =? visual_id then Some visual
      else depth_get_visualtype visuals' visual_id
  end.

(** The outer loop: the visual and the depth it was found under. *)
Fixpoint depths_get_visualtype (depths : list xcb_depth_t) (visual_id : Z)
    : option (xcb_visualtype_t * Z) :=
  match depths with
  | [] => None
  | d :: depths' =>
      match depth_get_visualtype (depth_visuals d) visual_id with
      | Some visual => Some (visual, depth_depth d)
      | None => depths_get_visualtype depths' visual_id
      end
  end.

(** [screen_get_visualtype]: the visual, and what [*depth] receives. *)
Definition screen_get_visualtype (screen : xcb_screen_t) (visual_id : Z)
    : option (xcb_visualtype_t * Z) :=
  depths_get_visualtype (allowed_depths screen) visual_id.

(** [connection_get_visualtype]. *)
Fixpoint connection_get_visualtype (screens : list xcb_screen_t)
    (visual_id : Z) : option xcb_visualtype_t :=
  match screens with
  | [] => None
  | screen :: screens' =>
      match screen_get_visualtype screen visual_id with
      | Some (visual, _) => Some visual
      | None => connection_get_visualtype screens' visual_id
      end
  end.

(** [get_visualtype_for_window]: [tree] is the root of the reply to
    [xcb_query_tree], [attrib] the visual of the reply to
    [xcb_get_window_attributes], [None] for a [NULL] reply. *)
Definition get_visualtype_for_window (screens : list xcb_screen_t)
    (tree attrib : option Z) : option (xcb_visualtype_t * Z) :=
  match attrib, tree with
  | Some visual_id, Some root_window =>
      match get_screen_for_root screens root_window with
      | None => None
      | Some screen => screen_get_visualtype screen visual_id
      end
  | _, _ => None
  end.

(** [visual_has_alpha], in [uint32_t]; the shift is defined for a depth
    from 1 to 32. *)
Definition visual_has_alpha (visual : xcb_visualtype_t) (depth : Z) : bool :=
  let rgb_mask :=
    Z.lor (Z.lor (red_mask visual) (green_mask visual)) (blue_mask visual) in
  let all_mask := Z.shiftr 4294967295 (32 - depth) in
  negb (Z.land all_mask (to_uint32 (Z.lnot rgb_mask)) =? 0).

(** [visual_supported]. *)
Definition visual_supported (visual : option xcb_visualtype_t) : bool :=
  match visual with
  | None => false
  | Some visual =>
      (visual_class visual =? XCB_VISUAL_CLASS_TRUE_COLOR)
      || (visual_class visual =? XCB_VISUAL_CLASS_DIRECT_COLOR)
  end.

(** *** Surface queries *)

(** [wsi_get_physical_device_xcb_presentation_support]; [wsi_conn] is what
    [wsi_x11_get_connection] returned. *)
Definition wsi_get_physical_device_xcb_presentation_support
    (wsi_device : wsi_device) (wsi_conn : option wsi_x11_connection)
    (screens : list xcb_screen_t) (visual_id : Z) : bool :=
  match wsi_conn with
  | None => false
  | Some wsi_conn =>
      if negb (sw wsi_device) && negb (wsi_x11_check_for_dri3 wsi_conn)
      then false
      else if negb (visual_supported
                      (connection_get_visualtype screens visual_id))
      then false
      else true
  end.

(** [x11_surface_get_support]: the result and what [*pSupported]
    receives. *)
Definition x11_surface_get_support (wsi_device : wsi_device)
    (wsi_conn : option wsi_x11_connection) (screens : list xcb_screen_t)
    (tree attrib : option Z) : VkResult * option bool :=
  match wsi_conn with
  | None => (VK_ERROR_OUT_OF_HOST_MEMORY, None)
  | Some wsi_conn =>
      if negb (sw wsi_device) && negb (wsi_x11_check_for_dri3 wsi_conn)
      then (VK_SUCCESS, Some false)
      else if negb (visual_supported
                      (fst <$> get_visualtype_for_window screens tree attrib))
      then (VK_SUCCESS, Some false)
      else (VK_SUCCESS, Some true)
  end.

Definition VK_COMPOSITE_ALPHA_OPAQUE_BIT_KHR : Z := 1.
Definition VK_COMPOSITE_ALPHA_PRE_MULTIPLIED_BIT_KHR : Z := 2.
Definition VK_COMPOSITE_ALPHA_INHERIT_BIT_KHR : Z := 8.
Definition VK_SURFACE_TRANSFORM_IDENTITY_BIT_KHR : Z := 1.
Definition VK_IMAGE_USAGE_TRANSFER_SRC_BIT : Z := 1.
Definition VK_IMAGE_USAGE_TRANSFER_DST_BIT : Z := 2.
Definition VK_IMAGE_USAGE_SAMPLED_BIT : Z := 4.
Definition VK_IMAGE_USAGE_STORAGE_BIT : Z := 8.
Definition VK_IMAGE_USAGE_COLOR_ATTACHMENT_BIT : Z := 16.
Definition VK_IMAGE_USAGE_INPUT_ATTACHMENT_BIT : Z := 128.

(** [VkSurfaceCapabilitiesKHR]. *)
Record VkSurfaceCapabilitiesKHR := {
  caps_minImageCount : Z;
  caps_maxImageCount : Z;
  currentExtent : VkExtent2D;
  minImageExtent : VkExtent2D;
  maxImageExtent : VkExtent2D;
  maxImageArrayLayers : Z;
  supportedTransforms : Z;
  currentTransform : Z;
  supportedCompositeAlpha : Z;
  supportedUsageFlags : Z;
}.

(** [x11_surface_get_capabilities]: [visual] is what
    [get_visualtype_for_window] found, with the depth; [geom] the geometry
    reply; [caps] the structure of the caller, which comes back as the
    function leaves it. *)
Definition x11_surface_get_capabilities (wsi_device : wsi_device)
    (visual : option (xcb_visualtype_t * Z))
    (geom : option xcb_get_geometry_reply_t) (caps : VkSurfaceCapabilitiesKHR)
    : VkResult * VkSurfaceCapabilitiesKHR :=
  match visual with
  | None => (VK_ERROR_SURFACE_LOST_KHR, caps)
  | Some (visual, visual_depth) =>
      match geom with
      | None => (VK_ERROR_SURFACE_LOST_KHR, caps)
      | Some geom =>
          let extent :=
            {| width := geom_width geom; height := geom_height geom |} in
          (VK_SUCCESS,
           {| caps_minImageCount := x11_get_min_image_count wsi_device;
              caps_maxImageCount := 0;
              currentExtent := extent;
              minImageExtent := extent;
              maxImageExtent := extent;
              maxImageArrayLayers := 1;
              supportedTransforms := VK_SURFACE_TRANSFORM_IDENTITY_BIT_KHR;
              currentTransform := VK_SURFACE_TRANSFORM_IDENTITY_BIT_KHR;
              supportedCompositeAlpha :=
                if visual_has_alpha visual visual_depth
                then Z.lor VK_COMPOSITE_ALPHA_INHERIT_BIT_KHR
                       VK_COMPOSITE_ALPHA_PRE_MULTIPLIED_BIT_KHR
                else Z.lor VK_COMPOSITE_ALPHA_INHERIT_BIT_KHR
                       VK_COMPOSITE_ALPHA_OPAQUE_BIT_KHR;
              supportedUsageFlags :=
                Z.lor VK_IMAGE_USAGE_TRANSFER_SRC_BIT
                  (Z.lor VK_IMAGE_USAGE_SAMPLED_BIT
                     (Z.lor VK_IMAGE_USAGE_TRANSFER_DST_BIT
                        (Z.lor VK_IMAGE_USAGE_STORAGE_BIT
                           (Z.lor VK_IMAGE_USAGE_COLOR_ATTACHMENT_BIT
                              VK_IMAGE_USAGE_INPUT_ATTACHMENT_BIT)))) |})
      end
  end.

(** All visuals of a connection, screen by screen and depth by depth. *)
Definition setup_visuals (screens : list xcb_screen_t)
    : list (Z * xcb_visualtype_t) :=
  mjoin ((fun screen => mjoin (depth_visuals <$> allowed_depths screen))
         <$> screens).

(** *** Sequences of calls on one chain *)

(** The ways the status of a chain is reached: a result merged by
    [x11_swapchain_result], an acquire, a present, one turn of the manager
    thread. *)
Inductive call :=
| call_merge (result : VkResult)
| call_acquire (timeout : Z) (geom : option xcb_get_geometry_reply_t)
    (ios : list poll_io)
| call_present (image_index : Z) (damage : option VkPresentRegionKHR)
    (io : present_io)
| call_manager (wsi_conn : wsi_x11_connection) (io : manager_io)
    (result : VkResult).

(** One call: what it returns to its caller (the manager returns nothing)
    and the chain it leaves; [None] when it does not return. *)
Definition run_call (k : call) (chain : x11_swapchain)
    : option (list VkResult * x11_swapchain) :=
  match k with
  | call_merge result =>
      let '(r, chain) := x11_swapchain_result chain result in Some ([r], chain)
  | call_acquire timeout geom ios =>
      match x11_acquire_next_image chain timeout geom ios with
      | Some (r, _, chain) => Some ([r], chain)
      | None => None
      end
  | call_present image_index damage io =>
      match x11_queue_present chain image_index damage io with
      | Some (r, chain) => Some ([r], chain)
      | None => None
      end
  | call_manager wsi_conn io result =>
      match manager_turn wsi_conn io chain result with
      | turn_next _ chain => Some ([], chain)
      | turn_exit chain => Some ([], chain)
      | turn_blocked => None
      end
  end.

Fixpoint run_calls (ks : list call) (chain : x11_swapchain)
    : option (list VkResult * x11_swapchain) :=
  match ks with
  | [] => Some ([], chain)
  | k :: ks' =>
      match run_call k chain with
      | None => None
      | Some (rs, chain) =>
          match run_calls ks' chain with
          | None => None
          | Some (rs', chain) => Some (rs ++ rs', chain)
          end
      end
  end.

(** *** A chain to run the engine on *)

Definition example_device : wsi_device :=
  {| has_import_memory_host := false; supports_modifiers := true;
     force_bgra8_unorm_first := false; enable_adaptive_sync := false;
     x11_override_minImageCount := 0; x11_strict_imageCount := false;
     x11_ensure_minImageCount := false; x11_xwaylandWaitReady := true;
     sw := false |}.

Definition example_image (id : Z) : x11_image :=
  {| row_pitch := 256; pixmap := id; update_region := 100 + id;
     update_area := 0; busy := false; present_queued := false;
     shm_fence := true; sync_fence := 200 + id; serial := 0 |}.

(** A hardware chain of three images in immediate mode, as creation
    leaves it. *)
Definition example_chain : x11_swapchain :=
  {| base := {| wsi := example_device; image_count := 3;
                present_mode := VK_PRESENT_MODE_IMMEDIATE_KHR |};
     chain_has_dri3_modifiers := true; chain_has_mit_shm := false;
     conn := []; window := 7; gc := 8; depth := 24;
     chain_extent := {| width := 64; height := 64 |};
     send_sbc := 0; last_present_msc := 0; sent_image_count := 0;
     has_present_queue := false; has_acquire_queue := false;
     status := VK_SUCCESS; copy_is_suboptimal := false;
     present_queue := []; acquire_queue := [];
     images := [example_image 1; example_image 2; example_image 3] |}.

Definition example_connection : wsi_x11_connection :=
  {| has_dri3 := true; has_dri3_modifiers := true; has_present := true;
     is_proprietary_x11 := false; is_xwayland := false; has_mit_shm := false;
     has_xfixes := true |}.

(** A server that has nothing pending and accepts the present. *)
Definition example_present_io : present_io :=
  {| pio_wsi_conn := Some example_connection; pio_events := [];
     pio_error := false; pio_max_request_length := 65535 |}.

Definition example_manager_io : manager_io :=
  {| mio_fence_wait := VK_SUCCESS; mio_present := example_present_io;
     mio_events := [] |}.

Definition example_calls : list call :=
  [ call_acquire 0 None [];
    call_present 0 None example_present_io;
    call_merge VK_SUCCESS;
    call_manager example_connection example_manager_io VK_SUCCESS;
    call_acquire UINT64_MAX None [] ].

(** A software device and its chain, without MIT-SHM. *)
Definition example_sw_device : wsi_device :=
  {| has_import_memory_host := false; supports_modifiers := false;
     force_bgra8_unorm_first := false; enable_adaptive_sync := false;
     x11_override_minImageCount := 0; x11_strict_imageCount := false;
     x11_ensure_minImageCount := false; x11_xwaylandWaitReady := true;
     sw := true |}.

Definition example_sw_chain : x11_swapchain :=
  {| base := {| wsi := example_sw_device; image_count := 3;
                present_mode := VK_PRESENT_MODE_FIFO_KHR |};
     chain_has_dri3_modifiers := false; chain_has_mit_shm := false;
     conn := []; window := 7; gc := 8; depth := 24;
     chain_extent := {| width := 64; height := 64 |};
     send_sbc := 0; last_present_msc := 0; sent_image_count := 0;
     has_present_queue := false; has_acquire_queue := false;
     status := VK_SUCCESS; copy_is_suboptimal := false;
     present_queue := []; acquire_queue := [];
     images := [example_image 1; example_image 2; example_image 3] |}.

(** An XWayland connection, and a device whose [vk_xwayland_wait_ready]
    option is off. *)
Definition example_xwayland_connection : wsi_x11_connection :=
  {| has_dri3 := true; has_dri3_modifiers := true; has_present := true;
     is_proprietary_x11 := false; is_xwayland := true; has_mit_shm := false;
     has_xfixes := true |}.

Definition example_device_no_wait_ready : wsi_device :=
  {| has_import_memory_host := false; supports_modifiers := true;
     force_bgra8_unorm_first := false; enable_adaptive_sync := false;
     x11_override_minImageCount := 0; x11_strict_imageCount := false;
     x11_ensure_minImageCount := false; x11_xwaylandWaitReady := false;
     sw := false |}.

(** A server that answers every query of the probe; [dri3] is the
    [present] byte of its reply to the DRI3 query. *)
Definition example_probe_io (dri3 : Z) : probe_io :=
  {| probe_alloc := true; debug_noshm := false;
     dri3_reply := Some {| present := dri3 |};
     pres_reply := Some {| present := 1 |};
     randr_reply := Some {| present := 1 |};
     amd_reply := Some {| present := 0 |};
     nv_reply := Some {| present := 0 |};
     xfixes_reply := Some {| present := 1 |};
     xwl_reply := Some {| present := 0 |};
     shm_reply := None;
     dri3_version := Some {| major_version := 1; minor_version := 2 |};
     present_version := Some {| major_version := 1; minor_version := 2 |};
     xfixes_version := {| major_version := 6; minor_version := 0 |};
     randr_version := Some {| major_version := 1; minor_version := 6 |};
     shm_version := {| shared_pixmaps := 1 |};
     shm_detach_error := None;
     gsr_reply := Some {| num_outputs := 1 |};
     goi_reply := Some {| output_name := Some "eDP-1"%string |} |}.

(** *** Presents in submission order *)

(** Whether a present reaches the server: the connection entry is there
    and no pending event leaves a negative status. *)
Definition submits (io : present_io) (chain : x11_swapchain) : bool :=
  match pio_wsi_conn io with
  | Some _ =>
      match (poll_pending_events (pio_events io) chain).1 with
      | None => true
      | Some _ => false
      end
  | None => false
  end.

(** A run of [x11_present_to_x11_dri3], each with its answers, its image
    index and its target MSC: the serial every submitted present gave its
    image, in submission order, and the chain at the end. *)
Fixpoint present_serials (ps : list (present_io * Z * Z))
    (chain : x11_swapchain) : list Z * x11_swapchain :=
  match ps with
  | [] => ([], chain)
  | (io, image_index, target_msc) :: ps' =>
      let chain' := (x11_present_to_x11_dri3 io chain image_index target_msc).2 in
      let '(serials, chain'') := present_serials ps' chain' in
      if submits io chain
      then (from_option serial 0 (images chain' !! Z.to_nat image_index)
              :: serials, chain'')
      else (serials, chain'')
  end.

(** Three presents, of the images 0, 1 and 2. *)
Definition example_presents : list (present_io * Z * Z) :=
  [ (example_present_io, 0, 0); (example_present_io, 1, 0);
    (example_present_io, 2, 0) ].

(** A server that reports a window one pixel wider before it accepts the
    present, and one that completes the present of [serial] in [mode]. *)
Definition example_resized_io : present_io :=
  {| pio_wsi_conn := Some example_connection;
     pio_events := [XCB_PRESENT_CONFIGURE_NOTIFY 65 64];
     pio_error := false; pio_max_request_length := 65535 |}.

Definition example_complete_io (mode : xcb_present_complete_mode_t)
    (serial : Z) : present_io :=
  {| pio_wsi_conn := Some example_connection;
     pio_events :=
       [XCB_PRESENT_EVENT_COMPLETE_NOTIFY XCB_PRESENT_COMPLETE_KIND_PIXMAP
          mode serial 1000];
     pio_error := false; pio_max_request_length := 65535 |}.

Definition example_device_bgra8_first : wsi_device :=
  {| has_import_memory_host := false; supports_modifiers := true;
     force_bgra8_unorm_first := true; enable_adaptive_sync := false;
     x11_override_minImageCount := 0; x11_strict_imageCount := false;
     x11_ensure_minImageCount := false; x11_xwaylandWaitReady := true;
     sw := false |}.

(** *** The image count of the specification *)

(** The count as the specification resolves it: the requested count under
    [strict]; otherwise at least 5 when the fence-wait policy applies
    ([waits]); otherwise at least the floor under [ensure], the floor being
    [override] if it is not zero and 3 otherwise; otherwise the requested
    count. *)
Definition resolved_image_count (strict waits ensure : bool)
    (override requested : Z) : Z :=
  if strict then requested
  else if waits then Z.max requested 5
  else if ensure then Z.max requested (if override =? 0 then 3 else override)
  else requested.

(** A server and an allocator that let the creation through. *)
Definition example_create_io : create_io :=
  {| cio_wsi_conn := Some example_connection;
     cio_geometry :=
       Some {| geom_depth := 24; geom_width := 64; geom_height := 64 |};
     cio_alloc := true; cio_swapchain_init := VK_SUCCESS; cio_gc := 8;
     cio_image_init := fun i => (VK_SUCCESS, example_image (Z.of_nat i + 1));
     cio_present_queue_init := 0; cio_acquire_queue_init := 0;
     cio_thread_create := 0 |}.

Definition example_create_info : VkSwapchainCreateInfoKHR :=
  {| minImageCount := 2; imageExtent := {| width := 64; height := 64 |} |}.

(** *** The surface formats of the specification *)

(** The members of the table whose bits per channel equal the popcount of
    each of the red, green and blue masks of the visual, in table order. *)
Definition kept_formats (visual : xcb_visualtype_t) : list VkFormat :=
  format <$>
    filter (fun f => bits_per_rgb f = util_bitcount (red_mask visual)
                     /\ bits_per_rgb f = util_bitcount (green_mask visual)
                     /\ bits_per_rgb f = util_bitcount (blue_mask visual))
           formats.

(** The list with the elements at the positions 0 and [i] exchanged. *)
Definition exchange_with_first (l : list VkFormat) (i : nat) : list VkFormat :=
  <[0%nat := l !!! i]> (<[i := l !!! 0%nat]> l).

(** The kept formats, with [VK_FORMAT_B8G8R8A8_UNORM] exchanged with the
    first of them when [force] is set and it is among them. *)
Definition surface_formats_of_spec (visual : xcb_visualtype_t) (force : bool)
    : list VkFormat :=
  let kept := kept_formats visual in
  if force then
    match list_find (fun f => f = VK_FORMAT_B8G8R8A8_UNORM) kept with
    | Some (i, _) => exchange_with_first kept i
    | None => kept
    end
  else kept.

Definition example_visual : xcb_visualtype_t :=
  {| visual_class := 4; red_mask := 16711680; green_mask := 65280;
     blue_mask := 255 |}.

(** *** Damage on the server *)

Definition is_set_region (r : xcb_request) : bool :=
  match r with
  | xcb_xfixes_set_region _ _ _ => true
  | _ => false
  end.

(** The [xcb_xfixes_set_region] requests the connection has been sent, and
    the update areas of the images. *)
Definition regions_set (c : x11_swapchain) : list xcb_request :=
  List.filter is_set_region (conn c).

Definition update_areas (c : x11_swapchain) : list Z :=
  update_area <$> images c.

(** A present region of 65 rectangles, and one of none. *)
Definition example_rect : VkRectLayerKHR :=
  {| offset_x := 0; offset_y := 0; extent := {| width := 8; height := 8 |};
     layer := 0 |}.

Definition example_damage_65 : VkPresentRegionKHR :=
  {| rectangleCount := 65; pRectangles := Some (replicate 65 example_rect) |}.

Definition example_damage_0 : VkPresentRegionKHR :=
  {| rectangleCount := 0; pRectangles := Some [] |}.

(** What a call returns on a chain whose status [s] is negative. *)
Definition returned_on_error (s : VkResult) (k : call) : list VkResult :=
  match k with
  | call_manager _ _ _ => []
  | _ => [s]
  end.



(** How a later status relates to an earlier one under the latch: a
    negative status is kept, a suboptimal one is kept or replaced by a
    negative one. *)
Definition sticky (s s' : VkResult) : Prop :=
  (s < 0 -> s' = s) /\
  (s = VK_SUBOPTIMAL_KHR -> s' = VK_SUBOPTIMAL_KHR \/ s' < 0).

(** *** Frames *)

(** Chains with the same [send_sbc] and as many images. *)
Definition same_counter (c c' : x11_swapchain) : Prop :=
  send_sbc c' = send_sbc c /\ length (images c') = length (images c).

(** Chains with the same region requests sent and the same update areas. *)
Definition same_damage (c c' : x11_swapchain) : Prop :=
  regions_set c' = regions_set c /\ update_areas c' = update_areas c.

(** *** More chains and answers to run the engine on *)

(** The chain with every image acquired, and with the first one only. *)
Definition example_busy_chain : x11_swapchain :=
  set_images example_chain
    [ set_busy (example_image 1) true; set_busy (example_image 2) true;
      set_busy (example_image 3) true ].


(** A [poll] that wakes up after 50 ticks with nothing to read, one that
    runs out, and one that fails. *)
Definition example_poll_io : poll_io :=
  {| io_event := None; io_time_before := 100; io_poll := 1;
     io_time_after := 150 |}.

Definition example_poll_timeout_io : poll_io :=
  {| io_event := None; io_time_before := 100; io_poll := 0;
     io_time_after := 1100 |}.

Definition example_poll_error_io : poll_io :=
  {| io_event := None; io_time_before := 100; io_poll := -1;
     io_time_after := 100 |}.

(** A hardware chain in fifo mode with its two queues, as creation leaves
    it, and the same chain after image 0 has been acquired and queued for
    presentation. *)
Definition example_fifo_chain : x11_swapchain :=
  {| base := {| wsi := example_device; image_count := 3;
                present_mode := VK_PRESENT_MODE_FIFO_KHR |};
     chain_has_dri3_modifiers := true; chain_has_mit_shm := false;
     conn := []; window := 7; gc := 8; depth := 24;
     chain_extent := {| width := 64; height := 64 |};
     send_sbc := 0; last_present_msc := 0; sent_image_count := 0;
     has_present_queue := true; has_acquire_queue := true;
     status := VK_SUCCESS; copy_is_suboptimal := false;
     present_queue := []; acquire_queue := [0; 1; 2];
     images := [example_image 1; example_image 2; example_image 3] |}.

Definition example_queued_chain : x11_swapchain :=
  set_present_queue
    (set_acquire_queue
       (set_images example_fifo_chain
          [ set_busy (example_image 1) true; example_image 2;
            example_image 3 ])
       [1; 2])
    [0].

(** A server that refuses the present request. *)
Definition example_refused_io : present_io :=
  {| pio_wsi_conn := Some example_connection; pio_events := [];
     pio_error := true; pio_max_request_length := 65535 |}.

(** A manager turn in which the present completes by flip with serial 1. *)
Definition example_completing_manager_io : manager_io :=
  {| mio_fence_wait := VK_SUCCESS; mio_present := example_present_io;
     mio_events :=
       [ Some (XCB_PRESENT_EVENT_COMPLETE_NOTIFY
                 XCB_PRESENT_COMPLETE_KIND_PIXMAP XCB_PRESENT_COMPLETE_MODE_FLIP
                 1 1000) ] |}.

(** A creation in which [pthread_create] fails. *)
Definition example_create_io_no_thread : create_io :=
  {| cio_wsi_conn := Some example_connection;
     cio_geometry :=
       Some {| geom_depth := 24; geom_width := 64; geom_height := 64 |};
     cio_alloc := true; cio_swapchain_init := VK_SUCCESS; cio_gc := 8;
     cio_image_init := fun i => (VK_SUCCESS, example_image (Z.of_nat i + 1));
     cio_present_queue_init := 0; cio_acquire_queue_init := 0;
     cio_thread_create := 11 |}.

Definition example_geometry : xcb_get_geometry_reply_t :=
  {| geom_depth := 24; geom_width := 64; geom_height := 64 |}.

(** One screen with the example visual at depth 24 and at depth 32. *)
Definition example_screens : list xcb_screen_t :=
  [ {| root := 1;
       allowed_depths :=
         [ {| depth_depth := 24; depth_visuals := [(33, example_visual)] |};
           {| depth_depth := 32; depth_visuals := [(34, example_visual)] |} ] |} ].

Definition example_caps : VkSurfaceCapabilitiesKHR :=
  {| caps_minImageCount := 0; caps_maxImageCount := 0;
     currentExtent := {| width := 0; height := 0 |};
     minImageExtent := {| width := 0; height := 0 |};
     maxImageExtent := {| width := 0; height := 0 |};
     maxImageArrayLayers := 0; supportedTransforms := 0;
     currentTransform := 0; supportedCompositeAlpha := 0;
     supportedUsageFlags := 0 |}.

(** A software device with host-memory import, and a server with MIT-SHM
    whose probing detach fails with [BadValue]. *)
Definition example_shm_device : wsi_device :=
  {| has_import_memory_host := true; supports_modifiers := false;
     force_bgra8_unorm_first := false; enable_adaptive_sync := false;
     x11_override_minImageCount := 0; x11_strict_imageCount := false;
     x11_ensure_minImageCount := false; x11_xwaylandWaitReady := true;
     sw := true |}.

Definition example_shm_probe_io : probe_io :=
  {| probe_alloc := true; debug_noshm := false;
     dri3_reply := Some {| present := 1 |};
     pres_reply := Some {| present := 1 |};
     randr_reply := Some {| present := 1 |};
     amd_reply := Some {| present := 0 |};
     nv_reply := Some {| present := 1 |};
     xfixes_reply := Some {| present := 1 |};
     xwl_reply := Some {| present := 0 |};
     shm_reply := Some {| present := 1 |};
     dri3_version := Some {| major_version := 1; minor_version := 2 |};
     present_version := Some {| major_version := 1; minor_version := 2 |};
     xfixes_version := {| major_version := 6; minor_version := 0 |};
     randr_version := Some {| major_version := 1; minor_version := 6 |};
     shm_version := {| shared_pixmaps := 1 |};
     shm_detach_error := Some 2;
     gsr_reply := Some {| num_outputs := 1 |};
     goi_reply := Some {| output_name := Some "eDP-1"%string |} |}.

(** *** Tactics *)

(** Case analysis on the integer tests of the C conditions. *)
Ltac ztests :=
  repeat match goal with
  | |- context [?a <? ?b] => destruct (Z.ltb_spec a b)
  | |- context [?a <=? ?b] => destruct (Z.leb_spec a b)
  | |- context [?a =? ?b] => destruct (Z.eqb_spec a b)
  end.

Ltac vk_consts :=
  unfold VK_SUCCESS, VK_NOT_READY, VK_TIMEOUT, VK_SUBOPTIMAL_KHR,
    VK_ERROR_OUT_OF_HOST_MEMORY, VK_ERROR_SURFACE_LOST_KHR,
    VK_ERROR_OUT_OF_DATE_KHR in *.

(** ** The status latch is sticky *)

Lemma sticky_refl s : sticky s s.
Proof. split; auto. Qed.

Lemma sticky_trans s1 s2 s3 : sticky s1 s2 -> sticky s2 s3 -> sticky s1 s3.
Proof.
  unfold sticky. intros [Hn1 Hs1] [Hn2 Hs2]. split.
  - intros H. rewrite <- (Hn1 H). apply Hn2. rewrite (Hn1 H). exact H.
  - intros H. destruct (Hs1 H) as [E | L].
    + exact (Hs2 E).
    + right. rewrite (Hn2 L). exact L.
Qed.

Lemma status_update_image c i f : status (update_image c i f) = status c.
Proof. unfold update_image. destruct (images c !! Z.to_nat i); reflexivity. Qed.

(** The helper on a chain whose status is negative: nothing is written and
    the stored status is returned, whatever the result. *)
Lemma merge_negative c r :
  status c < 0 -> x11_swapchain_result c r = (status c, c).
Proof.
  intros H. unfold x11_swapchain_result, _x11_swapchain_result.
  destruct (Z.ltb_spec (status c) 0); [reflexivity | lia].
Qed.

(** The status the helper leaves. *)
Lemma merge_status c r :
  status (x11_swapchain_result c r).2 =
  if status c <? 0 then status c
  else if r <? 0 then r
  else if r =? VK_SUBOPTIMAL_KHR then r
  else status c.
Proof.
  unfold x11_swapchain_result, _x11_swapchain_result.
  destruct (Z.ltb_spec (status c) 0); [reflexivity |].
  destruct (Z.ltb_spec r 0); [reflexivity |].
  destruct (Z.eqb_spec r VK_TIMEOUT) as [-> | ?]; [reflexivity |].
  destruct (Z.eqb_spec r VK_NOT_READY) as [-> | ?]; [reflexivity |].
  simpl. destruct (Z.eqb_spec r VK_SUBOPTIMAL_KHR); reflexivity.
Qed.

Lemma merge_sticky c r : sticky (status c) (status (x11_swapchain_result c r).2).
Proof.
  rewrite merge_status. unfold sticky. ztests; vk_consts; lia.
Qed.

(** The event handler does not write the status. *)
Lemma handle_status c e :
  status (x11_handle_dri3_present_event c e).2 = status c.
Proof.
  destruct e as [w h | px | kind mode ser msc |]; simpl.
  - destruct (negb (w =? width (chain_extent c)) || negb (h =? height (chain_extent c)));
      reflexivity.
  - destruct (find_index _ (ring c) 0) as [i |]; [| reflexivity].
    match goal with
    | |- context [if ?b then _ else _] => destruct b
    end; simpl; apply status_update_image.
  - destruct kind, mode; simpl;
      repeat match goal with
             | |- context [if ?b then _ else _] => destruct b
             end; reflexivity.
  - reflexivity.
Qed.

Lemma handle_and_merge_sticky c e :
  sticky (status c) (status (handle_and_merge c e).2).
Proof.
  unfold handle_and_merge.
  pose proof (handle_status c e) as Hs.
  destruct (x11_handle_dri3_present_event c e) as [r c']. simpl in Hs.
  rewrite <- Hs. apply merge_sticky.
Qed.

(** What the merge returns is the status it leaves, or a transient
    result. *)
Lemma merge_returns c r :
  (x11_swapchain_result c r).1 = status (x11_swapchain_result c r).2
  \/ (0 <= status c /\ (x11_swapchain_result c r).1 = r
      /\ (r = VK_TIMEOUT \/ r = VK_NOT_READY)).
Proof.
  unfold x11_swapchain_result, _x11_swapchain_result.
  destruct (Z.ltb_spec (status c) 0); [left; reflexivity |].
  destruct (Z.ltb_spec r 0); [left; reflexivity |].
  destruct (Z.eqb_spec r VK_TIMEOUT) as [-> | ?]; [right; auto |].
  destruct (Z.eqb_spec r VK_NOT_READY) as [-> | ?]; [right; auto |].
  simpl. destruct (Z.eqb_spec r VK_SUBOPTIMAL_KHR); left; reflexivity.
Qed.

Lemma poll_pending_events_sticky events c :
  sticky (status c) (status (poll_pending_events events c).2).
Proof.
  revert c. induction events as [| e events IH]; intros c; simpl.
  - apply sticky_refl.
  - pose proof (handle_and_merge_sticky c e) as Hs.
    destruct (handle_and_merge c e) as [r c']. simpl in Hs.
    destruct (r <? 0); simpl; [exact Hs |].
    eapply sticky_trans; [exact Hs | apply IH].
Qed.

Lemma present_pixmap_status c i options msc :
  status (present_pixmap c i options msc) = status c.
Proof.
  unfold present_pixmap.
  destruct (images _ !! Z.to_nat i); simpl;
    rewrite status_update_image; simpl; apply status_update_image.
Qed.

Lemma present_dri3_sticky io c i msc :
  sticky (status c) (status (x11_present_to_x11_dri3 io c i msc).2).
Proof.
  unfold x11_present_to_x11_dri3.
  destruct (pio_wsi_conn io) as [wsi_conn |]; [| apply sticky_refl].
  pose proof (poll_pending_events_sticky (pio_events io) c) as Hs.
  destruct (poll_pending_events (pio_events io) c) as [[r |] c']; simpl in Hs;
    [exact Hs |].
  eapply sticky_trans; [exact Hs |].
  rewrite <- (present_pixmap_status c' i (present_options wsi_conn c) msc).
  destruct (pio_error io); apply merge_sticky.
Qed.

Lemma put_image_bands_status fuel c w stride n y todo c' :
  put_image_bands fuel c w stride n y todo = Some c' -> status c' = status c.
Proof.
  revert c y todo. induction fuel as [| fuel IH]; intros c y todo; simpl.
  - destruct (todo =? 0); [| discriminate]. intros [= <-]. reflexivity.
  - destruct (todo =? 0); [intros [= <-]; reflexivity |].
    intros H. apply IH in H. exact H.
Qed.

Lemma present_sw_sticky io c i msc r c' :
  x11_present_to_x11_sw io c i msc = Some (r, c') ->
  sticky (status c) (status c').
Proof.
  unfold x11_present_to_x11_sw.
  match goal with
  | |- match ?sent with _ => _ end = _ -> _ => destruct sent as [k |] eqn:Hsent
  end; [| discriminate].
  assert (Hk : status k = status c).
  { destruct (_ <? _) in Hsent.
    - injection Hsent as <-. reflexivity.
    - eapply put_image_bands_status. exact Hsent. }
  intros [= Hr]. rewrite <- Hk.
  match goal with
  | H : x11_swapchain_result ?k' _ = _ |- _ =>
      assert (Hk' : status k' = status k)
        by (simpl; apply status_update_image);
      pose proof (merge_sticky k' VK_SUCCESS) as Hm; rewrite H in Hm
  end.
  rewrite Hk' in Hm. exact Hm.
Qed.

Lemma present_to_x11_sticky io c i msc r c' :
  x11_present_to_x11 io c i msc = Some (r, c') ->
  sticky (status c) (status c').
Proof.
  unfold x11_present_to_x11.
  destruct (sw (wsi (base c)) && negb (chain_has_mit_shm c)).
  - apply present_sw_sticky.
  - intros [= H]. pose proof (present_dri3_sticky io c i msc) as Hs.
    rewrite H in Hs. exact Hs.
Qed.

Lemma queue_present_sticky c i damage io r c' :
  x11_queue_present c i damage io = Some (r, c') ->
  sticky (status c) (status c').
Proof.
  unfold x11_queue_present.
  destruct (status c <? 0); [intros [= _ <-]; apply sticky_refl |].
  match goal with
  | |- (let '(_, _) := ?d in _) = _ -> _ =>
      assert (Hd : status d.2 = status c);
      [| destruct d as [area k]; simpl in Hd]
  end.
  { destruct damage as [d |]; [| reflexivity].
    destruct (pRectangles d); [| reflexivity].
    destruct (_ && _); reflexivity. }
  match goal with
  | |- (if has_present_queue ?k' then _ else _) = _ -> _ =>
      assert (Hk : status k' = status c)
        by (rewrite !status_update_image; exact Hd);
      destruct (has_present_queue k')
  end.
  - intros [= _ <-]. simpl. rewrite Hk. apply sticky_refl.
  - intros H. apply present_to_x11_sticky in H. rewrite Hk in H. exact H.
Qed.

Lemma acquire_poll_sticky ios c timeout r out c' :
  x11_acquire_next_image_poll_x11 ios c timeout = Some (r, out, c') ->
  sticky (status c) (status c').
Proof.
  revert c timeout. induction ios as [| io ios IH]; intros c timeout; simpl.
  - destruct (find_index _ (ring c) 0) as [i |]; [| discriminate].
    intros [= _ _ <-].
    eapply sticky_trans; [| apply merge_sticky].
    rewrite status_update_image. apply sticky_refl.
  - destruct (find_index _ (ring c) 0) as [i |].
    { intros [= _ _ <-].
      eapply sticky_trans; [| apply merge_sticky].
      rewrite status_update_image. apply sticky_refl. }
    assert (Hdispatch : forall event,
      (let '(result, chain) := handle_and_merge (send c xcb_flush) event in
       if result <? 0 then Some (result, None, chain)
       else x11_acquire_next_image_poll_x11 ios chain timeout) = Some (r, out, c') ->
      sticky (status c) (status c')).
    { intros event.
      pose proof (handle_and_merge_sticky (send c xcb_flush) event) as Hs.
      destruct (handle_and_merge (send c xcb_flush) event) as [r1 c1].
      simpl in Hs. destruct (r1 <? 0).
      - intros [= _ _ <-]. exact Hs.
      - intros H. apply IH in H. eapply sticky_trans; [exact Hs | exact H]. }
    destruct (timeout =? UINT64_MAX).
    + destruct (io_event io) as [event |]; [apply Hdispatch |].
      intros [= _ _ <-]. apply (merge_sticky (send c xcb_flush)).
    + destruct (io_event io) as [event |]; [apply Hdispatch |].
      destruct (timeout =? 0).
      { intros [= _ _ <-]. apply (merge_sticky (send c xcb_flush)). }
      destruct (io_poll io =? 0).
      { intros [= _ _ <-]. apply (merge_sticky (send c xcb_flush)). }
      destruct (io_poll io =? -1).
      { intros [= _ _ <-]. apply (merge_sticky (send c xcb_flush)). }
      intros H. apply IH in H. exact H.
Qed.

Lemma acquire_from_queue_sticky c timeout r out c' :
  x11_acquire_next_image_from_queue c timeout = Some (r, out, c') ->
  sticky (status c) (status c').
Proof.
  unfold x11_acquire_next_image_from_queue.
  destruct (wsi_queue_pull (acquire_queue c) timeout) as [[[r1 i] q] |];
    [| discriminate].
  destruct ((r1 <? 0) || (r1 =? VK_TIMEOUT)).
  - intros [= _ _ <-]. apply (merge_sticky (set_acquire_queue c q)).
  - simpl. destruct (status c <? 0).
    + intros [= _ _ <-]. apply sticky_refl.
    + intros [= _ _ <-]. rewrite status_update_image. apply sticky_refl.
Qed.

Lemma acquire_sticky c timeout geom ios r out c' :
  x11_acquire_next_image c timeout geom ios = Some (r, out, c') ->
  sticky (status c) (status c').
Proof.
  unfold x11_acquire_next_image.
  destruct (status c <? 0); [intros [= _ _ <-]; apply sticky_refl |].
  destruct (sw (wsi (base c)) && negb (chain_has_mit_shm c)).
  - destruct (find_index _ (ring c) 0) as [i |].
    + intros [= _ _ <-]. simpl. rewrite status_update_image. apply sticky_refl.
    + intros [= _ _ <-]. apply sticky_refl.
  - destruct (has_acquire_queue c).
    + apply acquire_from_queue_sticky.
    + apply acquire_poll_sticky.
Qed.

Lemma manager_fail_sticky c r : sticky (status c) (status (manager_fail c r)).
Proof.
  unfold manager_fail.
  destruct (has_acquire_queue _); simpl; apply merge_sticky.
Qed.

Lemma wait_for_present_sticky events c r i threshold :
  match wait_for_present events c r i threshold with
  | wait_done _ c' => sticky (status c) (status c')
  | wait_fail _ c' => sticky (status c) (status c')
  | wait_blocked => True
  end.
Proof.
  revert c r. induction events as [| [event |] events IH]; intros c r; simpl;
    destruct (_ || _); try exact I; try apply sticky_refl.
  pose proof (handle_and_merge_sticky c event) as Hs.
  destruct (handle_and_merge c event) as [r1 c1]. simpl in Hs.
  destruct (r1 <? 0); [exact Hs |].
  specialize (IH c1 r1).
  destruct (wait_for_present events c1 r1 i threshold);
    try exact I; eapply sticky_trans; eauto.
Qed.

Lemma manager_turn_sticky wsi_conn io c result :
  match manager_turn wsi_conn io c result with
  | turn_next _ c' => sticky (status c) (status c')
  | turn_exit c' => sticky (status c) (status c')
  | turn_blocked => True
  end.
Proof.
  unfold manager_turn.
  destruct (status c <? 0); [apply manager_fail_sticky |].
  destruct (wsi_queue_pull (present_queue c) INT64_MAX) as [[[r1 i] q] |];
    [| exact I].
  destruct (r1 <? 0); [apply (manager_fail_sticky (set_present_queue c q)) |].
  simpl. destruct (status c <? 0); [apply sticky_refl |].
  destruct (_ && _);
    [apply (manager_fail_sticky (set_present_queue c q)) |].
  match goal with
  | |- match match ?p with _ => _ end with _ => _ end =>
      destruct p as [[r2 c2] |] eqn:Hp
  end; [| exact I].
  apply present_to_x11_sticky in Hp. simpl in Hp.
  destruct (r2 <? 0).
  { eapply sticky_trans; [exact Hp | apply manager_fail_sticky]. }
  destruct (has_acquire_queue c2); [| exact Hp].
  match goal with
  | |- match match wait_for_present ?ev ?k ?r0 ?j ?t with _ => _ end with _ => _ end =>
      pose proof (wait_for_present_sticky ev k r0 j t) as Hw;
      destruct (wait_for_present ev k r0 j t)
  end; try exact I.
  - eapply sticky_trans; eauto.
  - eapply sticky_trans; [exact Hp |].
    eapply sticky_trans; [exact Hw | apply manager_fail_sticky].
Qed.

Lemma run_call_sticky k c rs c' :
  run_call k c = Some (rs, c') -> sticky (status c) (status c').
Proof.
  destruct k as [r | timeout geom ios | i damage io | wsi_conn io r]; simpl.
  - pose proof (merge_sticky c r) as Hs.
    destruct (x11_swapchain_result c r) as [r1 c1]. intros [= _ <-]. exact Hs.
  - destruct (x11_acquire_next_image c timeout geom ios) as [[[r1 out] c1] |] eqn:H;
      [| discriminate].
    intros [= _ <-]. eapply acquire_sticky. exact H.
  - destruct (x11_queue_present c i damage io) as [[r1 c1] |] eqn:H;
      [| discriminate].
    intros [= _ <-]. eapply queue_present_sticky. exact H.
  - pose proof (manager_turn_sticky wsi_conn io c r) as Hs.
    destruct (manager_turn wsi_conn io c r); [| | discriminate];
      intros [= _ <-]; exact Hs.
Qed.

Lemma run_calls_sticky ks c rs c' :
  run_calls ks c = Some (rs, c') -> sticky (status c) (status c').
Proof.
  revert c rs. induction ks as [| k ks IH]; intros c rs; simpl.
  - intros [= _ <-]. apply sticky_refl.
  - destruct (run_call k c) as [[rs1 c1] |] eqn:Hk; [| discriminate].
    destruct (run_calls ks c1) as [[rs2 c2] |] eqn:Hks; [| discriminate].
    intros [= _ <-]. eapply sticky_trans.
    + eapply run_call_sticky. exact Hk.
    + eapply IH. exact Hks.
Qed.

Lemma acquire_negative c timeout geom ios :
  status c < 0 ->
  x11_acquire_next_image c timeout geom ios = Some (status c, None, c).
Proof.
  intros H. unfold x11_acquire_next_image.
  destruct (Z.ltb_spec (status c) 0); [reflexivity | lia].
Qed.

Lemma queue_present_negative c i damage io :
  status c < 0 -> x11_queue_present c i damage io = Some (status c, c).
Proof.
  intros H. unfold x11_queue_present.
  destruct (Z.ltb_spec (status c) 0); [reflexivity | lia].
Qed.

Lemma run_call_negative k c :
  status c < 0 ->
  exists c', run_call k c = Some (returned_on_error (status c) k, c')
             /\ status c' = status c.
Proof.
  intros H.
  destruct k as [r | timeout geom ios | i damage io | wsi_conn io r]; simpl.
  - rewrite merge_negative by exact H. eauto.
  - rewrite acquire_negative by exact H. eauto.
  - rewrite queue_present_negative by exact H. eauto.
  - unfold manager_turn. destruct (Z.ltb_spec (status c) 0); [| lia].
    eexists. split; [reflexivity |].
    apply (manager_fail_sticky c r). exact H.
Qed.

Lemma run_calls_negative ks c :
  status c < 0 ->
  exists c', run_calls ks c = Some (flat_map (returned_on_error (status c)) ks, c')
             /\ status c' = status c.
Proof.
  revert c. induction ks as [| k ks IH]; intros c H; simpl.
  - eauto.
  - destruct (run_call_negative k c H) as (c1 & -> & H1).
    destruct (IH c1) as (c2 & -> & H2); [lia |].
    rewrite H1. eexists. split; [reflexivity | lia].
Qed.

Lemma merges_negative rs c :
  status c < 0 ->
  run_calls (map call_merge rs) c = Some (map (fun _ => status c) rs, c).
Proof.
  intros H. induction rs as [| r rs IH]; simpl; [reflexivity |].
  rewrite merge_negative by exact H. rewrite IH. reflexivity.
Qed.

(** From a status that is not negative and under results that are
    successes or suboptimal, the status after a run of merges: the first
    negative result if there is one. *)
Lemma merges_status rs c :
  exists outs c',
    run_calls (map call_merge rs) c = Some (outs, c')
    /\ length outs = length rs
    /\ (status c = VK_SUBOPTIMAL_KHR ->
        status c' =
        default VK_SUBOPTIMAL_KHR (head (filter (fun r => r < 0) rs))).
Proof.
  revert c. induction rs as [| r rs IH]; intros c; simpl.
  - eauto.
  - pose proof (merge_status c r) as Hs.
    destruct (x11_swapchain_result c r) as [r1 c1]. simpl in Hs.
    destruct (IH c1) as (outs & c2 & Hrun & Hlen & Hsub). rewrite Hrun.
    eexists _, _. split; [reflexivity |]. split; [simpl; lia |].
    intros Hc. rewrite Hc in Hs.
    rewrite filter_cons. destruct (decide (r < 0)) as [Hr | Hr]; simpl.
    + assert (Hc1 : status c1 = r).
      { rewrite Hs. vk_consts. simpl.
        destruct (Z.ltb_spec r 0); [reflexivity | lia]. }
      pose proof (merges_negative rs c1 ltac:(lia)) as Hn.
      rewrite Hn in Hrun. injection Hrun as _ <-. exact Hc1.
    + apply Hsub. rewrite Hs. vk_consts. simpl.
      destruct (Z.ltb_spec r 0); [lia |].
      destruct (Z.eqb_spec r 1000001003); [assumption | reflexivity].
Qed.

(** C1.  The status latch is sticky.  On a chain whose status is negative,
    every merge of a result keeps the chain as it is and returns the stored
    status, acquire and present return it, and so does every call in any
    sequence of merges, acquires, presents and manager turns, which leaves
    the status as it was.  On a chain whose status is [VK_SUBOPTIMAL_KHR],
    a sequence of merges leaves [VK_SUBOPTIMAL_KHR] unless one of the
    results is negative, and then the first negative result; any sequence
    of calls leaves [VK_SUBOPTIMAL_KHR] or a negative status. *)
Theorem status_latch_is_sticky (chain : x11_swapchain) (rs : list VkResult)
    (ks : list call) :
  (status chain < 0 ->
   run_calls (map call_merge rs) chain
     = Some (map (fun _ => status chain) rs, chain)
   /\ (forall timeout geom ios,
         x11_acquire_next_image chain timeout geom ios
         = Some (status chain, None, chain))
   /\ (forall image_index damage io,
         x11_queue_present chain image_index damage io
         = Some (status chain, chain))
   /\ exists chain',
        run_calls ks chain
          = Some (flat_map (returned_on_error (status chain)) ks, chain')
        /\ status chain' = status chain)
  /\ (status chain = VK_SUBOPTIMAL_KHR ->
      (exists outs chain',
          run_calls (map call_merge rs) chain = Some (outs, chain')
          /\ status chain'
             = default VK_SUBOPTIMAL_KHR (head (filter (fun r => r < 0) rs)))
      /\ forall outs chain',
          run_calls ks chain = Some (outs, chain') ->
          status chain' = VK_SUBOPTIMAL_KHR \/ status chain' < 0).
Proof.
  split.
  - intros H. split; [apply merges_negative; exact H |].
    split; [intros; apply acquire_negative; exact H |].
    split; [intros; apply queue_present_negative; exact H |].
    apply run_calls_negative. exact H.
  - intros H. split.
    + destruct (merges_status rs chain) as (outs & c' & Hrun & _ & Hs).
      exists outs, c'. split; [exact Hrun | exact (Hs H)].
    + intros outs c' Hrun. apply run_calls_sticky in Hrun.
      destruct Hrun as [_ Hs]. exact (Hs H).
Qed.

(** C2, as amended.  A [VK_TIMEOUT] or [VK_NOT_READY] merged into the latch
    never writes the stored status.  While the stored status is negative the
    call reports the stored status, not the transient result; while it is
    not negative ([VK_SUCCESS], [VK_SUBOPTIMAL_KHR]) the call reports the
    transient result. *)
Theorem transient_result_merge (chain : x11_swapchain) (result : VkResult)
    (Htransient : result = VK_TIMEOUT \/ result = VK_NOT_READY) :
  (status chain < 0 -> x11_swapchain_result chain result = (status chain, chain))
  /\ (0 <= status chain -> x11_swapchain_result chain result = (result, chain)).
Proof.
  split.
  - apply merge_negative.
  - intros H. unfold x11_swapchain_result, _x11_swapchain_result.
    destruct (Z.ltb_spec (status chain) 0); [lia |].
    destruct Htransient as [-> | ->]; reflexivity.
Qed.

(** The software acquire never writes the status. *)
Lemma sw_acquire_keeps_status c timeout geom ios r out c' :
  sw (wsi (base c)) = true -> chain_has_mit_shm c = false ->
  x11_acquire_next_image c timeout geom ios = Some (r, out, c') ->
  status c' = status c.
Proof.
  intros Hsw Hshm. unfold x11_acquire_next_image. rewrite Hsw, Hshm. simpl.
  destruct (status c <? 0); [intros [= _ _ <-]; reflexivity |].
  destruct (find_index _ (ring c) 0) as [i |].
  - intros [= _ _ <-]. simpl. apply status_update_image.
  - intros [= _ _ <-]. reflexivity.
Qed.

(** C3, at the input where the code leaves the claim.  On the software
    chain without MIT-SHM, an acquire whose geometry request gets no reply
    returns [VK_ERROR_SURFACE_LOST_KHR] and one that sees another window
    size returns [VK_SUBOPTIMAL_KHR], but neither is merged into the latch:
    the status stays [VK_SUCCESS], where [x11_swapchain_result] would have
    stored the result, and the next acquire succeeds. *)
Theorem sw_acquire_result_not_latched :
  (exists chain',
      x11_acquire_next_image example_sw_chain 0 None []
      = Some (VK_ERROR_SURFACE_LOST_KHR, Some 0, chain')
      /\ status chain' = VK_SUCCESS
      /\ status (x11_swapchain_result example_sw_chain
                   VK_ERROR_SURFACE_LOST_KHR).2
         = VK_ERROR_SURFACE_LOST_KHR
      /\ exists chain'',
          x11_acquire_next_image chain' 0
            (Some {| geom_depth := 24; geom_width := 64; geom_height := 64 |}) []
          = Some (VK_SUCCESS, Some 1, chain''))
  /\ (exists chain',
      x11_acquire_next_image example_sw_chain 0
        (Some {| geom_depth := 24; geom_width := 65; geom_height := 64 |}) []
      = Some (VK_SUBOPTIMAL_KHR, Some 0, chain')
      /\ status chain' = VK_SUCCESS
      /\ status (x11_swapchain_result example_sw_chain VK_SUBOPTIMAL_KHR).2
         = VK_SUBOPTIMAL_KHR).
Proof.
  split.
  - eexists. split; [reflexivity |]. split; [reflexivity |].
    split; [reflexivity |]. eexists. reflexivity.
  - eexists. split; [reflexivity |]. split; reflexivity.
Qed.

(** C4, as amended.  The fence-wait predicate is false whenever the
    connection is XWayland and [xwaylandWaitReady] is off; otherwise it is
    true in mailbox mode, [is_xwayland] in immediate mode and false in every
    other mode.  So mailbox mode waits unless the connection is XWayland
    with the option off, immediate mode waits exactly on XWayland with the
    option on, and the fifo modes never wait.  The manager thread looks at
    the result of [WaitForFences] only when the predicate holds. *)
Theorem needs_wait_for_fences_policy (wsi_device : wsi_device)
    (wsi_conn : wsi_x11_connection) (mode : VkPresentModeKHR)
    (io : manager_io) (chain : x11_swapchain) (result : VkResult) :
  x11_needs_wait_for_fences wsi_device wsi_conn mode
  = match mode with
    | VK_PRESENT_MODE_MAILBOX_KHR =>
        negb (is_xwayland wsi_conn && negb (x11_xwaylandWaitReady wsi_device))
    | VK_PRESENT_MODE_IMMEDIATE_KHR =>
        is_xwayland wsi_conn && x11_xwaylandWaitReady wsi_device
    | _ => false
    end
  /\ manager_turn wsi_conn io chain result
    = manager_turn wsi_conn
        {| mio_fence_wait :=
             if x11_needs_wait_for_fences (wsi (base chain)) wsi_conn
                  (present_mode (base chain))
             then mio_fence_wait io else VK_SUCCESS;
           mio_present := mio_present io; mio_events := mio_events io |}
        chain result.
Proof.
  split.
  - unfold x11_needs_wait_for_fences.
    destruct mode, (is_xwayland wsi_conn), (x11_xwaylandWaitReady wsi_device);
      reflexivity.
  - unfold manager_turn. simpl.
    destruct (x11_needs_wait_for_fences _ wsi_conn _); reflexivity.
Qed.

(** C5, as amended.  The factory returns none exactly when the allocation
    of the entry fails or the reply to the DRI3, the Present or the XFIXES
    extension query is missing.  When the three replies are there it returns
    an entry, also when they say the extension is absent: the entry then has
    [has_dri3], [has_present] or [has_xfixes] false. *)
Theorem connection_create_none (wsi_dev : wsi_device) (io : probe_io) :
  (wsi_x11_connection_create wsi_dev io = None <->
   probe_alloc io = false \/ dri3_reply io = None \/ pres_reply io = None
   \/ xfixes_reply io = None)
  /\ forall dri3 pres xfixes,
      probe_alloc io = true -> dri3_reply io = Some dri3 ->
      pres_reply io = Some pres -> xfixes_reply io = Some xfixes ->
      exists entry,
        wsi_x11_connection_create wsi_dev io = Some entry
        /\ has_dri3 entry = negb (present dri3 =? 0)
        /\ has_present entry = negb (present pres =? 0)
        /\ has_xfixes entry
           = negb (present xfixes =? 0)
             && (2 <=? major_version (xfixes_version io)).
Proof.
  unfold wsi_x11_connection_create. split.
  - destruct (probe_alloc io); simpl; [| intuition].
    destruct (dri3_reply io), (pres_reply io), (xfixes_reply io);
      intuition discriminate.
  - intros dri3 pres xfixes -> -> -> ->. simpl.
    eexists. split; [reflexivity |]. simpl.
    destruct (present xfixes =? 0); auto.
Qed.

(** ** What acquire and present report on a suboptimal chain *)










(** ** The serial counter *)

Lemma same_counter_trans c1 c2 c3 :
  same_counter c1 c2 -> same_counter c2 c3 -> same_counter c1 c3.
Proof. unfold same_counter. intros [-> ->] [-> ->]. auto. Qed.

Lemma update_image_counter c i f : same_counter c (update_image c i f).
Proof.
  unfold same_counter, update_image.
  destruct (images c !! Z.to_nat i); simpl; [| auto].
  rewrite length_insert. auto.
Qed.

Lemma merge_counter c r : same_counter c (x11_swapchain_result c r).2.
Proof.
  unfold x11_swapchain_result, _x11_swapchain_result, same_counter.
  repeat match goal with
         | |- context [if ?b then _ else _] => destruct b
         end; simpl; auto.
Qed.

Lemma map_ring_length f c : length (images (map_ring f c)) = length (images c).
Proof.
  unfold map_ring, ring. simpl.
  rewrite length_app, length_map, length_take, length_drop. lia.
Qed.

Lemma handle_counter c e : same_counter c (x11_handle_dri3_present_event c e).2.
Proof.
  destruct e as [w h | px | kind mode ser msc |]; simpl.
  - destruct (_ || _); split; reflexivity.
  - destruct (find_index _ (ring c) 0) as [i |]; [| split; reflexivity].
    pose proof (update_image_counter c i (fun img => set_busy img false)) as Hu.
    match goal with
    | |- context [if ?b then _ else _] => destruct b
    end; simpl; exact Hu.
  - destruct kind, mode; simpl;
      repeat match goal with
             | |- context [if ?b then _ else _] => destruct b
             end; split; simpl; try reflexivity; apply map_ring_length.
  - split; reflexivity.
Qed.

Lemma handle_and_merge_counter c e : same_counter c (handle_and_merge c e).2.
Proof.
  unfold handle_and_merge.
  pose proof (handle_counter c e) as Hh.
  destruct (x11_handle_dri3_present_event c e) as [r c1]. simpl in Hh.
  eapply same_counter_trans; [exact Hh | apply merge_counter].
Qed.

Lemma poll_pending_events_counter events c :
  same_counter c (poll_pending_events events c).2.
Proof.
  revert c. induction events as [| e events IH]; intros c; simpl.
  - split; reflexivity.
  - pose proof (handle_and_merge_counter c e) as Hh.
    destruct (handle_and_merge c e) as [r c1]. simpl in Hh.
    destruct (r <? 0); simpl; [exact Hh |].
    eapply same_counter_trans; [exact Hh | apply IH].
Qed.

(** One present: a present that reaches the server adds one to [send_sbc]
    in [uint64_t] and gives the image the low 32 bits as its serial; a
    present that does not leaves the counter alone. *)
Lemma update_image_lookup c i f img :
  images c !! Z.to_nat i = Some img ->
  images (update_image c i f) !! Z.to_nat i = Some (f img).
Proof.
  intros H. unfold update_image. rewrite H. simpl.
  apply list_lookup_insert_eq. eapply lookup_lt_Some. exact H.
Qed.

(** The present that reaches the server adds one to [send_sbc] in
    [uint64_t] and gives the image the low 32 bits as its serial. *)
Lemma present_pixmap_counter c i options msc :
  0 <= i < Z.of_nat (length (images c)) ->
  length (images (present_pixmap c i options msc)) = length (images c)
  /\ send_sbc (present_pixmap c i options msc) = to_uint64 (send_sbc c + 1)
  /\ from_option serial 0 (images (present_pixmap c i options msc) !! Z.to_nat i)
     = to_uint32 (to_uint64 (send_sbc c + 1)).
Proof.
  intros Hi. unfold present_pixmap.
  assert (Hi1 : (Z.to_nat i < length (images c))%nat) by lia.
  destruct (lookup_lt_is_Some_2 _ _ Hi1) as [img Himg].
  set (c2 := update_image c i (fun image => set_shm_fence image false)).
  pose proof (update_image_counter c i (fun image => set_shm_fence image false))
    as [Hsbc2 Hlen2]. fold c2 in Hsbc2, Hlen2.
  pose proof (update_image_lookup c i (fun image => set_shm_fence image false)
                img Himg) as Himg2. fold c2 in Himg2.
  set (c3 := set_send_sbc (set_sent_image_count c2 (sent_image_count c2 + 1))
               (to_uint64 (send_sbc (set_sent_image_count c2 (sent_image_count c2 + 1)) + 1))).
  assert (Himg3 : images c3 !! Z.to_nat i = Some (set_shm_fence img false))
    by exact Himg2.
  set (f := fun image =>
              set_serial (set_present_queued image true) (to_uint32 (send_sbc c3))).
  pose proof (update_image_counter c3 i f) as [Hsbc4 Hlen4].
  pose proof (update_image_lookup c3 i f _ Himg3) as Himg4.
  rewrite Himg4. simpl.
  rewrite Hlen4, Hsbc4, Himg4. simpl. rewrite Hsbc2, Hlen2. auto.
Qed.

(** One present: a present that does not reach the server leaves the
    counter alone. *)
Lemma present_dri3_counter io c i msc :
  0 <= i < Z.of_nat (length (images c)) ->
  length (images (x11_present_to_x11_dri3 io c i msc).2) = length (images c)
  /\ if submits io c
     then send_sbc (x11_present_to_x11_dri3 io c i msc).2
          = to_uint64 (send_sbc c + 1)
          /\ from_option serial 0
               (images (x11_present_to_x11_dri3 io c i msc).2 !! Z.to_nat i)
             = to_uint32 (to_uint64 (send_sbc c + 1))
     else send_sbc (x11_present_to_x11_dri3 io c i msc).2 = send_sbc c.
Proof.
  intros Hi. unfold x11_present_to_x11_dri3, submits.
  destruct (pio_wsi_conn io) as [wsi_conn |]; [| auto].
  pose proof (poll_pending_events_counter (pio_events io) c) as [Hsbc Hlen].
  destruct (poll_pending_events (pio_events io) c) as [[r |] c1];
    simpl in Hsbc, Hlen |- *; [auto |].
  destruct (present_pixmap_counter c1 i (present_options wsi_conn c) msc)
    as (Hl & Hs & Hser); [lia |].
  assert (Hm : forall k r, images (x11_swapchain_result k r).2 = images k
                           /\ send_sbc (x11_swapchain_result k r).2 = send_sbc k).
  { intros k r0. unfold x11_swapchain_result, _x11_swapchain_result.
    repeat match goal with
           | |- context [if ?b then _ else _] => destruct b
           end; simpl; auto. }
  destruct (pio_error io);
    match goal with
    | |- context [x11_swapchain_result ?k ?r0] =>
        destruct (Hm k r0) as [-> ->]
    end; rewrite Hl, Hs, Hser, Hsbc, Hlen; auto.
Qed.

Lemma to_uint64_add_l a b : to_uint64 (to_uint64 a + b) = to_uint64 (a + b).
Proof. unfold to_uint64. apply Zplus_mod_idemp_l. Qed.

Lemma to_uint64_small a : 0 <= a < 2 ^ 64 -> to_uint64 a = a.
Proof. unfold to_uint64. apply Z.mod_small. Qed.

Lemma to_uint64_range a : 0 <= to_uint64 a < 2 ^ 64.
Proof. unfold to_uint64. apply Z.mod_pos_bound. lia. Qed.

(** The serials of a run of presents are the successive values of the
    counter, cut to 32 bits. *)
Lemma present_serials_counter ps : forall c,
  0 <= send_sbc c < 2 ^ 64 ->
  Forall (fun p : present_io * Z * Z =>
            0 <= p.1.2 < Z.of_nat (length (images c))) ps ->
  send_sbc (present_serials ps c).2
  = to_uint64 (send_sbc c + Z.of_nat (length (present_serials ps c).1))
  /\ (present_serials ps c).1
     = (fun k => to_uint32 (to_uint64 (send_sbc c + k)))
         <$> seqZ 1 (Z.of_nat (length (present_serials ps c).1)).
Proof.
  induction ps as [| [[io i] msc] ps IH]; intros c Hc Hps.
  - simpl. rewrite Z.add_0_r, to_uint64_small by exact Hc. auto.
  - apply Forall_cons in Hps as [Hi Hps]. simpl in Hi.
    destruct (present_dri3_counter io c i msc Hi) as [Hlen Hsub].
    cbn [present_serials].
    set (c1 := (x11_present_to_x11_dri3 io c i msc).2) in *.
    assert (Hps1 : Forall (fun p : present_io * Z * Z =>
                             0 <= p.1.2 < Z.of_nat (length (images c1))) ps)
      by (rewrite Hlen; exact Hps).
    destruct (submits io c).
    + destruct Hsub as [Hsbc Hser].
      assert (Hc1 : 0 <= send_sbc c1 < 2 ^ 64)
        by (rewrite Hsbc; apply to_uint64_range).
      destruct (IH c1 Hc1 Hps1) as [IHsbc IHser].
      destruct (present_serials ps c1) as [serials c2]. simpl in *.
      split.
      * rewrite IHsbc, Hsbc, to_uint64_add_l. f_equal. lia.
      * rewrite Hser.
        replace (Z.of_nat (S (length serials)))
          with (Z.succ (Z.of_nat (length serials))) by lia.
        rewrite seqZ_cons by lia. rewrite Z.pred_succ. simpl.
        rewrite Z.add_comm. f_equal.
        rewrite IHser at 1.
        replace (Z.succ 1) with (1 + 1) by lia.
        rewrite <- fmap_add_seqZ, <- list_fmap_compose.
        apply list_fmap_ext. intros _ k _. simpl.
        rewrite Hsbc, to_uint64_add_l. do 2 f_equal. lia.
    + destruct (IH c1 ltac:(rewrite Hsub; exact Hc) Hps1) as [IHsbc IHser].
      destruct (present_serials ps c1) as [serials c2]. simpl in *.
      rewrite Hsub in IHsbc, IHser. auto.
Qed.

Lemma seqZ_strongly_sorted (n : nat) : forall m,
  StronglySorted Z.lt (seqZ m (Z.of_nat n)).
Proof.
  induction n as [| n IH]; intros m.
  - rewrite seqZ_nil by lia. constructor.
  - rewrite seqZ_cons by lia.
    replace (Z.pred (Z.of_nat (S n))) with (Z.of_nat n) by lia.
    constructor; [apply IH |].
    apply Forall_seqZ. intros k Hk. lia.
Qed.

(** C7, as amended.  Every present that reaches the server adds one to
    [send_sbc], in [uint64_t], and gives its image the counter cut to 32
    bits as serial.  The serials of the presents of a chain are strictly
    increasing in submission order, and so distinct, as long as the counter
    stays below [2 ^ 32]; beyond, the 32-bit serial wraps around. *)
Theorem serials_increase_below_wrap (ps : list (present_io * Z * Z))
    (chain : x11_swapchain)
    (Hsbc : 0 <= send_sbc chain < 2 ^ 64)
    (Hrange : Forall (fun p : present_io * Z * Z =>
                        0 <= p.1.2 < Z.of_nat (length (images chain))) ps) :
  send_sbc (present_serials ps chain).2
  = to_uint64 (send_sbc chain
               + Z.of_nat (length (present_serials ps chain).1))
  /\ (present_serials ps chain).1
     = (fun k => to_uint32 (to_uint64 (send_sbc chain + k)))
         <$> seqZ 1 (Z.of_nat (length (present_serials ps chain).1))
  /\ (send_sbc chain + Z.of_nat (length (present_serials ps chain).1) < 2 ^ 32 ->
      StronglySorted Z.lt (present_serials ps chain).1
      /\ NoDup (present_serials ps chain).1).
Proof.
  destruct (present_serials_counter ps chain Hsbc Hrange) as [H1 H2].
  split; [exact H1 |]. split; [exact H2 |]. intros Hbound.
  assert (Hseq : (present_serials ps chain).1
                 = seqZ (send_sbc chain + 1)
                     (Z.of_nat (length (present_serials ps chain).1))).
  { rewrite H2 at 1. rewrite <- (fmap_add_seqZ (send_sbc chain) 1).
    apply list_fmap_ext. intros i k Hk. apply lookup_seqZ in Hk as [-> Hk].
    unfold to_uint32. rewrite to_uint64_small by lia.
    apply Z.mod_small. lia. }
  rewrite Hseq. split; [apply seqZ_strongly_sorted | apply NoDup_seqZ].
Qed.

(** ** Swapchain creation *)

Lemma MAX2_max a b : MAX2 a b = Z.max a b.
Proof. unfold MAX2. destruct (Z.ltb_spec b a); lia. Qed.

Lemma init_images_length init image todo imgs :
  init_images init image todo = (VK_SUCCESS, imgs) -> length imgs = todo.
Proof.
  revert image imgs. induction todo as [| todo IH]; intros image imgs; simpl.
  - intros [= <-]. reflexivity.
  - destruct (init image) as [r img].
    destruct (Z.eqb_spec r VK_SUCCESS) as [-> | Hr]; simpl.
    + destruct (init_images init (S image) todo) as [r' imgs'] eqn:Hrec.
      intros [= -> <-]. simpl. f_equal. eapply IH. exact Hrec.
    + intros [= -> _]. contradiction.
Qed.

(** C8.  The image count of a new swapchain is the count the specification
    resolves: the requested [minImageCount] under [strict_imageCount];
    otherwise [max(requested, 5)] when the fence-wait policy applies to the
    connection and the present mode; otherwise, under
    [ensure_minImageCount], [max(requested, floor)] with the floor
    [override_minImageCount] if it is not zero and 3 otherwise; otherwise
    the requested count.  A creation that returns a chain returns
    [VK_SUCCESS] and a chain of that many images. *)
Theorem image_count_resolution (wsi_device : wsi_device)
    (wsi_conn : wsi_x11_connection) (mode : VkPresentModeKHR)
    (pCreateInfo : VkSwapchainCreateInfoKHR) (surface_window : Z)
    (io : create_io) :
  num_images wsi_device wsi_conn mode pCreateInfo
  = resolved_image_count (x11_strict_imageCount wsi_device)
      (x11_needs_wait_for_fences wsi_device wsi_conn mode)
      (x11_ensure_minImageCount wsi_device)
      (x11_override_minImageCount wsi_device) (minImageCount pCreateInfo)
  /\ (cio_wsi_conn io = Some wsi_conn ->
      forall r chain,
        x11_surface_create_swapchain wsi_device surface_window mode
          pCreateInfo io = (r, Some chain) ->
        r = VK_SUCCESS
        /\ image_count (base chain)
           = resolved_image_count (x11_strict_imageCount wsi_device)
               (x11_needs_wait_for_fences wsi_device wsi_conn mode)
               (x11_ensure_minImageCount wsi_device)
               (x11_override_minImageCount wsi_device)
               (minImageCount pCreateInfo)
        /\ length (images chain) = Z.to_nat (image_count (base chain))).
Proof.
  assert (Hnum : num_images wsi_device wsi_conn mode pCreateInfo
                 = resolved_image_count (x11_strict_imageCount wsi_device)
                     (x11_needs_wait_for_fences wsi_device wsi_conn mode)
                     (x11_ensure_minImageCount wsi_device)
                     (x11_override_minImageCount wsi_device)
                     (minImageCount pCreateInfo)).
  { unfold num_images, resolved_image_count, x11_get_min_image_count.
    rewrite !MAX2_max.
    destruct (x11_strict_imageCount wsi_device); [reflexivity |].
    destruct (x11_needs_wait_for_fences wsi_device wsi_conn mode);
      [reflexivity |].
    destruct (x11_ensure_minImageCount wsi_device); [| reflexivity].
    destruct (x11_override_minImageCount wsi_device =? 0); reflexivity. }
  split; [exact Hnum |].
  intros Hconn r chain. unfold x11_surface_create_swapchain.
  rewrite Hconn, Hnum.
  destruct (cio_geometry io) as [geometry |]; [| discriminate].
  destruct (negb (cio_alloc io)); [discriminate |].
  destruct (negb (cio_swapchain_init io =? VK_SUCCESS)); [discriminate |].
  destruct (cio_gc io =? 0); [discriminate |].
  destruct (init_images _ 0 _) as [r1 imgs] eqn:Hinit.
  destruct (Z.eqb_spec r1 VK_SUCCESS) as [-> | Hr]; simpl; [| discriminate].
  apply init_images_length in Hinit.
  repeat match goal with
         | |- context [if ?b then _ else _] => destruct b
         end;
    try discriminate; intros [= <- <-]; simpl; auto.
Qed.

(** ** Surface formats *)

(** C9.  For a window whose visual is found, the format query returns the
    members of the table [B8G8R8A8_SRGB, B8G8R8A8_UNORM,
    A2R10G10B10_UNORM_PACK32] whose bits per channel equal the popcount of
    each of the red, green and blue masks, in table order; under
    [force_bgra8_unorm_first], a kept [B8G8R8A8_UNORM] is exchanged with the
    first kept format.  Without a visual the query fails. *)
Theorem sorted_formats_are_the_kept_ones (visual : xcb_visualtype_t)
    (wsi_device : wsi_device) :
  get_sorted_vk_formats (Some visual) wsi_device
  = Some (surface_formats_of_spec visual (force_bgra8_unorm_first wsi_device))
  /\ get_sorted_vk_formats None wsi_device = None.
Proof.
  split; [| reflexivity].
  unfold get_sorted_vk_formats, surface_formats_of_spec, kept_formats, formats.
  rewrite !filter_cons, filter_nil. cbn [keep_formats bits_per_rgb format].
  generalize (util_bitcount (red_mask visual)) as r.
  generalize (util_bitcount (green_mask visual)) as g.
  generalize (util_bitcount (blue_mask visual)) as b.
  intros b g r.
  destruct (Z.eqb_spec 8 r), (Z.eqb_spec 8 g), (Z.eqb_spec 8 b),
    (Z.eqb_spec 10 r), (Z.eqb_spec 10 g), (Z.eqb_spec 10 b);
    try lia;
    repeat case_decide; try (exfalso; simpl in *; lia);
    destruct (force_bgra8_unorm_first wsi_device); reflexivity.
Qed.

(** ** Damage *)

Lemma same_damage_refl c : same_damage c c.
Proof. split; reflexivity. Qed.

Lemma same_damage_trans c1 c2 c3 :
  same_damage c1 c2 -> same_damage c2 c3 -> same_damage c1 c3.
Proof. unfold same_damage. intros [-> ->] [-> ->]. auto. Qed.

Lemma update_image_damage c i f :
  (forall img, update_area (f img) = update_area img) ->
  same_damage c (update_image c i f).
Proof.
  intros Hf. unfold same_damage, update_image, regions_set, update_areas.
  destruct (images c !! Z.to_nat i) as [img |] eqn:Himg; simpl; [| auto].
  split; [reflexivity |].
  rewrite list_fmap_insert, Hf. apply list_insert_id.
  rewrite list_lookup_fmap, Himg. reflexivity.
Qed.

Lemma send_damage c r :
  is_set_region r = false -> same_damage c (send c r).
Proof.
  intros Hr. unfold same_damage, send, regions_set, update_areas. simpl.
  rewrite List.filter_app. simpl. rewrite Hr, app_nil_r. auto.
Qed.

Lemma merge_damage c r : same_damage c (x11_swapchain_result c r).2.
Proof.
  unfold x11_swapchain_result, _x11_swapchain_result.
  repeat match goal with
         | |- context [if ?b then _ else _] => destruct b
         end; split; reflexivity.
Qed.

Lemma map_ring_damage f c :
  (forall img, update_area (f img) = update_area img) ->
  same_damage c (map_ring f c).
Proof.
  intros Hf. unfold same_damage, map_ring, ring, regions_set, update_areas.
  simpl. split; [reflexivity |].
  rewrite fmap_app, <- list_fmap_compose.
  rewrite (list_fmap_ext (update_area ∘ f) update_area)
    by (intros; apply Hf).
  rewrite <- fmap_app, take_drop. reflexivity.
Qed.

Lemma handle_damage c e : same_damage c (x11_handle_dri3_present_event c e).2.
Proof.
  destruct e as [w h | px | kind mode ser msc |]; simpl.
  - destruct (_ || _); apply same_damage_refl.
  - destruct (find_index _ (ring c) 0) as [i |]; [| apply same_damage_refl].
    pose proof (update_image_damage c i (fun img => set_busy img false)
                  (fun _ => eq_refl)) as Hu.
    match goal with
    | |- context [if ?b then _ else _] => destruct b
    end; simpl; exact Hu.
  - assert (Hm : same_damage c
             (map_ring (fun image =>
                          if present_queued image && (serial image =? ser)
                          then set_present_queued image false else image) c)).
    { apply map_ring_damage. intros img. destruct (_ && _); reflexivity. }
    destruct kind, mode; cbn [snd];
      try destruct (copy_is_suboptimal _);
      try destruct HAVE_DRI3_MODIFIERS;
      cbn [snd];
      first [exact Hm | apply same_damage_refl | split; reflexivity].
  - apply same_damage_refl.
Qed.

Lemma handle_and_merge_damage c e : same_damage c (handle_and_merge c e).2.
Proof.
  unfold handle_and_merge.
  pose proof (handle_damage c e) as Hh.
  destruct (x11_handle_dri3_present_event c e) as [r c1]. simpl in Hh.
  eapply same_damage_trans; [exact Hh | apply merge_damage].
Qed.

Lemma poll_pending_events_damage events c :
  same_damage c (poll_pending_events events c).2.
Proof.
  revert c. induction events as [| e events IH]; intros c; simpl.
  - apply same_damage_refl.
  - pose proof (handle_and_merge_damage c e) as Hh.
    destruct (handle_and_merge c e) as [r c1]. simpl in Hh.
    destruct (r <? 0); simpl; [exact Hh |].
    eapply same_damage_trans; [exact Hh | apply IH].
Qed.

Lemma present_pixmap_damage c i options msc :
  same_damage c (present_pixmap c i options msc).
Proof.
  unfold present_pixmap.
  set (c2 := update_image c i (fun image => set_shm_fence image false)).
  assert (H2 : same_damage c c2)
    by (apply update_image_damage; reflexivity).
  set (c3 := set_send_sbc (set_sent_image_count c2 (sent_image_count c2 + 1))
               (to_uint64 (send_sbc (set_sent_image_count c2 (sent_image_count c2 + 1)) + 1))).
  assert (H3 : same_damage c c3) by exact H2.
  set (c4 := update_image c3 i _).
  assert (H4 : same_damage c c4).
  { eapply same_damage_trans; [exact H3 |].
    apply update_image_damage. reflexivity. }
  destruct (images c4 !! Z.to_nat i); [| exact H4].
  eapply same_damage_trans; [exact H4 | apply send_damage; reflexivity].
Qed.

Lemma present_dri3_damage io c i msc :
  same_damage c (x11_present_to_x11_dri3 io c i msc).2.
Proof.
  unfold x11_present_to_x11_dri3.
  destruct (pio_wsi_conn io) as [wsi_conn |]; [| apply same_damage_refl].
  pose proof (poll_pending_events_damage (pio_events io) c) as Hp.
  destruct (poll_pending_events (pio_events io) c) as [[r |] c1]; simpl in Hp;
    [exact Hp |].
  eapply same_damage_trans; [exact Hp |].
  eapply same_damage_trans; [apply present_pixmap_damage |].
  destruct (pio_error io); apply merge_damage.
Qed.

Lemma put_image_bands_damage fuel c w stride n y todo c' :
  put_image_bands fuel c w stride n y todo = Some c' -> same_damage c c'.
Proof.
  revert c y todo. induction fuel as [| fuel IH]; intros c y todo; simpl.
  - destruct (todo =? 0); [| discriminate]. intros [= <-].
    apply same_damage_refl.
  - destruct (todo =? 0); [intros [= <-]; apply same_damage_refl |].
    intros H. apply IH in H.
    eapply same_damage_trans; [| exact H]. apply send_damage. reflexivity.
Qed.

Lemma present_to_x11_damage io c i msc r c' :
  x11_present_to_x11 io c i msc = Some (r, c') -> same_damage c c'.
Proof.
  unfold x11_present_to_x11.
  destruct (sw (wsi (base c)) && negb (chain_has_mit_shm c)).
  - unfold x11_present_to_x11_sw.
    match goal with
    | |- match ?sent with _ => _ end = _ -> _ => destruct sent as [k |] eqn:Hsent
    end; [| discriminate].
    assert (Hk : same_damage c k).
    { destruct (_ <? _) in Hsent.
      - injection Hsent as <-. apply send_damage. reflexivity.
      - eapply put_image_bands_damage. exact Hsent. }
    intros [= Hr].
    match goal with
    | H : x11_swapchain_result ?k' _ = _ |- _ =>
        pose proof (merge_damage k' VK_SUCCESS) as Hm; rewrite H in Hm;
        assert (Hk' : same_damage k k')
    end.
    { eapply same_damage_trans;
        [apply (update_image_damage k i (fun img => set_busy img false));
         reflexivity
        | apply send_damage; reflexivity]. }
    eapply same_damage_trans; [exact Hk |].
    eapply same_damage_trans; [exact Hk' | exact Hm].
  - intros [= H]. pose proof (present_dri3_damage io c i msc) as Hs.
    rewrite H in Hs. exact Hs.
Qed.

(** C10.  A present whose damage has no rectangle or more than
    [MAX_DAMAGE_RECTS] rectangles is the present of the full image: it
    returns the same result and leaves the same chain as the present
    without damage, so that the count of rectangles causes no failure; it
    sends no [xcb_xfixes_set_region], and on a chain that is not in an error
    state the update area of the image is 0 afterwards. *)
Theorem unusable_damage_is_ignored (chain : x11_swapchain) (image_index : Z)
    (damage : VkPresentRegionKHR) (io : present_io)
    (Hcount : rectangleCount damage = 0
              \/ MAX_DAMAGE_RECTS < rectangleCount damage) :
  x11_queue_present chain image_index (Some damage) io
  = x11_queue_present chain image_index None io
  /\ forall r chain',
      x11_queue_present chain image_index (Some damage) io = Some (r, chain') ->
      regions_set chain' = regions_set chain
      /\ (0 <= status chain ->
          0 <= image_index < Z.of_nat (length (images chain)) ->
          update_area <$> images chain' !! Z.to_nat image_index = Some 0).
Proof.
  assert (Heq : x11_queue_present chain image_index (Some damage) io
                = x11_queue_present chain image_index None io).
  { unfold x11_queue_present.
    destruct (status chain <? 0); [reflexivity |].
    destruct (pRectangles damage); [| reflexivity].
    assert (Hf : (0 <? rectangleCount damage)
                 && (rectangleCount damage <=? MAX_DAMAGE_RECTS) = false).
    { destruct (Z.ltb_spec 0 (rectangleCount damage));
        destruct (Z.leb_spec (rectangleCount damage) MAX_DAMAGE_RECTS);
        simpl; try reflexivity.
      unfold MAX_DAMAGE_RECTS in *. lia. }
    rewrite Hf. reflexivity. }
  split; [exact Heq |]. rewrite Heq. clear Heq.
  intros r chain'. unfold x11_queue_present.
  destruct (Z.ltb_spec (status chain) 0).
  { intros [= _ <-]. split; [reflexivity | lia]. }
  set (c1 := update_image chain image_index (fun img => set_update_area img 0)).
  set (c2 := update_image c1 image_index (fun img => set_busy img true)).
  assert (H12 : same_damage c1 c2) by (apply update_image_damage; reflexivity).
  assert (Hreg : regions_set c2 = regions_set chain).
  { destruct H12 as [-> _]. unfold c1, update_image, regions_set.
    destruct (images chain !! Z.to_nat image_index); reflexivity. }
  assert (Harea : 0 <= image_index < Z.of_nat (length (images chain)) ->
                  update_areas c2 !! Z.to_nat image_index = Some 0).
  { intros Hi. destruct H12 as [_ ->].
    assert (Hi1 : (Z.to_nat image_index < length (images chain))%nat) by lia.
    destruct (lookup_lt_is_Some_2 _ _ Hi1) as [img Himg].
    unfold update_areas. rewrite list_lookup_fmap.
    unfold c1. erewrite update_image_lookup by exact Himg. reflexivity. }
  assert (Hfinal : same_damage c2 chain' ->
            regions_set chain' = regions_set chain
            /\ (0 <= status chain ->
                0 <= image_index < Z.of_nat (length (images chain)) ->
                update_area <$> images chain' !! Z.to_nat image_index = Some 0)).
  { intros [Hr Ha]. split; [rewrite Hr; exact Hreg |].
    intros _ Hi. rewrite <- list_lookup_fmap.
    change (update_areas chain' !! Z.to_nat image_index = Some 0).
    rewrite Ha. apply Harea. exact Hi. }
  simpl. fold c1. fold c2.
  destruct (has_present_queue c2).
  - intros [= _ <-]. apply Hfinal. split; reflexivity.
  - intros Hp. apply Hfinal. eapply present_to_x11_damage. exact Hp.
Qed.

(** When every present of a run finds its connection entry and no pending
    event, every present reaches the server. *)
Lemma present_serials_length ps : forall c,
  Forall (fun p : present_io * Z * Z =>
            pio_wsi_conn p.1.1 <> None /\ pio_events p.1.1 = []) ps ->
  length (present_serials ps c).1 = length ps.
Proof.
  induction ps as [| [[io i] msc] ps IH]; intros c Hps; [reflexivity |].
  apply Forall_cons in Hps as [[Hconn Hev] Hps]. simpl in Hconn, Hev.
  cbn [present_serials].
  specialize (IH (x11_present_to_x11_dri3 io c i msc).2 Hps).
  destruct (present_serials ps (x11_present_to_x11_dri3 io c i msc).2)
    as [serials c2].
  unfold submits. rewrite Hev. simpl.
  destruct (pio_wsi_conn io); [| contradiction]. simpl in *. lia.
Qed.

(** ** The deadline of an acquire *)

(** X1.  [wsi_get_absolute_timeout] adds the timeout to the clock and
    saturates at [UINT64_MAX]: the deadline never wraps around and is never
    before the clock. *)
Theorem absolute_timeout_saturates (current_time timeout : Z)
    (Hclock : 0 <= current_time <= UINT64_MAX)
    (Htimeout : 0 <= timeout <= UINT64_MAX) :
  wsi_get_absolute_timeout current_time timeout
  = Z.min (current_time + timeout) UINT64_MAX
  /\ current_time <= wsi_get_absolute_timeout current_time timeout <= UINT64_MAX.
Proof.
  unfold wsi_get_absolute_timeout, MIN2, to_uint64, UINT64_MAX in *.
  rewrite (Z.mod_small (18446744073709551615 - current_time)) by lia.
  destruct (Z.ltb_spec (18446744073709551615 - current_time) timeout);
    rewrite Z.mod_small by lia; lia.
Qed.

Lemma find_index_None {A} (p : A -> bool) (l : list A) : forall i,
  find_index p l i = None <-> Forall (fun x => p x = false) l.
Proof.
  induction l as [| x l IH]; intros i; simpl.
  - split; [constructor | reflexivity].
  - destruct (p x) eqn:Hp.
    + split; [discriminate |]. intros H. apply Forall_cons in H as [H _].
      congruence.
    + rewrite IH. split; [intros H; constructor; assumption |].
      intros H. apply Forall_cons in H as [_ H]. exact H.
Qed.

Lemma find_index_Some {A} (p : A -> bool) (l : list A) : forall i (k : nat) x,
  l !! k = Some x -> p x = true ->
  (forall j y, (j < k)%nat -> l !! j = Some y -> p y = false) ->
  find_index p l i = Some (i + Z.of_nat k).
Proof.
  induction l as [| z l IH]; intros i k x Hk Hp Hfirst; [discriminate |].
  destruct k as [| k]; simpl in *.
  - injection Hk as ->. rewrite Hp. f_equal. lia.
  - rewrite (Hfirst 0%nat z) by (reflexivity || lia).
    rewrite (IH (i + 1) k x Hk Hp).
    + f_equal. lia.
    + intros j y Hj Hy. apply (Hfirst (S j) y); [lia | exact Hy].
Qed.

Lemma find_index_inv {A} (p : A -> bool) (l : list A) : forall i j,
  find_index p l i = Some j ->
  exists (k : nat) x,
    j = i + Z.of_nat k /\ l !! k = Some x /\ p x = true
    /\ forall k' y, (k' < k)%nat -> l !! k' = Some y -> p y = false.
Proof.
  induction l as [| z l IH]; intros i j; simpl; [discriminate |].
  destruct (p z) eqn:Hp.
  - intros [= <-]. exists 0%nat, z. repeat split; auto; [lia |].
    intros k' y Hk'. lia.
  - intros H. apply IH in H as (k & x & -> & Hk & Hx & Hfirst).
    exists (S k), x. repeat split; auto; [lia |].
    intros [| k'] y Hk' Hy; simpl in Hy; [congruence |].
    apply (Hfirst k' y); [lia | exact Hy].
Qed.

(** X2.  A wake-up of the polling acquire that brings no special event
    does not reset the budget: with every image busy, a timeout that is
    neither 0 nor infinite, and a clock that does not go back, the loop goes
    on as a call with the time left to the deadline, which is at most the
    timeout it had. *)
Theorem wakeup_keeps_the_deadline (io : poll_io) (ios : list poll_io)
    (chain : x11_swapchain) (timeout : Z)
    (Hbusy : Forall (fun img => busy img = true) (ring chain))
    (Htimeout : 0 < timeout < UINT64_MAX)
    (Hevent : io_event io = None)
    (Hpoll : io_poll io <> 0 /\ io_poll io <> -1)
    (Hclock : 0 <= io_time_before io <= io_time_after io) :
  exists left,
    0 <= left <= timeout
    /\ left = Z.max 0 (wsi_get_absolute_timeout (io_time_before io) timeout
                       - io_time_after io)
    /\ x11_acquire_next_image_poll_x11 (io :: ios) chain timeout
       = x11_acquire_next_image_poll_x11 ios (send chain xcb_flush) left.
Proof.
  assert (Hnone : find_index (fun img => negb (busy img)) (ring chain) 0 = None).
  { apply find_index_None. eapply Forall_impl; [exact Hbusy |].
    intros img ->. reflexivity. }
  assert (Habs : wsi_get_absolute_timeout (io_time_before io) timeout
                 <= io_time_before io + timeout).
  { unfold wsi_get_absolute_timeout, MIN2, to_uint64.
    pose proof (Z.mod_pos_bound (UINT64_MAX - io_time_before io) (2 ^ 64)
                  ltac:(lia)) as Hm.
    destruct (Z.ltb_spec ((UINT64_MAX - io_time_before io) mod 2 ^ 64) timeout).
    - transitivity (io_time_before io
                    + (UINT64_MAX - io_time_before io) mod 2 ^ 64);
        [apply Z.mod_le; lia | lia].
    - apply Z.mod_le; unfold UINT64_MAX in *; lia. }
  exists (Z.max 0 (wsi_get_absolute_timeout (io_time_before io) timeout
                   - io_time_after io)).
  split; [lia |]. split; [reflexivity |].
  cbn [x11_acquire_next_image_poll_x11]. rewrite Hnone, Hevent.
  destruct (Z.eqb_spec timeout UINT64_MAX); [lia |].
  destruct (Z.eqb_spec timeout 0); [lia |].
  destruct (Z.eqb_spec (io_poll io) 0); [lia |].
  destruct (Z.eqb_spec (io_poll io) (-1)); [lia |].
  f_equal.
  destruct (Z.ltb_spec (io_time_after io)
              (wsi_get_absolute_timeout (io_time_before io) timeout)); lia.
Qed.

(** ** Idle and complete events *)

Lemma ring_lookup c (k : nat) :
  (k < Z.to_nat (image_count (base c)))%nat -> ring c !! k = images c !! k.
Proof. intros Hk. unfold ring. apply lookup_take_lt. exact Hk. Qed.

Lemma map_ring_lookup f c (k : nat) img :
  images c !! k = Some img -> (k < Z.to_nat (image_count (base c)))%nat ->
  images (map_ring f c) !! k = Some (f img).
Proof.
  intros Himg Hk. unfold map_ring. simpl.
  rewrite lookup_app_l.
  - change (map f (ring c)) with (f <$> ring c).
    rewrite list_lookup_fmap, ring_lookup, Himg by exact Hk. reflexivity.
  - rewrite length_map. unfold ring. rewrite length_take.
    apply lookup_lt_Some in Himg. lia.
Qed.

(** X3.  An [IDLE_NOTIFY] for the pixmap of an image of the ring gives the
    image back: the first image with that pixmap is no longer busy, one
    image less is counted as sent, and with an acquire queue its index is
    pushed last; nothing else of the chain changes.  An [IDLE_NOTIFY] for a
    pixmap of no image changes nothing. *)
Theorem idle_notify_returns_the_image (chain : x11_swapchain) (px : Z) :
  (forall (k : nat) img,
      (k < Z.to_nat (image_count (base chain)))%nat ->
      images chain !! k = Some img -> pixmap img = px ->
      (forall j img', (j < k)%nat -> images chain !! j = Some img' ->
                      pixmap img' <> px) ->
      x11_handle_dri3_present_event chain (XCB_PRESENT_EVENT_IDLE_NOTIFY px)
      = (VK_SUCCESS,
         (if has_acquire_queue chain
          then fun c => set_acquire_queue c
                          (acquire_queue chain ++ [Z.of_nat k])
          else fun c => c)
           (set_sent_image_count
              (set_images chain (<[k := set_busy img false]> (images chain)))
              (sent_image_count chain - 1))))
  /\ (Forall (fun img => pixmap img <> px) (ring chain) ->
      x11_handle_dri3_present_event chain (XCB_PRESENT_EVENT_IDLE_NOTIFY px)
      = (VK_SUCCESS, chain)).
Proof.
  split.
  - intros k img Hk Himg Hpx Hfirst. cbn [x11_handle_dri3_present_event].
    rewrite (find_index_Some _ (ring chain) 0 k img).
    + rewrite Z.add_0_l. unfold update_image. rewrite Nat2Z.id, Himg.
      cbn [has_acquire_queue set_images set_sent_image_count acquire_queue
           sent_image_count].
      unfold wsi_queue_push. destruct (has_acquire_queue chain); reflexivity.
    + rewrite ring_lookup by exact Hk. exact Himg.
    + apply Z.eqb_eq. exact Hpx.
    + intros j y Hj Hy. rewrite ring_lookup in Hy by lia.
      apply Z.eqb_neq. eapply Hfirst; eauto.
  - intros Hnone. cbn [x11_handle_dri3_present_event].
    assert (H : find_index (fun img => pixmap img =? px) (ring chain) 0 = None).
    { apply find_index_None. eapply Forall_impl; [exact Hnone |].
      intros img Hpx. apply Z.eqb_neq. exact Hpx. }
    rewrite H. reflexivity.
Qed.

Lemma handle_keeps_copy_is_suboptimal c e :
  copy_is_suboptimal c = true ->
  copy_is_suboptimal (x11_handle_dri3_present_event c e).2 = true.
Proof.
  intros H. destruct e as [w h | px | kind mode ser msc |]; simpl.
  - destruct (_ || _); exact H.
  - destruct (find_index _ (ring c) 0) as [i |]; [| exact H].
    assert (Hu : copy_is_suboptimal
                   (update_image c i (fun img => set_busy img false)) = true).
    { unfold update_image. destruct (images c !! Z.to_nat i); exact H. }
    match goal with
    | |- context [if ?b then _ else _] => destruct b
    end; exact Hu.
  - destruct kind, mode; simpl; rewrite ?H;
      try destruct HAVE_DRI3_MODIFIERS; simpl; first [exact H | reflexivity].
  - exact H.
Qed.

Lemma handle_events_keeps_copy_is_suboptimal events : forall c,
  copy_is_suboptimal c = true ->
  copy_is_suboptimal (handle_events events c) = true.
Proof.
  induction events as [| e events IH]; intros c H; [exact H |].
  apply IH, handle_keeps_copy_is_suboptimal, H.
Qed.

(** X4.  Once a present has completed by flip, every present that completes
    by copy yields [VK_SUBOPTIMAL_KHR], whatever events come in between; a
    copy is a success as long as the chain has not seen a flip. *)
Theorem copy_after_flip_is_always_suboptimal (chain : x11_swapchain)
    (events : list xcb_present_generic_event_t)
    (kind kind' : xcb_present_complete_kind_t) (ser msc ser' msc' : Z) :
  (x11_handle_dri3_present_event
     (handle_events
        (XCB_PRESENT_EVENT_COMPLETE_NOTIFY kind XCB_PRESENT_COMPLETE_MODE_FLIP
           ser msc :: events)
        chain)
     (XCB_PRESENT_EVENT_COMPLETE_NOTIFY kind' XCB_PRESENT_COMPLETE_MODE_COPY
        ser' msc')).1
  = VK_SUBOPTIMAL_KHR
  /\ (x11_handle_dri3_present_event chain
        (XCB_PRESENT_EVENT_COMPLETE_NOTIFY kind' XCB_PRESENT_COMPLETE_MODE_COPY
           ser' msc')).1
     = if copy_is_suboptimal chain then VK_SUBOPTIMAL_KHR else VK_SUCCESS.
Proof.
  assert (Hcopy : forall c,
    (x11_handle_dri3_present_event c
       (XCB_PRESENT_EVENT_COMPLETE_NOTIFY kind' XCB_PRESENT_COMPLETE_MODE_COPY
          ser' msc')).1
    = if copy_is_suboptimal c then VK_SUBOPTIMAL_KHR else VK_SUCCESS).
  { intros c. destruct kind'; simpl; destruct (copy_is_suboptimal c);
      reflexivity. }
  split; [| apply Hcopy].
  rewrite Hcopy.
  change (handle_events (?e :: events) chain)
    with (handle_events events (x11_handle_dri3_present_event chain e).2).
  rewrite handle_events_keeps_copy_is_suboptimal; [reflexivity |].
  destruct kind; reflexivity.
Qed.

(** X5.  The completion of a present finds its image by the serial: after
    [present_pixmap] the image is queued for presentation, a
    [COMPLETE_NOTIFY] of kind pixmap with the serial the present gave clears
    that and records the MSC of the event, and one with another serial
    leaves the image queued. *)
Theorem complete_notify_matches_the_present (chain : x11_swapchain)
    (image_index options target_msc : Z)
    (mode : xcb_present_complete_mode_t) (ser msc : Z)
    (Hindex : 0 <= image_index < Z.of_nat (length (images chain)))
    (Hring : image_index < image_count (base chain)) :
  from_option present_queued false
    (images (present_pixmap chain image_index options target_msc)
       !! Z.to_nat image_index)
  = true
  /\ last_present_msc
       (x11_handle_dri3_present_event
          (present_pixmap chain image_index options target_msc)
          (XCB_PRESENT_EVENT_COMPLETE_NOTIFY XCB_PRESENT_COMPLETE_KIND_PIXMAP
             mode ser msc)).2
     = msc
  /\ from_option present_queued true
       (images
          (x11_handle_dri3_present_event
             (present_pixmap chain image_index options target_msc)
             (XCB_PRESENT_EVENT_COMPLETE_NOTIFY XCB_PRESENT_COMPLETE_KIND_PIXMAP
                mode ser msc)).2
          !! Z.to_nat image_index)
     = negb (ser =? to_uint32 (to_uint64 (send_sbc chain + 1))).
Proof.
  assert (Hi1 : (Z.to_nat image_index < length (images chain))%nat) by lia.
  destruct (lookup_lt_is_Some_2 _ _ Hi1) as [img Himg].
  assert (Hp : exists img1,
             images (present_pixmap chain image_index options target_msc)
               !! Z.to_nat image_index = Some img1
             /\ present_queued img1 = true
             /\ serial img1 = to_uint32 (to_uint64 (send_sbc chain + 1))).
  { unfold present_pixmap.
    set (c2 := update_image chain image_index
                 (fun image => set_shm_fence image false)).
    pose proof (update_image_lookup chain image_index
                  (fun image => set_shm_fence image false) img Himg) as Himg2.
    fold c2 in Himg2.
    set (c3 := set_send_sbc (set_sent_image_count c2 (sent_image_count c2 + 1))
                 (to_uint64 (send_sbc (set_sent_image_count c2
                                         (sent_image_count c2 + 1)) + 1))).
    assert (Himg3 : images c3 !! Z.to_nat image_index
                    = Some (set_shm_fence img false)) by exact Himg2.
    set (f := fun image => set_serial (set_present_queued image true)
                             (to_uint32 (send_sbc c3))).
    pose proof (update_image_lookup c3 image_index f _ Himg3) as Himg4.
    rewrite Himg4. eexists. split; [exact Himg4 |]. split; [reflexivity |].
    pose proof (update_image_counter chain image_index
                  (fun image => set_shm_fence image false)) as [Hc _].
    fold c2 in Hc. unfold f, c3. simpl. rewrite Hc. reflexivity. }
  destruct Hp as (img1 & Himg1 & Hq & Hs).
  assert (Hcount : image_count
                     (base (present_pixmap chain image_index options target_msc))
                   = image_count (base chain)).
  { unfold present_pixmap, update_image.
    repeat match goal with
           | |- context [match ?o with Some _ => _ | None => _ end] =>
               destruct o
           end; reflexivity. }
  split; [rewrite Himg1; exact Hq |].
  split; [destruct mode; simpl; try destruct (copy_is_suboptimal _);
          try destruct HAVE_DRI3_MODIFIERS; reflexivity |].
  assert (Hm : forall c, images
            (x11_handle_dri3_present_event c
               (XCB_PRESENT_EVENT_COMPLETE_NOTIFY XCB_PRESENT_COMPLETE_KIND_PIXMAP
                  mode ser msc)).2
          = images (map_ring
                      (fun image =>
                         if present_queued image && (serial image =? ser)
                         then set_present_queued image false else image) c)).
  { intros c. destruct mode; simpl; try destruct (copy_is_suboptimal _);
      try destruct HAVE_DRI3_MODIFIERS; reflexivity. }
  rewrite Hm.
  erewrite map_ring_lookup; [| exact Himg1 | rewrite Hcount; lia].
  simpl. rewrite Hq, Hs. simpl.
  rewrite (Z.eqb_sym ser).
  destruct (_ =? ser); simpl; [reflexivity | exact Hq].
Qed.

(** ** Acquire *)

Lemma merge_success c : x11_swapchain_result c VK_SUCCESS = (status c, c).
Proof.
  unfold x11_swapchain_result, _x11_swapchain_result.
  destruct (status c <? 0); reflexivity.
Qed.



(** The image a polling acquire returns is busy in the chain it leaves. *)
Lemma acquire_poll_returns_busy ios : forall c timeout r i c',
  x11_acquire_next_image_poll_x11 ios c timeout = Some (r, Some i, c') ->
  exists img, images c' !! Z.to_nat i = Some img /\ busy img = true.
Proof.
  assert (Hfound : forall c i r c',
    find_index (fun img => negb (busy img)) (ring c) 0 = Some i ->
    Some (returning (Some i)
            (x11_swapchain_result
               (update_image c i
                  (fun img => set_busy (set_shm_fence img true) true))
               VK_SUCCESS))
    = Some (r, Some i, c') ->
    exists img, images c' !! Z.to_nat i = Some img /\ busy img = true).
  { intros c i r c' Hfind. rewrite merge_success. intros [= _ <-].
    apply find_index_inv in Hfind as (k & x & -> & Hk & _ & _).
    unfold ring in Hk. apply lookup_take_Some in Hk as [Hk _].
    rewrite Z.add_0_l.
    erewrite update_image_lookup by (rewrite Nat2Z.id; exact Hk).
    eexists. split; reflexivity. }
  induction ios as [| io ios IH]; intros c timeout r i c';
    cbn [x11_acquire_next_image_poll_x11].
  - destruct (find_index _ (ring c) 0) as [j |] eqn:Hfind; [| discriminate].
    intros H. assert (j = i) as -> by (injection H; auto).
    eapply Hfound; eauto.
  - destruct (find_index _ (ring c) 0) as [j |] eqn:Hfind.
    { intros H. assert (j = i) as -> by (injection H; auto).
      eapply Hfound; eauto. }
    assert (Hdispatch : forall event,
      (let '(result, chain) := handle_and_merge (send c xcb_flush) event in
       if result <? 0 then Some (result, None, chain)
       else x11_acquire_next_image_poll_x11 ios chain timeout)
      = Some (r, Some i, c') ->
      exists img, images c' !! Z.to_nat i = Some img /\ busy img = true).
    { intros event. destruct (handle_and_merge (send c xcb_flush) event)
        as [r1 c1].
      destruct (r1 <? 0); [discriminate | apply IH]. }
    unfold returning.
    destruct (timeout =? UINT64_MAX).
    + destruct (io_event io) as [event |]; [apply Hdispatch | discriminate].
    + destruct (io_event io) as [event |]; [apply Hdispatch |].
      destruct (timeout =? 0); [discriminate |].
      destruct (io_poll io =? 0); [discriminate |].
      destruct (io_poll io =? -1); [discriminate |].
      apply IH.
Qed.

(** Without special events, the polling acquire returns an image that was
    free when it started. *)
Lemma acquire_poll_quiet_returns_free ios : forall c timeout r i c',
  Forall (fun io => io_event io = None) ios ->
  x11_acquire_next_image_poll_x11 ios c timeout = Some (r, Some i, c') ->
  exists img, images c !! Z.to_nat i = Some img /\ busy img = false.
Proof.
  assert (Hfound : forall c i,
    find_index (fun img => negb (busy img)) (ring c) 0 = Some i ->
    exists img, images c !! Z.to_nat i = Some img /\ busy img = false).
  { intros c i Hfind.
    apply find_index_inv in Hfind as (k & x & -> & Hk & Hx & _).
    unfold ring in Hk. apply lookup_take_Some in Hk as [Hk _].
    rewrite Z.add_0_l, Nat2Z.id. exists x. split; [exact Hk |].
    destruct (busy x); [discriminate | reflexivity]. }
  induction ios as [| io ios IH]; intros c timeout r i c' Hquiet;
    cbn [x11_acquire_next_image_poll_x11].
  - destruct (find_index _ (ring c) 0) as [j |] eqn:Hfind; [| discriminate].
    intros H. assert (j = i) as -> by (injection H; auto). eauto.
  - apply Forall_cons in Hquiet as [Hio Hquiet]. rewrite Hio.
    destruct (find_index _ (ring c) 0) as [j |] eqn:Hfind.
    { intros H. assert (j = i) as -> by (injection H; auto). eauto. }
    unfold returning.
    destruct (timeout =? UINT64_MAX); [discriminate |].
    destruct (timeout =? 0); [discriminate |].
    destruct (io_poll io =? 0); [discriminate |].
    destruct (io_poll io =? -1); [discriminate |].
    intros H. apply (IH (send c xcb_flush)) in H; [exact H | exact Hquiet].
Qed.

(** X7.  No image is acquired twice: the image a polling acquire returns
    is busy afterwards, and an acquire that follows without a special event
    from the server in between returns another image (or none). *)
Theorem no_double_acquire (ios ios' : list poll_io) (chain : x11_swapchain)
    (timeout timeout' : Z) (r r' : VkResult) (i i' : Z)
    (chain' chain'' : x11_swapchain)
    (Hfirst : x11_acquire_next_image_poll_x11 ios chain timeout
              = Some (r, Some i, chain'))
    (Hquiet : Forall (fun io => io_event io = None) ios')
    (Hsecond : x11_acquire_next_image_poll_x11 ios' chain' timeout'
               = Some (r', Some i', chain'')) :
  from_option busy false (images chain' !! Z.to_nat i) = true
  /\ 0 <= i /\ 0 <= i' /\ i' <> i.
Proof.
  destruct (acquire_poll_returns_busy _ _ _ _ _ _ Hfirst) as (img & Himg & Hb).
  destruct (acquire_poll_quiet_returns_free _ _ _ _ _ _ Hquiet Hsecond)
    as (img' & Himg' & Hf).
  assert (Hpos : forall ios c t r i c',
    x11_acquire_next_image_poll_x11 ios c t = Some (r, Some i, c') -> 0 <= i).
  { clear. induction ios as [| io ios IH]; intros c t r i c';
      cbn [x11_acquire_next_image_poll_x11].
    - destruct (find_index _ (ring c) 0) as [j |] eqn:Hfind; [| discriminate].
      intros H. assert (j = i) as -> by (injection H; auto).
      apply find_index_inv in Hfind as (k & _ & -> & _). lia.
    - destruct (find_index _ (ring c) 0) as [j |] eqn:Hfind.
      { intros H. assert (j = i) as -> by (injection H; auto).
        apply find_index_inv in Hfind as (k & _ & -> & _). lia. }
      assert (Hd : forall event,
        (let '(result, chain) := handle_and_merge (send c xcb_flush) event in
         if result <? 0 then Some (result, None, chain)
         else x11_acquire_next_image_poll_x11 ios chain t)
        = Some (r, Some i, c') -> 0 <= i).
      { intros event. destruct (handle_and_merge _ event) as [r1 c1].
        destruct (r1 <? 0); [discriminate | apply IH]. }
      unfold returning.
      destruct (t =? UINT64_MAX).
      + destruct (io_event io); [apply Hd | discriminate].
      + destruct (io_event io); [apply Hd |].
        destruct (t =? 0); [discriminate |].
        destruct (io_poll io =? 0); [discriminate |].
        destruct (io_poll io =? -1); [discriminate |].
        apply IH. }
  rewrite Himg. split; [exact Hb |].
  split; [eapply Hpos; exact Hfirst |]. split; [eapply Hpos; exact Hsecond |].
  intros ->. rewrite Himg in Himg'. injection Himg' as <-. congruence.
Qed.

(** X8.  With every image busy and no special event, the polling acquire
    gives up as its timeout says: at once with [VK_NOT_READY] for a timeout
    of 0; with [VK_TIMEOUT] when [poll] runs out; and when [poll] fails with
    [VK_ERROR_OUT_OF_DATE_KHR], which the chain keeps.  The transient
    results leave the status as it is; the connection was flushed. *)
Theorem acquire_gives_up (io : poll_io) (ios : list poll_io)
    (chain : x11_swapchain) (timeout : Z)
    (Hbusy : Forall (fun img => busy img = true) (ring chain))
    (Hstatus : 0 <= status chain)
    (Hevent : io_event io = None) :
  x11_acquire_next_image_poll_x11 (io :: ios) chain 0
  = Some (VK_NOT_READY, None, send chain xcb_flush)
  /\ (0 < timeout < UINT64_MAX -> io_poll io = 0 ->
      x11_acquire_next_image_poll_x11 (io :: ios) chain timeout
      = Some (VK_TIMEOUT, None, send chain xcb_flush))
  /\ (0 < timeout < UINT64_MAX -> io_poll io = -1 ->
      x11_acquire_next_image_poll_x11 (io :: ios) chain timeout
      = Some (VK_ERROR_OUT_OF_DATE_KHR, None,
              set_status (send chain xcb_flush) VK_ERROR_OUT_OF_DATE_KHR)).
Proof.
  assert (Hnone : find_index (fun img => negb (busy img)) (ring chain) 0 = None).
  { apply find_index_None. eapply Forall_impl; [exact Hbusy |].
    intros img ->. reflexivity. }
  assert (Hm : forall r,
    x11_swapchain_result (send chain xcb_flush) r
    = if r <? 0 then (r, set_status (send chain xcb_flush) r)
      else if (r =? VK_TIMEOUT) || (r =? VK_NOT_READY)
           then (r, send chain xcb_flush)
           else x11_swapchain_result (send chain xcb_flush) r).
  { intros r0. unfold x11_swapchain_result, _x11_swapchain_result. simpl.
    destruct (Z.ltb_spec (status chain) 0); [lia |].
    destruct (r0 <? 0); [reflexivity |].
    destruct ((r0 =? VK_TIMEOUT) || (r0 =? VK_NOT_READY)); reflexivity. }
  cbn [x11_acquire_next_image_poll_x11]. rewrite Hnone, Hevent.
  split; [| split].
  - simpl. rewrite Hm. reflexivity.
  - intros Ht Hp. rewrite Hp.
    destruct (Z.eqb_spec timeout UINT64_MAX); [lia |].
    destruct (Z.eqb_spec timeout 0); [lia |].
    simpl. rewrite Hm. reflexivity.
  - intros Ht Hp. rewrite Hp.
    destruct (Z.eqb_spec timeout UINT64_MAX); [lia |].
    destruct (Z.eqb_spec timeout 0); [lia |].
    simpl. rewrite Hm. reflexivity.
Qed.

(** ** The chain creation leaves *)

Lemma create_initial_state wsi_device surface_window mode pCreateInfo io
    wsi_conn geometry r chain :
  cio_wsi_conn io = Some wsi_conn -> cio_geometry io = Some geometry ->
  x11_surface_create_swapchain wsi_device surface_window mode pCreateInfo io
  = (r, Some chain) ->
  wsi (base chain) = wsi_device
  /\ present_mode (base chain) = mode
  /\ chain_extent chain = imageExtent pCreateInfo
  /\ chain_has_mit_shm chain = has_mit_shm wsi_conn
  /\ send_sbc chain = 0 /\ sent_image_count chain = 0
  /\ copy_is_suboptimal chain = false
  /\ present_queue chain = []
  /\ status chain
     = (if negb (width (imageExtent pCreateInfo) =? to_uint16 (geom_width geometry))
           || negb (height (imageExtent pCreateInfo)
                    =? to_uint16 (geom_height geometry))
        then VK_SUBOPTIMAL_KHR else VK_SUCCESS)
  /\ has_present_queue chain
     = (bool_decide (mode = VK_PRESENT_MODE_FIFO_KHR)
        || bool_decide (mode = VK_PRESENT_MODE_FIFO_RELAXED_KHR)
        || x11_needs_wait_for_fences wsi_device wsi_conn mode)
       && negb (sw wsi_device)
  /\ has_acquire_queue chain
     = (bool_decide (mode = VK_PRESENT_MODE_FIFO_KHR)
        || bool_decide (mode = VK_PRESENT_MODE_FIFO_RELAXED_KHR))
       && negb (sw wsi_device)
  /\ acquire_queue chain
     = (if has_acquire_queue chain
        then seqZ 0 (image_count (base chain)) else [])
  /\ minImageCount pCreateInfo <= image_count (base chain).
Proof.
  intros Hconn Hgeom. unfold x11_surface_create_swapchain.
  rewrite Hconn, Hgeom.
  assert (Hmin : minImageCount pCreateInfo
                 <= num_images wsi_device wsi_conn mode pCreateInfo).
  { unfold num_images. rewrite !MAX2_max.
    repeat match goal with
           | |- context [if ?b then _ else _] => destruct b
           end; lia. }
  destruct (negb (cio_alloc io)); [discriminate |].
  destruct (negb (cio_swapchain_init io =? VK_SUCCESS)); [discriminate |].
  destruct (cio_gc io =? 0); [discriminate |].
  destruct (init_images _ 0 _) as [r1 imgs].
  destruct (negb (r1 =? VK_SUCCESS)); [discriminate |].
  destruct (bool_decide (mode = VK_PRESENT_MODE_FIFO_KHR)),
    (bool_decide (mode = VK_PRESENT_MODE_FIFO_RELAXED_KHR)),
    (x11_needs_wait_for_fences wsi_device wsi_conn mode),
    (sw wsi_device); simpl;
    repeat match goal with
           | |- context [if negb (?x =? 0) then _ else _] =>
               destruct (negb (x =? 0))
           end;
    try discriminate; intros [= <- <-]; simpl; repeat split; exact Hmin.
Qed.

(** X9.  What creation leaves: a chain that has presented nothing, with
    the locked extent, at least as many images as requested, a status that
    is [VK_SUBOPTIMAL_KHR] exactly when the window does not have the
    requested extent, and the queues of its present mode: a present queue
    for the fifo modes and where the fence-wait policy applies, an acquire
    queue filled with all image indices in order for the fifo modes, and no
    queue at all on a software device.  An acquire queue never comes without
    a present queue. *)
Theorem creation_sets_up_the_queues (wsi_device : wsi_device)
    (surface_window : Z) (mode : VkPresentModeKHR)
    (pCreateInfo : VkSwapchainCreateInfoKHR) (io : create_io)
    (wsi_conn : wsi_x11_connection) (geometry : xcb_get_geometry_reply_t)
    (r : VkResult) (chain : x11_swapchain)
    (Hconn : cio_wsi_conn io = Some wsi_conn)
    (Hgeom : cio_geometry io = Some geometry)
    (Hcreate : x11_surface_create_swapchain wsi_device surface_window mode
                 pCreateInfo io = (r, Some chain)) :
  send_sbc chain = 0 /\ sent_image_count chain = 0
  /\ copy_is_suboptimal chain = false
  /\ chain_extent chain = imageExtent pCreateInfo
  /\ minImageCount pCreateInfo <= image_count (base chain)
  /\ status chain
     = (if negb (width (imageExtent pCreateInfo) =? to_uint16 (geom_width geometry))
           || negb (height (imageExtent pCreateInfo)
                    =? to_uint16 (geom_height geometry))
        then VK_SUBOPTIMAL_KHR else VK_SUCCESS)
  /\ has_present_queue chain
     = (bool_decide (mode = VK_PRESENT_MODE_FIFO_KHR)
        || bool_decide (mode = VK_PRESENT_MODE_FIFO_RELAXED_KHR)
        || x11_needs_wait_for_fences wsi_device wsi_conn mode)
       && negb (sw wsi_device)
  /\ has_acquire_queue chain
     = (bool_decide (mode = VK_PRESENT_MODE_FIFO_KHR)
        || bool_decide (mode = VK_PRESENT_MODE_FIFO_RELAXED_KHR))
       && negb (sw wsi_device)
  /\ present_queue chain = []
  /\ acquire_queue chain
     = (if has_acquire_queue chain
        then seqZ 0 (image_count (base chain)) else [])
  /\ (has_acquire_queue chain = true -> has_present_queue chain = true).
Proof.
  destruct (create_initial_state _ _ _ _ _ _ _ _ _ Hconn Hgeom Hcreate)
    as (_ & _ & Hext & _ & Hsbc & Hsent & Hcopy & Hpq & Hst & Hhp & Hha & Haq
        & Hmin).
  repeat (split; [assumption |]).
  rewrite Hhp, Hha.
  destruct (bool_decide _), (bool_decide _), (x11_needs_wait_for_fences _ _ _),
    (sw wsi_device); simpl; auto.
Qed.

(** X10.  When [wsi_queue_init] or [pthread_create] fails, creation gives
    up without a chain, but with the result the image loop left: it returns
    [VK_SUCCESS]. *)
Theorem queue_failure_returns_success (wsi_device : wsi_device)
    (surface_window : Z) (mode : VkPresentModeKHR)
    (pCreateInfo : VkSwapchainCreateInfoKHR) (io : create_io)
    (wsi_conn : wsi_x11_connection) (geometry : xcb_get_geometry_reply_t)
    (imgs : list x11_image)
    (Hconn : cio_wsi_conn io = Some wsi_conn)
    (Hgeom : cio_geometry io = Some geometry)
    (Halloc : cio_alloc io = true)
    (Hinit : cio_swapchain_init io = VK_SUCCESS)
    (Hgc : cio_gc io <> 0)
    (Himages : init_images (cio_image_init io) 0
                 (Z.to_nat (num_images wsi_device wsi_conn mode pCreateInfo))
               = (VK_SUCCESS, imgs))
    (Hqueues : has_present_queue_of_mode wsi_device wsi_conn mode = true)
    (Hfail : cio_present_queue_init io <> 0
             \/ cio_thread_create io <> 0
             \/ (has_acquire_queue_of_mode wsi_device mode = true
                 /\ cio_acquire_queue_init io <> 0)) :
  x11_surface_create_swapchain wsi_device surface_window mode pCreateInfo io
  = (VK_SUCCESS, None).
Proof.
  unfold x11_surface_create_swapchain, has_present_queue_of_mode,
    has_acquire_queue_of_mode in *.
  rewrite Hconn, Hgeom, Halloc, Hinit, Himages. simpl.
  destruct (Z.eqb_spec (cio_gc io) 0); [contradiction |]. simpl.
  rewrite Hqueues.
  destruct (Z.eqb_spec (cio_present_queue_init io) 0); simpl; [| reflexivity].
  destruct (Z.eqb_spec (cio_thread_create io) 0),
    (Z.eqb_spec (cio_acquire_queue_init io) 0); simpl;
    destruct (bool_decide _ || bool_decide _) eqn:Hm; simpl; try reflexivity;
    exfalso; destruct Hfail as [H | [H | [H1 H2]]]; try contradiction;
    rewrite andb_true_iff in *; try destruct H1; congruence.
Qed.

(** ** Acquire in the fifo modes *)

Lemma acquire_run_fifo n : forall c timeout a m,
  has_acquire_queue c = true ->
  sw (wsi (base c)) && negb (chain_has_mit_shm c) = false ->
  0 <= status c ->
  acquire_queue c = seqZ a m -> Z.of_nat n <= m ->
  (acquire_run n c timeout).1
  = (fun k => (status c, Some k)) <$> seqZ a (Z.of_nat n)
  /\ acquire_queue (acquire_run n c timeout).2
     = seqZ (a + Z.of_nat n) (m - Z.of_nat n).
Proof.
  induction n as [| n IH]; intros c timeout a m Hq Hhw Hs Hqueue Hn.
  - simpl. rewrite Z.add_0_r, Z.sub_0_r. auto.
  - cbn [acquire_run]. unfold x11_acquire_next_image.
    destruct (Z.ltb_spec (status c) 0); [lia |].
    rewrite Hhw, Hq. unfold x11_acquire_next_image_from_queue.
    rewrite Hqueue, seqZ_cons by lia. cbn [wsi_queue_pull]. simpl.
    destruct (Z.ltb_spec (status c) 0); [lia |].
    set (c1 := update_image _ a _).
    assert (Hc1 : has_acquire_queue c1 = true
                  /\ sw (wsi (base c1)) && negb (chain_has_mit_shm c1) = false
                  /\ status c1 = status c
                  /\ acquire_queue c1 = seqZ (Z.succ a) (Z.pred m)).
    { unfold c1, update_image. simpl.
      destruct (images c !! Z.to_nat a); simpl; auto. }
    destruct Hc1 as (Hq1 & Hhw1 & Hs1 & Hqueue1).
    destruct (IH c1 timeout (Z.succ a) (Z.pred m) Hq1 Hhw1 ltac:(lia) Hqueue1
                ltac:(lia)) as [IHr IHq].
    destruct (acquire_run n c1 timeout) as [rs c2]. simpl in *.
    split.
    + rewrite Hs1. rewrite IHr.
      replace (Z.of_nat (S n)) with (Z.succ (Z.of_nat n)) by lia.
      rewrite (seqZ_cons a) by lia. rewrite Z.pred_succ, Hs1. reflexivity.
    + rewrite IHq. f_equal; lia.
Qed.

(** X11.  On a new hardware chain in a fifo mode, the acquires return the
    images in the order of their indices, 0 first, each with the status the
    chain was created with, until every image has been handed out. *)
Theorem fifo_acquires_in_index_order (wsi_device : wsi_device)
    (surface_window : Z) (mode : VkPresentModeKHR)
    (pCreateInfo : VkSwapchainCreateInfoKHR) (io : create_io)
    (wsi_conn : wsi_x11_connection) (geometry : xcb_get_geometry_reply_t)
    (r : VkResult) (chain : x11_swapchain) (n : nat) (timeout : Z)
    (Hconn : cio_wsi_conn io = Some wsi_conn)
    (Hgeom : cio_geometry io = Some geometry)
    (Hcreate : x11_surface_create_swapchain wsi_device surface_window mode
                 pCreateInfo io = (r, Some chain))
    (Hmode : mode = VK_PRESENT_MODE_FIFO_KHR
             \/ mode = VK_PRESENT_MODE_FIFO_RELAXED_KHR)
    (Hhw : sw wsi_device = false)
    (Hn : Z.of_nat n <= image_count (base chain)) :
  (acquire_run n chain timeout).1
  = (fun k => (status chain, Some k)) <$> seqZ 0 (Z.of_nat n)
  /\ acquire_queue (acquire_run n chain timeout).2
     = seqZ (Z.of_nat n) (image_count (base chain) - Z.of_nat n).
Proof.
  destruct (create_initial_state _ _ _ _ _ _ _ _ _ Hconn Hgeom Hcreate)
    as (Hdev & _ & _ & _ & _ & _ & _ & _ & Hst & _ & Hha & Haq & _).
  assert (Hq : has_acquire_queue chain = true).
  { rewrite Hha, Hhw. destruct Hmode as [-> | ->]; reflexivity. }
  rewrite Hq in Haq.
  apply (acquire_run_fifo n chain timeout 0 (image_count (base chain)));
    try assumption.
  - rewrite Hdev, Hhw. reflexivity.
  - rewrite Hst. destruct (_ || _); unfold VK_SUBOPTIMAL_KHR, VK_SUCCESS; lia.
Qed.

(** ** Present *)

(** The fields an image update leaves alone. *)
Lemma update_image_fields c i f :
  base (update_image c i f) = base c
  /\ conn (update_image c i f) = conn c
  /\ window (update_image c i f) = window c
  /\ gc (update_image c i f) = gc c
  /\ chain_extent (update_image c i f) = chain_extent c
  /\ chain_has_mit_shm (update_image c i f) = chain_has_mit_shm c
  /\ sent_image_count (update_image c i f) = sent_image_count c
  /\ has_present_queue (update_image c i f) = has_present_queue c
  /\ has_acquire_queue (update_image c i f) = has_acquire_queue c
  /\ present_queue (update_image c i f) = present_queue c
  /\ acquire_queue (update_image c i f) = acquire_queue c.
Proof.
  unfold update_image. destruct (images c !! Z.to_nat i); simpl;
    repeat split; reflexivity.
Qed.

Lemma present_pixmap_in_array c i options msc img :
  images c !! Z.to_nat i = Some img ->
  present_pixmap c i options msc
  = send
      (set_images
         (set_send_sbc (set_sent_image_count c (sent_image_count c + 1))
            (to_uint64 (send_sbc c + 1)))
         (<[Z.to_nat i :=
              set_serial (set_present_queued (set_shm_fence img false) true)
                (to_uint32 (to_uint64 (send_sbc c + 1)))]> (images c)))
      (xcb_present_pixmap_checked (window c) (pixmap img)
         (to_uint32 (to_uint64 (send_sbc c + 1))) (update_area img)
         (sync_fence img) options msc).
Proof.
  intros Himg. pose proof (lookup_lt_Some _ _ _ Himg) as Hlt.
  unfold present_pixmap, update_image. rewrite Himg. simpl.
  rewrite list_lookup_insert_eq by exact Hlt. simpl.
  rewrite list_lookup_insert_eq by (rewrite length_insert; exact Hlt). simpl.
  rewrite list_insert_insert_eq. reflexivity.
Qed.

(** X12.  A present of an image of the array, with no event pending, sends
    one request: a [present_pixmap] of the image with the next value of the
    counter, cut to 32 bits, as its serial.  The image is then queued for
    presentation with its fence reset, and one more image counts as sent.
    A request the server refuses changes none of this: the present returns
    [VK_ERROR_SURFACE_LOST_KHR], which the chain keeps, and the image still
    counts as sent. *)
Theorem present_sends_one_request (io : present_io) (chain : x11_swapchain)
    (image_index target_msc : Z) (wsi_conn : wsi_x11_connection)
    (img : x11_image)
    (Hconn : pio_wsi_conn io = Some wsi_conn)
    (Hevents : pio_events io = [])
    (Himg : images chain !! Z.to_nat image_index = Some img)
    (Hstatus : 0 <= status chain) :
  let out := x11_present_to_x11_dri3 io chain image_index target_msc in
  out.1 = (if pio_error io then VK_ERROR_SURFACE_LOST_KHR else status chain)
  /\ status out.2 = out.1
  /\ conn out.2
     = conn chain
       ++ [xcb_present_pixmap_checked (window chain) (pixmap img)
             (to_uint32 (to_uint64 (send_sbc chain + 1))) (update_area img)
             (sync_fence img) (present_options wsi_conn chain) target_msc]
  /\ send_sbc out.2 = to_uint64 (send_sbc chain + 1)
  /\ sent_image_count out.2 = sent_image_count chain + 1
  /\ images out.2
     = <[Z.to_nat image_index :=
           set_serial (set_present_queued (set_shm_fence img false) true)
             (to_uint32 (to_uint64 (send_sbc chain + 1)))]> (images chain).
Proof.
  unfold x11_present_to_x11_dri3. rewrite Hconn, Hevents.
  cbn [poll_pending_events].
  rewrite (present_pixmap_in_array _ _ _ _ _ Himg).
  unfold x11_swapchain_result, _x11_swapchain_result. cbn [status send set_conn
    set_images set_send_sbc set_sent_image_count].
  destruct (Z.ltb_spec (status chain) 0); [lia |].
  destruct (pio_error io); simpl; repeat split; reflexivity.
Qed.

(** X13.  With a present queue, [x11_queue_present] only queues: on a
    chain that is not in an error state it returns the status, pushes the
    index last on the present queue and marks the image busy; it sends no
    present request (at most the region of the damage), and the counters
    stay as they are, whatever the server would answer. *)
Theorem queued_present_only_queues (chain : x11_swapchain) (image_index : Z)
    (damage : option VkPresentRegionKHR)
    (Hstatus : 0 <= status chain)
    (Hqueue : has_present_queue chain = true) :
  exists chain',
    (forall io, x11_queue_present chain image_index damage io
                = Some (status chain, chain'))
    /\ present_queue chain' = present_queue chain ++ [image_index]
    /\ status chain' = status chain
    /\ send_sbc chain' = send_sbc chain
    /\ sent_image_count chain' = sent_image_count chain
    /\ (conn chain' = conn chain
        \/ exists area n rects,
             conn chain' = conn chain ++ [xcb_xfixes_set_region area n rects])
    /\ (forall img, images chain !! Z.to_nat image_index = Some img ->
        exists img', images chain' !! Z.to_nat image_index = Some img'
                     /\ busy img' = true).
Proof.
  unfold x11_queue_present.
  destruct (Z.ltb_spec (status chain) 0); [lia |].
  set (p := match damage with Some _ => _ | None => _ end).
  assert (Hp : p.2 = chain
               \/ exists area n rects,
                    p.2 = send chain (xcb_xfixes_set_region area n rects)).
  { unfold p. destruct damage as [d |]; [| left; reflexivity].
    destruct (pRectangles d); [| left; reflexivity].
    destruct (_ && _); [right; eauto | left; reflexivity]. }
  destruct p as [area c1]. simpl in Hp.
  set (c2 := update_image c1 image_index (fun img => set_update_area img area)).
  set (c3 := update_image c2 image_index (fun img => set_busy img true)).
  pose proof (update_image_fields c1 image_index
                (fun img => set_update_area img area)) as F2.
  pose proof (update_image_fields c2 image_index
                (fun img => set_busy img true)) as F3.
  fold c2 in F2. fold c3 in F3.
  destruct F2 as (_ & F2conn & _ & _ & _ & _ & F2sent & F2hp & _ & F2pq & _).
  destruct F3 as (_ & F3conn & _ & _ & _ & _ & F3sent & F3hp & _ & F3pq & _).
  pose proof (update_image_counter c1 image_index
                (fun img => set_update_area img area)) as [C2 _].
  pose proof (update_image_counter c2 image_index
                (fun img => set_busy img true)) as [C3 _].
  fold c2 in C2. fold c3 in C3.
  assert (S3 : status c3 = status c1).
  { unfold c3, c2. rewrite !status_update_image. reflexivity. }
  assert (H1 : status c1 = status chain /\ send_sbc c1 = send_sbc chain
               /\ sent_image_count c1 = sent_image_count chain
               /\ has_present_queue c1 = has_present_queue chain
               /\ present_queue c1 = present_queue chain
               /\ images c1 = images chain).
  { destruct Hp as [-> | (a & n & rs & ->)]; repeat split; reflexivity. }
  destruct H1 as (H1s & H1c & H1n & H1h & H1q & H1i).
  rewrite F3hp, F2hp, H1h, Hqueue.
  exists (set_present_queue c3 (wsi_queue_push (present_queue c3) image_index)).
  split; [intros io; cbn [status set_present_queue]; rewrite S3, H1s;
          reflexivity |].
  cbn [present_queue set_present_queue status send_sbc sent_image_count conn
       images]. unfold wsi_queue_push.
  rewrite F3pq, F2pq, H1q, S3, H1s, C3, C2, H1c, F3sent, F2sent, H1n,
    F3conn, F2conn.
  repeat split.
  - destruct Hp as [-> | (a & n & rs & ->)]; [left; reflexivity |].
    right. exists a, n, rs. reflexivity.
  - intros img Himg. rewrite <- H1i in Himg.
    exists (set_busy (set_update_area img area) true). split; [| reflexivity].
    unfold c3.
    apply (update_image_lookup c2 image_index (fun img => set_busy img true)
             (set_update_area img area)).
    unfold c2.
    apply (update_image_lookup c1 image_index
             (fun img => set_update_area img area) img Himg).
Qed.

(** ** The software present *)





Lemma put_image_bands_frame fuel : forall c w stride_b num_lines y_start y_todo c',
  put_image_bands fuel c w stride_b num_lines y_start y_todo = Some c' ->
  images c' = images c /\ send_sbc c' = send_sbc c
  /\ sent_image_count c' = sent_image_count c
  /\ exists rs, conn c' = conn c ++ rs.
Proof.
  induction fuel as [| fuel IH]; intros c w stride_b n y todo c';
    cbn [put_image_bands]; destruct (todo =? 0); try discriminate.
  - intros [= <-]. repeat split. exists []. rewrite app_nil_r. reflexivity.
  - intros [= <-]. repeat split. exists []. rewrite app_nil_r. reflexivity.
  - intros H. apply IH in H as (Hi & Hs & Hn & rs & Hc). simpl in *.
    repeat split; try assumption.
    eexists. rewrite Hc, <- app_assoc. reflexivity.
Qed.

(** What [x11_present_to_x11_sw] leaves when it returns. *)
Lemma present_sw_returns io c i msc r c' img :
  images c !! Z.to_nat i = Some img ->
  x11_present_to_x11_sw io c i msc = Some (r, c') ->
  r = status c /\ status c' = status c
  /\ images c' = <[Z.to_nat i := set_busy img false]> (images c)
  /\ send_sbc c' = send_sbc c /\ sent_image_count c' = sent_image_count c
  /\ exists rs, conn c' = conn c ++ rs ++ [xcb_flush].
Proof.
  intros Himg. unfold x11_present_to_x11_sw.
  set (sent := if _ <? _ then _ else _).
  assert (Hsent : forall c1, sent = Some c1 ->
            status c1 = status c /\ images c1 = images c
            /\ send_sbc c1 = send_sbc c
            /\ sent_image_count c1 = sent_image_count c
            /\ exists rs, conn c1 = conn c ++ rs).
  { unfold sent. intros c1. destruct (_ <? _).
    - intros [= <-]. repeat split. eexists. reflexivity.
    - intros H. pose proof (put_image_bands_status _ _ _ _ _ _ _ _ H) as Hs.
      apply put_image_bands_frame in H as (Hi & Hsb & Hn & Hc). auto. }
  destruct sent as [c1 |]; [| discriminate].
  destruct (Hsent c1 eq_refl) as (Hs & Hi & Hsb & Hn & rs & Hc).
  rewrite merge_success. intros [= <- <-].
  unfold update_image. rewrite Hi, Himg. simpl.
  repeat split; try assumption.
  exists rs. rewrite Hc, <- app_assoc. reflexivity.
Qed.

(** X15.  On a software chain without MIT-SHM a present gives the image
    back at once.  When the image fits into one request,
    [x11_queue_present] returns the status of the chain, and then the image
    is not busy, the last request is the flush, no present request was
    counted and the status is as it was. *)
Theorem software_present_frees_the_image (chain : x11_swapchain)
    (image_index : Z) (damage : option VkPresentRegionKHR) (io : present_io)
    (img : x11_image)
    (Hsw : sw (wsi (base chain)) = true)
    (Hshm : chain_has_mit_shm chain = false)
    (Hqueue : has_present_queue chain = false)
    (Hstatus : 0 <= status chain)
    (Himg : images chain !! Z.to_nat image_index = Some img)
    (Hfits : Z.shiftr (24 + to_uint32 (to_int32 (row_pitch img)
                                       * height (chain_extent chain))) 2
             < pio_max_request_length io) :
  exists chain',
    x11_queue_present chain image_index damage io = Some (status chain, chain')
    /\ status chain' = status chain
    /\ (exists img', images chain' !! Z.to_nat image_index = Some img'
                     /\ busy img' = false)
    /\ last (conn chain') = Some xcb_flush
    /\ send_sbc chain' = send_sbc chain
    /\ sent_image_count chain' = sent_image_count chain.
Proof.
  unfold x11_queue_present.
  destruct (Z.ltb_spec (status chain) 0); [lia |].
  set (p := match damage with Some _ => _ | None => _ end).
  assert (Hp : p.2 = chain
               \/ exists area n rects,
                    p.2 = send chain (xcb_xfixes_set_region area n rects)).
  { unfold p. destruct damage as [d |]; [| left; reflexivity].
    destruct (pRectangles d); [| left; reflexivity].
    destruct (_ && _); [right; eauto | left; reflexivity]. }
  destruct p as [area c1]. simpl in Hp.
  set (c2 := update_image c1 image_index (fun img => set_update_area img area)).
  set (c3 := update_image c2 image_index (fun img => set_busy img true)).
  pose proof (update_image_fields c1 image_index
                (fun img => set_update_area img area)) as F2.
  pose proof (update_image_fields c2 image_index
                (fun img => set_busy img true)) as F3.
  fold c2 in F2. fold c3 in F3.
  destruct F2 as (F2b & _ & _ & _ & F2e & F2m & F2sent & F2hp & _).
  destruct F3 as (F3b & _ & _ & _ & F3e & F3m & F3sent & F3hp & _).
  pose proof (update_image_counter c1 image_index
                (fun img => set_update_area img area)) as [C2 _].
  pose proof (update_image_counter c2 image_index
                (fun img => set_busy img true)) as [C3 _].
  fold c2 in C2. fold c3 in C3.
  assert (S3 : status c3 = status c1).
  { unfold c3, c2. rewrite !status_update_image. reflexivity. }
  assert (H1 : status c1 = status chain /\ send_sbc c1 = send_sbc chain
               /\ sent_image_count c1 = sent_image_count chain
               /\ has_present_queue c1 = has_present_queue chain
               /\ base c1 = base chain
               /\ chain_has_mit_shm c1 = chain_has_mit_shm chain
               /\ chain_extent c1 = chain_extent chain
               /\ images c1 = images chain).
  { destruct Hp as [-> | (a & n & rs & ->)]; repeat split; reflexivity. }
  destruct H1 as (H1s & H1c & H1n & H1h & H1b & H1m & H1e & H1i).
  rewrite F3hp, F2hp, H1h, Hqueue.
  assert (Himg3 : images c3 !! Z.to_nat image_index
                  = Some (set_busy (set_update_area img area) true)).
  { unfold c3.
    apply (update_image_lookup c2 image_index (fun img => set_busy img true)
             (set_update_area img area)).
    unfold c2.
    apply (update_image_lookup c1 image_index
             (fun img => set_update_area img area) img).
    rewrite H1i. exact Himg. }
  unfold x11_present_to_x11.
  rewrite F3b, F2b, H1b, Hsw, F3m, F2m, H1m, Hshm. cbn [negb andb].
  destruct (x11_present_to_x11_sw io c3 image_index 0) as [[r c4] |] eqn:Hsw4.
  - destruct (present_sw_returns _ _ _ _ _ _ _ Himg3 Hsw4)
      as (-> & Hs & Hi & Hsb & Hn & rs & Hc).
    exists c4. rewrite S3, H1s. split; [reflexivity |].
    split; [rewrite Hs, S3, H1s; reflexivity |].
    split.
    { rewrite Hi. eexists. split.
      - apply list_lookup_insert_eq. eapply lookup_lt_Some. exact Himg3.
      - reflexivity. }
    split; [rewrite Hc, app_assoc; apply last_snoc |].
    split; [rewrite Hsb, C3, C2, H1c; reflexivity |].
    rewrite Hn, F3sent, F2sent, H1n. reflexivity.
  - exfalso. unfold x11_present_to_x11_sw in Hsw4.
    rewrite Himg3, F3e, F2e, H1e in Hsw4. cbn [from_option row_pitch
      set_busy set_update_area] in Hsw4.
    destruct (Z.ltb_spec
                (Z.shiftr (24 + to_uint32 (to_int32 (row_pitch img)
                                           * height (chain_extent chain))) 2)
                (pio_max_request_length io)); [| lia].
    rewrite merge_success in Hsw4. discriminate.
Qed.

(** ** The end of the manager thread *)

Lemma merge_keeps_queues c r :
  has_acquire_queue (x11_swapchain_result c r).2 = has_acquire_queue c
  /\ acquire_queue (x11_swapchain_result c r).2 = acquire_queue c.
Proof.
  unfold x11_swapchain_result, _x11_swapchain_result.
  repeat match goal with
         | |- context [if ?b then _ else _] => destruct b
         end; split; reflexivity.
Qed.

(** After the label [fail] the chain is in an error state and the
    sentinel is the last entry of the acquire queue. *)
Lemma manager_fail_exit c r :
  status c < 0 \/ r < 0 ->
  status (manager_fail c r) < 0
  /\ has_acquire_queue (manager_fail c r) = has_acquire_queue c
  /\ (has_acquire_queue c = true ->
      acquire_queue (manager_fail c r) = acquire_queue c ++ [UINT32_MAX]).
Proof.
  intros H. unfold manager_fail.
  destruct (merge_keeps_queues c r) as [Hq Ha].
  assert (Hs : status (x11_swapchain_result c r).2 < 0).
  { rewrite merge_status.
    destruct (Z.ltb_spec (status c) 0); [assumption |].
    destruct (Z.ltb_spec r 0); lia. }
  rewrite Hq. destruct (has_acquire_queue c) eqn:Hc; simpl.
  - rewrite Ha. unfold wsi_queue_push. repeat split; auto.
  - repeat split; auto. discriminate.
Qed.

Lemma wait_fail_negative events : forall c r i threshold r' c',
  wait_for_present events c r i threshold = wait_fail r' c' -> r' < 0.
Proof.
  induction events as [| [e |] events IH]; intros c r i threshold r' c';
    cbn [wait_for_present]; destruct (_ || _); try discriminate.
  - destruct (handle_and_merge c e) as [r1 c1].
    destruct (Z.ltb_spec r1 0).
    + intros [= <- <-]. assumption.
    + apply IH.
  - intros [= <- <-]. unfold VK_ERROR_SURFACE_LOST_KHR. lia.
Qed.

Lemma manager_fail_exited c r : status c < 0 \/ r < 0 -> exited (manager_fail c r).
Proof.
  intros H. destruct (manager_fail_exit c r H) as (Hs & Hq & Ha).
  split; [exact Hs |]. rewrite Hq. intros Hc. rewrite (Ha Hc).
  apply last_snoc.
Qed.

Lemma manager_turn_exited wsi_conn io c r c' :
  manager_turn wsi_conn io c r = turn_exit c' -> exited c'.
Proof.
  unfold manager_turn.
  destruct (Z.ltb_spec (status c) 0) as [Hneg | Hpos].
  { intros [= <-]. apply manager_fail_exited. left. exact Hneg. }
  destruct (wsi_queue_pull (present_queue c) INT64_MAX) as [[[r1 i] q] |];
    [| discriminate].
  destruct (Z.ltb_spec r1 0).
  { intros [= <-]. apply manager_fail_exited. right. assumption. }
  cbn [status set_present_queue].
  destruct (Z.ltb_spec (status c) 0); [lia |].
  destruct (_ && _).
  { intros [= <-]. apply manager_fail_exited. right.
    unfold VK_ERROR_OUT_OF_DATE_KHR. lia. }
  destruct (x11_present_to_x11 _ _ _ _) as [[r2 c2] |]; [| discriminate].
  destruct (Z.ltb_spec r2 0).
  { intros [= <-]. apply manager_fail_exited. right. assumption. }
  destruct (has_acquire_queue c2); [| discriminate].
  destruct (wait_for_present _ _ _ _ _) as [r3 c3 | r3 c3 |] eqn:Hw;
    try discriminate.
  intros [= <-]. apply manager_fail_exited. right.
  eapply wait_fail_negative. exact Hw.
Qed.

Lemma manager_loop_exited wsi_conn ios : forall c r c',
  manager_loop wsi_conn ios c r = Some c' -> exited c'.
Proof.
  induction ios as [| io ios IH]; intros c r c'; cbn [manager_loop].
  - destruct (Z.ltb_spec (status c) 0); [| discriminate].
    intros [= <-]. apply manager_fail_exited. left. assumption.
  - destruct (manager_turn wsi_conn io c r) as [r1 c1 | c1 |] eqn:Ht;
      [apply IH | | discriminate].
    intros [= <-]. eapply manager_turn_exited. exact Ht.
Qed.

(** X16.  The manager thread ends only on an error: when
    [x11_manage_fifo_queues] returns, and no other thread has written the
    status under it, the status of the chain is negative, and with an
    acquire queue the sentinel [UINT32_MAX] is the last entry of it.  On a
    chain that is already in an error state the thread returns at once,
    whatever is queued. *)
Theorem manager_ends_in_error (wsi_conn : wsi_x11_connection)
    (ios : list manager_io) (chain : x11_swapchain) :
  (forall chain',
      x11_manage_fifo_queues wsi_conn ios chain = Some chain' ->
      status chain' < 0
      /\ (has_acquire_queue chain' = true ->
          last (acquire_queue chain') = Some UINT32_MAX))
  /\ (status chain < 0 ->
      x11_manage_fifo_queues wsi_conn ios chain
      = Some (manager_fail chain VK_SUCCESS)).
Proof.
  split.
  - intros chain' H. apply (manager_loop_exited _ _ _ _ _ H).
  - intros Hneg. unfold x11_manage_fifo_queues.
    destruct ios as [| io ios]; cbn [manager_loop]; unfold manager_turn;
      destruct (Z.ltb_spec (status chain) 0); try lia; reflexivity.
Qed.

(** X17.  The sentinel wakes an acquire that waits on the queue: after the
    code at [fail] has run on a chain with an acquire queue, an acquire from
    the queue returns, whatever its timeout, with the negative status of the
    chain and without an image. *)
Theorem sentinel_wakes_the_acquire (chain : x11_swapchain) (result timeout : Z)
    (Hqueue : has_acquire_queue chain = true)
    (Hfail : status chain < 0 \/ result < 0) :
  exists chain',
    x11_acquire_next_image_from_queue (manager_fail chain result) timeout
    = Some (status (manager_fail chain result), None, chain')
    /\ status chain' = status (manager_fail chain result)
    /\ status chain' < 0.
Proof.
  destruct (manager_fail_exit chain result Hfail) as (Hs & _ & Ha).
  specialize (Ha Hqueue).
  unfold x11_acquire_next_image_from_queue. rewrite Ha.
  destruct (acquire_queue chain) as [| i q]; cbn [app wsi_queue_pull];
    unfold VK_SUCCESS, VK_TIMEOUT; cbn [Z.ltb Z.eqb Z.compare orb status
      set_acquire_queue];
    destruct (Z.ltb_spec (status (manager_fail chain result)) 0); try lia;
    eexists; (split; [reflexivity |]); (split; [reflexivity | assumption]).
Qed.

(** ** The connection table *)

(** X18.  [wsi_x11_get_connection] only ever adds to the table: an entry
    that is there stays as it is, the entry returned is the one the table
    holds for the connection, and a later call for the same connection
    returns it again without a probe, whatever the server would answer.
    Without an entry the table is as it was, and this happens only on a miss
    whose probe fails. *)
Theorem get_connection_only_adds (wsi_dev : wsi_device)
    (connections : connections_table) (conn : Z) (io : get_connection_io) :
  let out := wsi_x11_get_connection wsi_dev connections conn io in
  (forall conn' entry, connections !! conn' = Some entry ->
                       out.2 !! conn' = Some entry)
  /\ (forall entry, out.1 = Some entry ->
        out.2 !! conn = Some entry
        /\ forall io', wsi_x11_get_connection wsi_dev out.2 conn io'
                       = (Some entry, out.2))
  /\ (out.1 = None ->
        out.2 = connections /\ connections !! conn = None
        /\ wsi_x11_connection_create wsi_dev (gio_probe io) = None).
Proof.
  unfold wsi_x11_get_connection.
  destruct (connections !! conn) as [e |] eqn:Hlook; cbn beta iota zeta.
  { split; [auto |]. split; [| discriminate].
    intros entry [= <-]. split; [exact Hlook |].
    intros io'. cbn [snd]. rewrite Hlook. reflexivity. }
  destruct (wsi_x11_connection_create wsi_dev (gio_probe io)) as [w |];
    cbn beta iota zeta.
  2:{ split; [auto |]. split; [discriminate | auto]. }
  assert (Hother : forall (t : connections_table) e, t !! conn = None ->
    (forall conn' entry, t !! conn' = Some entry ->
                         <[conn := e]> t !! conn' = Some entry)
    /\ (forall entry, Some e = Some entry ->
          <[conn := e]> t !! conn = Some entry
          /\ forall io', wsi_x11_get_connection wsi_dev (<[conn := e]> t) conn io'
                         = (Some entry, <[conn := e]> t))).
  { intros t e Ht. split.
    - intros conn' entry H. rewrite lookup_insert_ne; [exact H |].
      intros ->. congruence.
    - intros entry [= <-]. rewrite lookup_insert_eq. split; [reflexivity |].
      intros io'. unfold wsi_x11_get_connection. rewrite lookup_insert_eq.
      reflexivity. }
  destruct (gio_raced io) as [other |].
  - rewrite lookup_insert_eq. cbn [fst snd].
    destruct (Hother connections other Hlook) as [H1 H2].
    split; [exact H1 |]. split; [exact H2 | discriminate].
  - rewrite Hlook. cbn [fst snd].
    destruct (Hother connections w Hlook) as [H1 H2].
    split; [exact H1 |]. split; [exact H2 | discriminate].
Qed.

(** X19.  What an entry of the probe says together: modifiers need DRI3
    and Present and the build option; MIT-SHM is only set on a software
    device with host-memory import, with DRI3 and Present, and not under the
    [noshm] debug flag; and the proprietary flag is set exactly when one of
    the two marker extensions is present. *)
Theorem probed_entry_is_consistent (wsi_dev : wsi_device) (io : probe_io)
    (wsi_conn : wsi_x11_connection)
    (Hprobe : wsi_x11_connection_create wsi_dev io = Some wsi_conn) :
  (has_dri3_modifiers wsi_conn = true ->
     HAVE_DRI3_MODIFIERS = true /\ has_dri3 wsi_conn = true
     /\ has_present wsi_conn = true)
  /\ (has_mit_shm wsi_conn = true ->
        sw wsi_dev = true /\ has_import_memory_host wsi_dev = true
        /\ debug_noshm io = false
        /\ has_dri3 wsi_conn = true /\ has_present wsi_conn = true)
  /\ is_proprietary_x11 wsi_conn
     = reply_present (amd_reply io) || reply_present (nv_reply io)
  /\ is_xwayland wsi_conn = wsi_x11_detect_xwayland io.
Proof.
  unfold wsi_x11_connection_create in Hprobe.
  destruct (negb (probe_alloc io)); [discriminate |].
  destruct (dri3_reply io) as [dri3 |]; [| discriminate].
  destruct (pres_reply io) as [pres |]; [| discriminate].
  destruct (xfixes_reply io) as [xfixes |]; [| discriminate].
  injection Hprobe as <-. cbn [has_dri3_modifiers has_dri3 has_present
    has_mit_shm is_proprietary_x11 is_xwayland].
  split; [| split; [| split; [| reflexivity]]].
  - destruct HAVE_DRI3_MODIFIERS, (negb (present dri3 =? 0)),
      (negb (present pres =? 0)), (version_at_least_1 2 (dri3_version io)),
      (version_at_least_1 2 (present_version io)); simpl;
      intros H; try discriminate H; repeat split.
  - destruct (negb (present dri3 =? 0)), (negb (present pres =? 0)),
      (sw wsi_dev), (debug_noshm io), (has_import_memory_host wsi_dev); simpl;
      intros H; try discriminate H; repeat split.
  - destruct (reply_present (amd_reply io)), (reply_present (nv_reply io));
      reflexivity.
Qed.

(** ** Present modes *)

(** X20.  The two calls of the present-mode query: without an array it
    reports 4 modes; with an array of [count] elements it writes the first
    [min count 4] modes of the table in table order, leaves the rest of the
    array alone, reports that number, and returns [VK_INCOMPLETE] exactly
    when [count] is below 4.  An array of the size the first call reports
    receives the whole table. *)
Theorem present_modes_two_calls (count : Z)
    (array : list VkPresentModeKHR)
    (Hcount : 0 <= count)
    (Harray : Z.of_nat (length array) = count) :
  x11_surface_get_present_modes count None = (VK_SUCCESS, 4, None)
  /\ x11_surface_get_present_modes count (Some array)
     = (if count <? 4 then VK_INCOMPLETE else VK_SUCCESS,
        Z.min count 4,
        Some (if count <? 4 then take (Z.to_nat count) present_modes
              else present_modes ++ drop 4 array))
  /\ (count = 4 ->
      x11_surface_get_present_modes count (Some array)
      = (VK_SUCCESS, 4, Some present_modes)).
Proof.
  assert (Hgen : x11_surface_get_present_modes count (Some array)
     = (if count <? 4 then VK_INCOMPLETE else VK_SUCCESS,
        Z.min count 4,
        Some (if count <? 4 then take (Z.to_nat count) present_modes
              else present_modes ++ drop 4 array))).
  { unfold x11_surface_get_present_modes, MIN2.
    change (Z.of_nat (length present_modes)) with 4.
    destruct (Z.ltb_spec count 4) as [Hlt | Hge].
    - rewrite Z.min_l by lia.
      destruct (Z.ltb_spec count 4); [| lia].
      rewrite drop_ge by lia. rewrite app_nil_r. reflexivity.
    - rewrite Z.min_r by lia. reflexivity. }
  split; [reflexivity |]. split; [exact Hgen |].
  intros ->. rewrite Hgen. simpl.
  rewrite drop_ge by lia. reflexivity.
Qed.

(** ** Visuals *)

Lemma all_mask_ones depth :
  1 <= depth <= 32 -> Z.shiftr 4294967295 (32 - depth) = Z.ones depth.
Proof.
  intros H. change 4294967295 with (Z.ones 32).
  rewrite Z.shiftr_div_pow2 by lia. rewrite Z.ones_div_pow2 by lia.
  f_equal. lia.
Qed.

(** X21.  For a depth from 1 to 32, a visual has alpha exactly when one of
    the low [depth] bits belongs to none of its red, green and blue
    masks. *)
Theorem visual_has_alpha_bits (visual : xcb_visualtype_t) (depth : Z)
    (Hdepth : 1 <= depth <= 32) :
  visual_has_alpha visual depth = true
  <-> exists n, 0 <= n < depth
                /\ Z.testbit (red_mask visual) n = false
                /\ Z.testbit (green_mask visual) n = false
                /\ Z.testbit (blue_mask visual) n = false.
Proof.
  unfold visual_has_alpha. rewrite all_mask_ones by exact Hdepth.
  set (rgb := Z.lor (Z.lor (red_mask visual) (green_mask visual))
                    (blue_mask visual)).
  set (x := Z.land (Z.ones depth) (to_uint32 (Z.lnot rgb))).
  assert (Hbit : forall n, 0 <= n ->
            Z.testbit x n = true
            <-> n < depth /\ Z.testbit (red_mask visual) n = false
                /\ Z.testbit (green_mask visual) n = false
                /\ Z.testbit (blue_mask visual) n = false).
  { intros n Hn. unfold x, to_uint32, rgb.
    rewrite Z.land_spec, Z.testbit_ones_nonneg by lia.
    destruct (Z.ltb_spec n depth) as [Hlt | Hge]; simpl.
    - rewrite Z.mod_pow2_bits_low by lia.
      rewrite Z.lnot_spec, !Z.lor_spec by lia.
      destruct (Z.testbit (red_mask visual) n),
        (Z.testbit (green_mask visual) n), (Z.testbit (blue_mask visual) n);
        simpl; split; intros H; try discriminate; try tauto;
        destruct H as (_ & ? & ? & ?); discriminate.
    - split; [discriminate | lia]. }
  assert (Hx : 0 <= x).
  { unfold x. apply Z.land_nonneg. left. rewrite Z.ones_equiv.
    pose proof (Z.pow_pos_nonneg 2 depth). lia. }
  split.
  - intros H. apply negb_true_iff, Z.eqb_neq in H.
    exists (Z.log2 x). pose proof (Z.log2_nonneg x) as Hl.
    assert (Ht : Z.testbit x (Z.log2 x) = true) by (apply Z.bit_log2; lia).
    apply Hbit in Ht; [| exact Hl]. destruct Ht as (Hlt & Hr & Hg & Hb).
    repeat split; assumption.
  - intros (n & [Hn Hlt] & Hr & Hg & Hb).
    apply negb_true_iff, Z.eqb_neq. intros H0.
    assert (Ht : Z.testbit x n = true) by (apply Hbit; auto).
    rewrite H0, Z.bits_0 in Ht. discriminate.
Qed.

Lemma depth_get_visualtype_in visuals : forall visual_id visual,
  depth_get_visualtype visuals visual_id = Some visual ->
  (visual_id, visual) ∈ visuals.
Proof.
  induction visuals as [| [id v] visuals IH]; intros visual_id visual; simpl;
    [discriminate |].
  destruct (Z.eqb_spec id visual_id) as [-> | Hne].
  - intros [= <-]. apply list_elem_of_here.
  - intros H. apply list_elem_of_further, IH, H.
Qed.

Lemma depth_get_visualtype_None visuals : forall visual_id,
  depth_get_visualtype visuals visual_id = None
  <-> visual_id ∉ (fst <$> visuals).
Proof.
  induction visuals as [| [id v] visuals IH]; intros visual_id; simpl.
  - split; [intros _ H; inversion H | reflexivity].
  - rewrite not_elem_of_cons. destruct (Z.eqb_spec id visual_id) as [-> | Hne].
    + split; [discriminate | intros [H _]; contradiction].
    + rewrite IH. simpl. split; [intros H; split; [congruence | exact H] |].
      intros [_ H]. exact H.
Qed.

Lemma depths_get_visualtype_in depths : forall visual_id visual d,
  depths_get_visualtype depths visual_id = Some (visual, d) ->
  exists dep, dep ∈ depths /\ depth_depth dep = d
              /\ (visual_id, visual) ∈ depth_visuals dep.
Proof.
  induction depths as [| dep depths IH]; intros visual_id visual d; simpl;
    [discriminate |].
  destruct (depth_get_visualtype (depth_visuals dep) visual_id) as [v |] eqn:Hd.
  - intros [= <- <-]. exists dep. split; [apply list_elem_of_here |].
    split; [reflexivity |]. apply depth_get_visualtype_in. exact Hd.
  - intros H. apply IH in H as (dep' & Hin & Hdd & Hv).
    exists dep'. split; [apply list_elem_of_further; exact Hin | auto].
Qed.

Lemma depths_get_visualtype_None depths : forall visual_id,
  depths_get_visualtype depths visual_id = None
  <-> forall dep, dep ∈ depths -> visual_id ∉ (fst <$> depth_visuals dep).
Proof.
  induction depths as [| dep depths IH]; intros visual_id; simpl.
  - split; [intros _ dep H; inversion H | reflexivity].
  - destruct (depth_get_visualtype (depth_visuals dep) visual_id) as [v |] eqn:Hd.
    + split; [discriminate |]. intros H. exfalso.
      apply (H dep (list_elem_of_here _ _)).
      apply depth_get_visualtype_in in Hd.
      apply list_elem_of_fmap. exists (visual_id, v). auto.
    + rewrite IH. apply depth_get_visualtype_None in Hd. split.
      * intros H dep' Hin. apply elem_of_cons in Hin as [-> | Hin]; auto.
      * intros H dep' Hin. apply H, list_elem_of_further, Hin.
Qed.

(** X22.  [screen_get_visualtype] finds a visual exactly when one of the
    depths of the screen has a visual with the id: what it returns is a
    visual listed with that id, with the depth it is listed under, and it
    returns nothing only when no depth of the screen lists the id. *)
Theorem screen_lookup_finds_the_visual (screen : xcb_screen_t)
    (visual_id : Z) :
  (forall visual d,
      screen_get_visualtype screen visual_id = Some (visual, d) ->
      exists dep, dep ∈ allowed_depths screen /\ depth_depth dep = d
                  /\ (visual_id, visual) ∈ depth_visuals dep)
  /\ (screen_get_visualtype screen visual_id = None
      <-> forall dep, dep ∈ allowed_depths screen ->
                      visual_id ∉ (fst <$> depth_visuals dep)).
Proof.
  split.
  - intros visual d. apply depths_get_visualtype_in.
  - apply depths_get_visualtype_None.
Qed.

Lemma depth_get_visualtype_app a b visual_id :
  depth_get_visualtype (a ++ b) visual_id
  = match depth_get_visualtype a visual_id with
    | Some v => Some v
    | None => depth_get_visualtype b visual_id
    end.
Proof.
  induction a as [| [id v] a IH]; simpl; [reflexivity |].
  destruct (id =? visual_id); [reflexivity | exact IH].
Qed.

Lemma depths_get_visualtype_flat depths visual_id :
  fst <$> depths_get_visualtype depths visual_id
  = depth_get_visualtype (mjoin (depth_visuals <$> depths)) visual_id.
Proof.
  induction depths as [| dep depths IH]; simpl; [reflexivity |].
  rewrite depth_get_visualtype_app.
  destruct (depth_get_visualtype (depth_visuals dep) visual_id);
    [reflexivity | exact IH].
Qed.

Lemma connection_get_visualtype_flat screens visual_id :
  connection_get_visualtype screens visual_id
  = depth_get_visualtype (setup_visuals screens) visual_id.
Proof.
  unfold setup_visuals.
  induction screens as [| screen screens IH]; simpl; [reflexivity |].
  rewrite depth_get_visualtype_app, <- depths_get_visualtype_flat.
  unfold screen_get_visualtype.
  destruct (depths_get_visualtype (allowed_depths screen) visual_id)
    as [[v d] |]; [reflexivity | exact IH].
Qed.

Lemma depth_get_visualtype_unique visuals : forall visual_id visual,
  NoDup (fst <$> visuals) -> (visual_id, visual) ∈ visuals ->
  depth_get_visualtype visuals visual_id = Some visual.
Proof.
  induction visuals as [| [id v] visuals IH]; intros visual_id visual Hnd Hin;
    [inversion Hin |].
  simpl in *. apply NoDup_cons in Hnd as [Hnotin Hnd].
  apply elem_of_cons in Hin as [[= -> ->] | Hin].
  - rewrite Z.eqb_refl. reflexivity.
  - destruct (Z.eqb_spec id visual_id) as [-> | Hne]; [| apply IH; auto].
    exfalso. apply Hnotin, list_elem_of_fmap. exists (visual_id, visual). auto.
Qed.

Lemma get_screen_for_root_in screens : forall root_window screen,
  get_screen_for_root screens root_window = Some screen ->
  screen ∈ screens /\ root screen = root_window.
Proof.
  induction screens as [| s screens IH]; intros root_window screen; simpl;
    [discriminate |].
  destruct (Z.eqb_spec (root s) root_window) as [Heq | Hne].
  - intros [= <-]. split; [apply list_elem_of_here | exact Heq].
  - intros H. apply IH in H as [Hin Hr].
    split; [apply list_elem_of_further; exact Hin | exact Hr].
Qed.

(** The visual of a window is a visual of the connection. *)
Lemma window_visual_in_setup screens root_window visual_id visual d :
  get_visualtype_for_window screens (Some root_window) (Some visual_id)
  = Some (visual, d) ->
  (visual_id, visual) ∈ setup_visuals screens.
Proof.
  unfold get_visualtype_for_window.
  destruct (get_screen_for_root screens root_window) as [screen |] eqn:Hs;
    [| discriminate].
  apply get_screen_for_root_in in Hs as [Hin _].
  intros H. apply depths_get_visualtype_in in H as (dep & Hdep & _ & Hv).
  unfold setup_visuals. apply list_elem_of_join.
  exists (mjoin (depth_visuals <$> allowed_depths screen)). split.
  - apply list_elem_of_join. exists (depth_visuals dep). split; [exact Hv |].
    apply (list_elem_of_fmap_2 depth_visuals). exact Hdep.
  - apply (list_elem_of_fmap_2
             (fun screen => mjoin (depth_visuals <$> allowed_depths screen))).
    exact Hin.
Qed.

(** X23.  Support for a window implies support for its visual: when the
    visual ids of the connection are distinct and [x11_surface_get_support]
    reports a window as supported, then
    [wsi_get_physical_device_xcb_presentation_support] reports the visual of
    that window as supported on the same connection. *)
Theorem surface_support_implies_device_support (wsi_device : wsi_device)
    (wsi_conn : option wsi_x11_connection) (screens : list xcb_screen_t)
    (root_window visual_id : Z)
    (Hunique : NoDup (fst <$> setup_visuals screens))
    (Hsupported : x11_surface_get_support wsi_device wsi_conn screens
                    (Some root_window) (Some visual_id)
                  = (VK_SUCCESS, Some true)) :
  wsi_get_physical_device_xcb_presentation_support wsi_device wsi_conn screens
    visual_id = true.
Proof.
  unfold x11_surface_get_support in Hsupported.
  unfold wsi_get_physical_device_xcb_presentation_support.
  destruct wsi_conn as [w |]; [| discriminate].
  destruct (negb (sw wsi_device) && negb (wsi_x11_check_for_dri3 w));
    [discriminate |].
  destruct (get_visualtype_for_window screens (Some root_window)
              (Some visual_id)) as [[v d] |] eqn:Hv;
    [| cbn in Hsupported; discriminate].
  rewrite connection_get_visualtype_flat.
  rewrite (depth_get_visualtype_unique _ _ v Hunique
             (window_visual_in_setup _ _ _ _ _ Hv)).
  change (fst <$> Some (v, d)) with (Some v) in Hsupported.
  destruct (negb (visual_supported (Some v))); [discriminate | reflexivity].
Qed.

(** ** Capabilities *)

(** X24.  The capabilities fit creation: a chain created for the same
    window geometry with the current extent the capabilities report starts
    with the status [VK_SUCCESS], and it has at least the minimum image
    count they report when that is what was asked for.  The capabilities
    report one extent as current, minimum and maximum, no maximum image
    count, and always the inherit bit of the composite alpha. *)
Theorem capabilities_fit_creation (wsi_device : wsi_device)
    (visual : option (xcb_visualtype_t * Z))
    (geometry : xcb_get_geometry_reply_t)
    (caps0 caps : VkSurfaceCapabilitiesKHR)
    (surface_window : Z) (mode : VkPresentModeKHR)
    (pCreateInfo : VkSwapchainCreateInfoKHR) (io : create_io)
    (wsi_conn : wsi_x11_connection) (r : VkResult) (chain : x11_swapchain)
    (Hwidth : 0 <= geom_width geometry < 2 ^ 16)
    (Hheight : 0 <= geom_height geometry < 2 ^ 16)
    (Hcaps : x11_surface_get_capabilities wsi_device visual (Some geometry)
               caps0 = (VK_SUCCESS, caps))
    (Hextent : imageExtent pCreateInfo = currentExtent caps)
    (Hconn : cio_wsi_conn io = Some wsi_conn)
    (Hgeom : cio_geometry io = Some geometry)
    (Hcreate : x11_surface_create_swapchain wsi_device surface_window mode
                 pCreateInfo io = (r, Some chain)) :
  status chain = VK_SUCCESS
  /\ chain_extent chain = currentExtent caps
  /\ (minImageCount pCreateInfo = caps_minImageCount caps ->
      caps_minImageCount caps <= image_count (base chain))
  /\ minImageExtent caps = currentExtent caps
  /\ maxImageExtent caps = currentExtent caps
  /\ caps_maxImageCount caps = 0
  /\ Z.land (supportedCompositeAlpha caps) VK_COMPOSITE_ALPHA_INHERIT_BIT_KHR
     = VK_COMPOSITE_ALPHA_INHERIT_BIT_KHR.
Proof.
  destruct (create_initial_state _ _ _ _ _ _ _ _ _ Hconn Hgeom Hcreate)
    as (_ & _ & Hext & _ & _ & _ & _ & _ & Hst & _ & _ & _ & Hmin).
  unfold x11_surface_get_capabilities in Hcaps.
  destruct visual as [[v d] |]; [| discriminate].
  injection Hcaps as <-. cbn [currentExtent minImageExtent maxImageExtent
    caps_maxImageCount caps_minImageCount supportedCompositeAlpha] in *.
  rewrite Hextent in Hst, Hext. cbn [width height] in Hst.
  unfold to_uint16 in Hst. rewrite !Z.mod_small, !Z.eqb_refl in Hst by lia.
  split; [exact Hst |]. split; [exact Hext |].
  split; [intros <-; exact Hmin |].
  repeat split. destruct (visual_has_alpha v d); reflexivity.
Qed.

(** ** A present and its idle event *)

(** An immediate present of an image of the array, on a hardware chain
    without queues and a server that has nothing pending. *)
Lemma queue_present_immediate chain i io wsi_conn img :
  sw (wsi (base chain)) = false -> has_present_queue chain = false ->
  0 <= status chain ->
  pio_wsi_conn io = Some wsi_conn -> pio_events io = [] ->
  pio_error io = false ->
  images chain !! Z.to_nat i = Some img ->
  x11_queue_present chain i None io
  = Some (status chain,
          send
            (set_images
               (set_send_sbc
                  (set_sent_image_count chain (sent_image_count chain + 1))
                  (to_uint64 (send_sbc chain + 1)))
               (<[Z.to_nat i :=
                    set_serial
                      (set_present_queued
                         (set_shm_fence
                            (set_busy (set_update_area img 0) true) false)
                         true)
                      (to_uint32 (to_uint64 (send_sbc chain + 1)))]>
                  (images chain)))
            (xcb_present_pixmap_checked (window chain) (pixmap img)
               (to_uint32 (to_uint64 (send_sbc chain + 1))) 0
               (sync_fence img) (present_options wsi_conn chain) 0)).
Proof.
  intros Hhw Hq Hstatus Hconn Hev Herr Himg.
  pose proof (lookup_lt_Some _ _ _ Himg) as Hlt.
  unfold x11_queue_present.
  destruct (Z.ltb_spec (status chain) 0); [lia |].
  set (c1 := update_image chain i (fun img => set_update_area img 0)).
  set (c2 := update_image c1 i (fun img => set_busy img true)).
  assert (H2 : c2 = set_images chain
                      (<[Z.to_nat i := set_busy (set_update_area img 0) true]>
                         (images chain))).
  { unfold c2, c1, update_image. rewrite Himg. simpl.
    rewrite list_lookup_insert_eq by exact Hlt. simpl.
    rewrite list_insert_insert_eq. reflexivity. }
  rewrite H2. cbn [has_present_queue set_images]. rewrite Hq.
  unfold x11_present_to_x11. cbn [base set_images chain_has_mit_shm].
  rewrite Hhw. cbn [andb].
  unfold x11_present_to_x11_dri3. rewrite Hconn, Hev, Herr.
  cbn [poll_pending_events].
  erewrite present_pixmap_in_array
    by (cbn [images set_images]; apply list_lookup_insert_eq; exact Hlt).
  rewrite merge_success. cbn [status send set_conn set_images set_send_sbc
    set_sent_image_count images send_sbc sent_image_count window pixmap
    update_area sync_fence set_busy set_update_area].
  rewrite list_insert_insert_eq. reflexivity.
Qed.

(** X25.  A present and its idle event cancel out in the count of sent
    images: an immediate present of an acquired image counts one more image
    as sent and leaves the image busy, and the [IDLE_NOTIFY] for its pixmap
    restores the count, and with it the number of images the driver owns,
    and frees that image and no other. *)
Theorem present_then_idle_round_trip (chain : x11_swapchain) (k : nat)
    (img : x11_image) (io : present_io) (wsi_conn : wsi_x11_connection)
    (Hhw : sw (wsi (base chain)) = false)
    (Hqueue : has_present_queue chain = false)
    (Hstatus : 0 <= status chain)
    (Hconn : pio_wsi_conn io = Some wsi_conn)
    (Hevents : pio_events io = [])
    (Herror : pio_error io = false)
    (Hring : (k < Z.to_nat (image_count (base chain)))%nat)
    (Himg : images chain !! k = Some img)
    (Hfirst : forall j img', (j < k)%nat -> images chain !! j = Some img' ->
                             pixmap img' <> pixmap img) :
  exists chain' img',
    x11_queue_present chain (Z.of_nat k) None io = Some (status chain, chain')
    /\ sent_image_count chain' = sent_image_count chain + 1
    /\ images chain' !! k = Some img' /\ busy img' = true
    /\ let chain'' :=
         (x11_handle_dri3_present_event chain'
            (XCB_PRESENT_EVENT_IDLE_NOTIFY (pixmap img))).2 in
       sent_image_count chain'' = sent_image_count chain
       /\ x11_driver_owned_images chain'' = x11_driver_owned_images chain
       /\ images chain'' = <[k := set_busy img' false]> (images chain).
Proof.
  assert (Himg' : images chain !! Z.to_nat (Z.of_nat k) = Some img)
    by (rewrite Nat2Z.id; exact Himg).
  pose proof (lookup_lt_Some _ _ _ Himg) as Hlt.
  rewrite (queue_present_immediate chain (Z.of_nat k) io wsi_conn img Hhw
             Hqueue Hstatus Hconn Hevents Herror Himg').
  rewrite Nat2Z.id.
  set (img3 := set_serial _ _).
  set (c1 := send _ _).
  exists c1, img3.
  assert (Hi1 : images c1 = <[k := img3]> (images chain)) by reflexivity.
  assert (Hk1 : images c1 !! k = Some img3)
    by (rewrite Hi1; apply list_lookup_insert_eq; exact Hlt).
  split; [reflexivity |]. split; [reflexivity |].
  split; [exact Hk1 |]. split; [reflexivity |].
  cbv zeta. cbn [x11_handle_dri3_present_event].
  rewrite (find_index_Some _ (ring c1) 0 k img3).
  - rewrite Z.add_0_l. unfold update_image. rewrite Nat2Z.id, Hk1.
    assert (Ha : has_acquire_queue c1 = has_acquire_queue chain) by reflexivity.
    assert (Hb : base c1 = base chain) by reflexivity.
    destruct (has_acquire_queue _) eqn:Hq;
      cbn [snd sent_image_count set_sent_image_count set_images
           set_acquire_queue images]; unfold x11_driver_owned_images;
      cbn [base sent_image_count set_sent_image_count set_images
           set_acquire_queue]; rewrite Hb, Hi1, list_insert_insert_eq;
      change (sent_image_count c1) with (sent_image_count chain + 1);
      (split; [lia |]); (split; [f_equal; lia | reflexivity]).
  - rewrite ring_lookup by exact Hring. exact Hk1.
  - apply Z.eqb_refl.
  - intros j y Hj Hy. rewrite ring_lookup in Hy by (change (base c1) with (base chain); lia).
    rewrite Hi1, list_lookup_insert_ne in Hy by lia.
    apply Z.eqb_neq. apply (Hfirst j y Hj Hy).
Qed.

(** ** The wait of the manager thread *)

Lemma handle_and_merge_frame c e :
  base (handle_and_merge c e).2 = base c
  /\ has_acquire_queue (handle_and_merge c e).2 = has_acquire_queue c.
Proof.
  assert (Hm : forall c r,
    base (x11_swapchain_result c r).2 = base c
    /\ has_acquire_queue (x11_swapchain_result c r).2 = has_acquire_queue c).
  { intros c0 r. unfold x11_swapchain_result, _x11_swapchain_result.
    repeat match goal with
           | |- context [if ?b then _ else _] => destruct b
           end; split; reflexivity. }
  assert (Hh : base (x11_handle_dri3_present_event c e).2 = base c
               /\ has_acquire_queue (x11_handle_dri3_present_event c e).2
                  = has_acquire_queue c).
  { destruct e as [w h | px | kind mode ser msc |]; simpl.
    - destruct (_ || _); split; reflexivity.
    - destruct (find_index _ (ring c) 0) as [i |]; [| split; reflexivity].
      destruct (update_image_fields c i (fun img => set_busy img false))
        as (Hb & _ & _ & _ & _ & _ & _ & _ & Ha & _).
      match goal with
      | |- context [if ?b then _ else _] => destruct b eqn:Hq
      end; simpl in *; split; congruence.
    - destruct kind, mode; simpl;
        try destruct (copy_is_suboptimal _);
        try destruct HAVE_DRI3_MODIFIERS; simpl; split; reflexivity.
    - split; reflexivity. }
  unfold handle_and_merge.
  destruct (x11_handle_dri3_present_event c e) as [r c1]. simpl in Hh.
  destruct (Hm c1 r) as [H1 H2]. destruct Hh as [H3 H4].
  rewrite H1, H2, H3, H4. split; reflexivity.
Qed.

Lemma wait_for_present_done events : forall c r i threshold r' c',
  wait_for_present events c r i threshold = wait_done r' c' ->
  base c' = base c /\ has_acquire_queue c' = has_acquire_queue c
  /\ from_option present_queued false (images c' !! Z.to_nat i) = false
  /\ threshold <= x11_driver_owned_images c'.
Proof.
  induction events as [| [e |] events IH]; intros c r i threshold r' c';
    cbn [wait_for_present];
    destruct (from_option present_queued false (images c !! Z.to_nat i))
      eqn:Hp;
    destruct (Z.ltb_spec (x11_driver_owned_images c) threshold);
    cbn [orb]; try discriminate;
    try (intros [= <- <-]; repeat split; assumption).
  all: destruct (handle_and_merge_frame c e) as [Hb Ha];
    destruct (handle_and_merge c e) as [r1 c1]; simpl in Hb, Ha;
    destruct (r1 <? 0); [discriminate |];
    intros Hrec; apply IH in Hrec as (Hb' & Ha' & Hq & Ht);
    rewrite Hb', Ha', Hb, Ha; repeat split; assumption.
Qed.

(** X26.  With an acquire queue the manager thread takes up the next
    present only after the last one has completed: when a turn ends and the
    loop goes on, the image it presented is no longer queued for
    presentation, and the driver owns at least [image_count - min(minimum
    image count, image_count) + 1] images. *)
Theorem manager_waits_for_completion (wsi_conn : wsi_x11_connection)
    (io : manager_io) (chain : x11_swapchain) (result result' : VkResult)
    (chain' : x11_swapchain)
    (Hturn : manager_turn wsi_conn io chain result = turn_next result' chain')
    (Hqueue : has_acquire_queue chain' = true) :
  exists image_index queue,
    present_queue chain = image_index :: queue
    /\ from_option present_queued false
         (images chain' !! Z.to_nat image_index) = false
    /\ to_uint32 (image_count (base chain')
                  - MIN2 (x11_get_min_image_count (wsi (base chain')))
                         (image_count (base chain')) + 1)
       <= x11_driver_owned_images chain'.
Proof.
  unfold manager_turn in Hturn.
  destruct (status chain <? 0); [discriminate |].
  destruct (present_queue chain) as [| i q] eqn:Hpq;
    cbn [wsi_queue_pull] in Hturn; [discriminate |].
  cbn [Z.ltb Z.compare VK_SUCCESS] in Hturn.
  change (VK_SUCCESS <? 0) with false in Hturn. cbn iota in Hturn.
  destruct (status _ <? 0); [discriminate |].
  destruct (_ && _); [discriminate |].
  destruct (x11_present_to_x11 _ _ _ _) as [[r2 c2] |]; [| discriminate].
  destruct (r2 <? 0); [discriminate |].
  exists i, q. split; [reflexivity |].
  destruct (has_acquire_queue c2) eqn:Hq2.
  - destruct (wait_for_present _ _ _ _ _) as [r3 c3 | r3 c3 |] eqn:Hw;
      try discriminate.
    injection Hturn as <- <-.
    apply wait_for_present_done in Hw as (Hb & _ & Hp & Ht).
    rewrite Hb. split; assumption.
  - injection Hturn as <- <-. congruence.
Qed.

(** ** The software acquire *)

(** X27.  On a software chain without MIT-SHM an acquire never waits: it
    returns for every timeout, the infinite one included, and without a
    look at the queues or the events.  With every image busy it returns
    [VK_NOT_READY] and leaves the chain as it is; otherwise the image it
    returns was free and is now busy, and the status of the chain stays as
    it was whatever the geometry reply says. *)
Theorem software_acquire_never_waits (chain : x11_swapchain) (timeout : Z)
    (geom : option xcb_get_geometry_reply_t) (ios : list poll_io)
    (Hsw : sw (wsi (base chain)) = true)
    (Hshm : chain_has_mit_shm chain = false)
    (Hstatus : 0 <= status chain) :
  exists r out chain',
    x11_acquire_next_image chain timeout geom ios = Some (r, out, chain')
    /\ status chain' = status chain
    /\ (Forall (fun img => busy img = true) (ring chain) ->
        r = VK_NOT_READY /\ out = None /\ chain' = chain)
    /\ (forall i, out = Some i ->
        exists img, images chain !! Z.to_nat i = Some img
                    /\ busy img = false
                    /\ images chain'
                       = <[Z.to_nat i := set_busy img true]> (images chain)).
Proof.
  unfold x11_acquire_next_image.
  destruct (Z.ltb_spec (status chain) 0); [lia |].
  rewrite Hsw, Hshm. cbn [negb andb].
  destruct (find_index (fun img => negb (busy img)) (ring chain) 0)
    as [i |] eqn:Hfind.
  - apply find_index_inv in Hfind as (k & img & -> & Hk & Hfree & _).
    rewrite Z.add_0_l.
    assert (Himg : images chain !! k = Some img).
    { unfold ring in Hk. apply lookup_take_Some in Hk as [Hk _]. exact Hk. }
    apply negb_true_iff in Hfree.
    eexists _, _, _. split; [reflexivity |].
    split; [cbn [status send set_conn]; apply status_update_image |].
    split.
    + intros Hbusy. exfalso.
      assert (Hin : ring chain !! k = Some img).
      { unfold ring. rewrite lookup_take_lt; [exact Himg |].
        unfold ring in Hk. apply lookup_take_Some in Hk as [_ Hk]. exact Hk. }
      rewrite Forall_lookup in Hbusy. specialize (Hbusy k img Hin). congruence.
    + intros i [= <-]. rewrite Nat2Z.id. exists img.
      split; [exact Himg |]. split; [exact Hfree |].
      cbn [images send set_conn]. unfold update_image.
      rewrite Nat2Z.id, Himg. reflexivity.
  - eexists _, _, _. split; [reflexivity |]. split; [reflexivity |].
    split; [intros _; repeat split | discriminate].
Qed.

(** ** What the event handler leaves alone *)

(** X28.  The event handler only reports: whatever the event, it leaves
    the status, the serial counter, the locked extent, the connection, the
    present queue and the number of images as they are. *)
Theorem event_handler_only_reports (chain : x11_swapchain)
    (event : xcb_present_generic_event_t) :
  let chain' := (x11_handle_dri3_present_event chain event).2 in
  status chain' = status chain
  /\ send_sbc chain' = send_sbc chain
  /\ chain_extent chain' = chain_extent chain
  /\ conn chain' = conn chain
  /\ base chain' = base chain
  /\ present_queue chain' = present_queue chain
  /\ length (images chain') = length (images chain).
Proof.
  cbv zeta.
  pose proof (handle_status chain event) as Hs.
  pose proof (handle_counter chain event) as [Hc Hl].
  split; [exact Hs |]. split; [exact Hc |].
  assert (H : chain_extent (x11_handle_dri3_present_event chain event).2
              = chain_extent chain
              /\ conn (x11_handle_dri3_present_event chain event).2 = conn chain
              /\ base (x11_handle_dri3_present_event chain event).2 = base chain
              /\ present_queue (x11_handle_dri3_present_event chain event).2
                 = present_queue chain).
  { destruct event as [w h | px | kind mode ser msc |]; simpl.
    - destruct (_ || _); repeat split.
    - destruct (find_index _ (ring chain) 0) as [i |]; [| repeat split].
      destruct (update_image_fields chain i (fun img => set_busy img false))
        as (Hb & Hco & _ & _ & He & _ & _ & _ & _ & Hpq & _).
      match goal with
      | |- context [if ?b then _ else _] => destruct b eqn:Hq
      end; simpl in *; repeat split; congruence.
    - destruct kind, mode; simpl;
        try destruct (copy_is_suboptimal _);
        try destruct HAVE_DRI3_MODIFIERS; simpl; repeat split.
    - repeat split. }
  destruct H as (He & Hco & Hb & Hpq).
  repeat split; assumption.
Qed.

End Engine.

(** ** The theorems at concrete chains *)

Lemma status_latch_is_sticky_witness :
  (status (set_status example_chain VK_ERROR_SURFACE_LOST_KHR) < 0
   /\ exists chain',
        run_calls true example_calls
          (set_status example_chain VK_ERROR_SURFACE_LOST_KHR)
        = Some (replicate 4 VK_ERROR_SURFACE_LOST_KHR, chain')
        /\ status chain' = VK_ERROR_SURFACE_LOST_KHR)
  /\ (status (set_status example_chain VK_SUBOPTIMAL_KHR) = VK_SUBOPTIMAL_KHR
      /\ exists outs chain',
          run_calls true
            (map call_merge [VK_SUCCESS; VK_TIMEOUT; VK_ERROR_OUT_OF_DATE_KHR;
                             VK_ERROR_SURFACE_LOST_KHR])
            (set_status example_chain VK_SUBOPTIMAL_KHR)
          = Some (outs, chain')
          /\ status chain' = VK_ERROR_OUT_OF_DATE_KHR).
Proof.
  split.
  - split; [reflexivity |].
    destruct (proj1 (status_latch_is_sticky true
                       (set_status example_chain VK_ERROR_SURFACE_LOST_KHR)
                       [] example_calls))
      as (_ & _ & _ & c' & Hrun & Hs); [reflexivity |].
    exists c'. split; [exact Hrun | exact Hs].
  - split; [reflexivity |].
    destruct (proj2 (status_latch_is_sticky true
                       (set_status example_chain VK_SUBOPTIMAL_KHR)
                       [VK_SUCCESS; VK_TIMEOUT; VK_ERROR_OUT_OF_DATE_KHR;
                        VK_ERROR_SURFACE_LOST_KHR] []))
      as [(outs & c' & Hrun & Hs) _]; [reflexivity |].
    exists outs, c'. split; [exact Hrun | exact Hs].
Defined.

Lemma transient_result_merge_witness :
  (VK_TIMEOUT = VK_TIMEOUT \/ VK_TIMEOUT = VK_NOT_READY)
  /\ x11_swapchain_result
       (set_status example_chain VK_ERROR_SURFACE_LOST_KHR) VK_TIMEOUT
     = (VK_ERROR_SURFACE_LOST_KHR,
        set_status example_chain VK_ERROR_SURFACE_LOST_KHR)
  /\ x11_swapchain_result example_chain VK_TIMEOUT
     = (VK_TIMEOUT, example_chain).
Proof.
  split; [left; reflexivity |]. split.
  - apply (proj1 (transient_result_merge
                    (set_status example_chain VK_ERROR_SURFACE_LOST_KHR)
                    VK_TIMEOUT (or_introl eq_refl))).
    reflexivity.
  - apply (proj2 (transient_result_merge example_chain VK_TIMEOUT
                    (or_introl eq_refl))).
    discriminate.
Defined.

(** C2 as stated fails: on a chain whose status is
    [VK_ERROR_SURFACE_LOST_KHR], merging [VK_TIMEOUT] reports
    [VK_ERROR_SURFACE_LOST_KHR], not [VK_TIMEOUT]. *)
Lemma transient_result_not_reported_on_error :
  status (set_status example_chain VK_ERROR_SURFACE_LOST_KHR) < 0
  /\ (x11_swapchain_result
        (set_status example_chain VK_ERROR_SURFACE_LOST_KHR) VK_TIMEOUT).1
     = VK_ERROR_SURFACE_LOST_KHR
  /\ (x11_swapchain_result
        (set_status example_chain VK_ERROR_SURFACE_LOST_KHR) VK_TIMEOUT).1
     <> VK_TIMEOUT.
Proof. split; [reflexivity |]. split; [reflexivity | discriminate]. Qed.

(** C4 as stated fails: in mailbox mode on an XWayland connection with
    [xwaylandWaitReady] off, the predicate is false. *)
Lemma mailbox_does_not_always_wait :
  is_xwayland example_xwayland_connection = true
  /\ x11_xwaylandWaitReady example_device_no_wait_ready = false
  /\ x11_needs_wait_for_fences example_device_no_wait_ready
       example_xwayland_connection VK_PRESENT_MODE_MAILBOX_KHR
     = false.
Proof. repeat split. Qed.

(** C5 as stated fails: a server that answers the DRI3 query with
    [present = 0] gets an entry, whose [has_dri3] is false. *)
Lemma absent_dri3_still_gets_an_entry :
  dri3_reply (example_probe_io 0) = Some {| present := 0 |}
  /\ wsi_x11_connection_create true example_device (example_probe_io 0) <> None
  /\ exists entry,
      wsi_x11_connection_create true example_device (example_probe_io 0)
      = Some entry
      /\ has_dri3 entry = false.
Proof.
  split; [reflexivity |]. split; [discriminate |].
  eexists. split; reflexivity.
Qed.

Lemma connection_create_none_witness :
  probe_alloc (example_probe_io 0) = true
  /\ exists entry,
      wsi_x11_connection_create true example_device (example_probe_io 0)
      = Some entry
      /\ has_dri3 entry = false /\ has_present entry = true
      /\ has_xfixes entry = true.
Proof.
  split; [reflexivity |].
  destruct (proj2 (connection_create_none true example_device (example_probe_io 0))
              {| present := 0 |} {| present := 1 |} {| present := 1 |}
              eq_refl eq_refl eq_refl eq_refl)
    as (entry & Hcreate & Hdri3 & Hpresent & Hxfixes).
  exists entry. split; [exact Hcreate |].
  split; [exact Hdri3 |]. split; [exact Hpresent | exact Hxfixes].
Defined.


Lemma serials_increase_below_wrap_witness :
  0 <= send_sbc example_chain < 2 ^ 64
  /\ Forall (fun p : present_io * Z * Z =>
               0 <= p.1.2 < Z.of_nat (length (images example_chain)))
        example_presents
  /\ (present_serials true example_presents example_chain).1 = [1; 2; 3]
  /\ send_sbc (present_serials true example_presents example_chain).2 = 3
  /\ StronglySorted Z.lt (present_serials true example_presents example_chain).1.
Proof.
  assert (H1 : 0 <= send_sbc example_chain < 2 ^ 64) by (simpl; lia).
  assert (H2 : Forall (fun p : present_io * Z * Z =>
                         0 <= p.1.2 < Z.of_nat (length (images example_chain)))
                 example_presents)
    by (repeat constructor; simpl; lia).
  split; [exact H1 |]. split; [exact H2 |].
  destruct (serials_increase_below_wrap true example_presents example_chain H1 H2)
    as (Hsbc & Hserials & Hsorted).
  split; [exact Hserials |]. split; [exact Hsbc |].
  apply Hsorted. reflexivity.
Defined.

(** C7 as stated fails: the serial is the counter cut to 32 bits.  On a
    chain that has presented [2 ^ 32 - 2] times, the next two presents get
    the serials [2 ^ 32 - 1] and [0], which do not increase; and the present
    that follows the [2 ^ 32]-th gets the serial 1, as the first present of
    the chain did. *)
Lemma serial_wraps_at_32_bits :
  (present_serials true (take 2 example_presents)
     (set_send_sbc example_chain 4294967294)).1 = [4294967295; 0]
  /\ ~ StronglySorted Z.lt
        (present_serials true (take 2 example_presents)
           (set_send_sbc example_chain 4294967294)).1
  /\ (present_serials true (take 1 example_presents) example_chain).1 = [1]
  /\ (present_serials true (take 1 example_presents)
        (set_send_sbc example_chain 4294967296)).1 = [1].
Proof.
  split; [reflexivity |]. split; [| split; reflexivity].
  change (~ StronglySorted Z.lt [4294967295; 0]).
  intros H. apply StronglySorted_inv in H as [_ H].
  apply Forall_inv in H. lia.
Qed.

Lemma image_count_resolution_witness :
  cio_wsi_conn example_create_io = Some example_connection
  /\ exists chain,
      x11_surface_create_swapchain example_device 7
        VK_PRESENT_MODE_MAILBOX_KHR example_create_info example_create_io
      = (VK_SUCCESS, Some chain)
      /\ image_count (base chain) = 5
      /\ length (images chain) = 5%nat.
Proof.
  split; [reflexivity |].
  eexists. split; [reflexivity |].
  destruct (proj2 (image_count_resolution example_device example_connection
                     VK_PRESENT_MODE_MAILBOX_KHR example_create_info 7
                     example_create_io) eq_refl _ _ eq_refl)
    as (_ & Hcount & Hlen).
  split; [exact Hcount | exact Hlen].
Defined.

Lemma unusable_damage_is_ignored_witness :
  (rectangleCount example_damage_65 = 0
   \/ MAX_DAMAGE_RECTS < rectangleCount example_damage_65)
  /\ x11_queue_present true example_chain 1 (Some example_damage_65)
       example_present_io
     = x11_queue_present true example_chain 1 None example_present_io
  /\ (rectangleCount example_damage_0 = 0
      \/ MAX_DAMAGE_RECTS < rectangleCount example_damage_0)
  /\ x11_queue_present true example_chain 1 (Some example_damage_0)
       example_present_io
     = x11_queue_present true example_chain 1 None example_present_io.
Proof.
  split; [right; reflexivity |]. split.
  - apply (unusable_damage_is_ignored true example_chain 1 example_damage_65
             example_present_io).
    right. reflexivity.
  - split; [left; reflexivity |].
    apply (unusable_damage_is_ignored true example_chain 1 example_damage_0
             example_present_io).
    left. reflexivity.
Defined.

(** The counter value of the chain in [serial_wraps_at_32_bits] is the one
    a new chain has after [2 ^ 32 - 2] presents. *)
Lemma wrap_state_is_reached :
  send_sbc
    (present_serials true
       (replicate (Z.to_nat 4294967294) (example_present_io, 0, 0))
       example_chain).2
  = 4294967294.
Proof.
  generalize (eq_refl (Z.to_nat 4294967294)).
  generalize (Z.to_nat 4294967294) at 2 3 as n. intros n Hn.
  assert (Hlen : length (present_serials true
                           (replicate n (example_present_io, 0, 0))
                           example_chain).1 = n).
  { rewrite present_serials_length; [apply length_replicate |].
    apply Forall_replicate. split; [discriminate | reflexivity]. }
  destruct (present_serials_counter true
              (replicate n (example_present_io, 0, 0)) example_chain)
    as [Hsbc _].
  - change (send_sbc example_chain) with 0. clear. lia.
  - apply Forall_replicate. change (length (images example_chain)) with 3%nat.
    cbn [fst snd]. clear. lia.
  - rewrite Hsbc, Hlen. change (send_sbc example_chain) with 0.
    rewrite Z.add_0_l, <- Hn. rewrite Z2Nat.id by (clear; lia). reflexivity.
Qed.

(** ** Scenarios *)

(** An acquire and a present in immediate mode: image 0 comes back, the
    present carries the serial 1 and the full image. *)
Example acquire_then_present :
  exists chain',
    run_calls true
      [call_acquire 0 None []; call_present 0 None example_present_io]
      example_chain
    = Some ([VK_SUCCESS; VK_SUCCESS], chain')
    /\ send_sbc chain' = 1
    /\ sent_image_count chain' = 1
    /\ conn chain' = [xcb_present_pixmap_checked 7 1 1 0 201 9 0].
Proof. eexists. split; [vm_compute; reflexivity |]. repeat split. Qed.

(** The window grows by one pixel: the present that sees the event and
    every call after it report [VK_SUBOPTIMAL_KHR]; the extent stays. *)
Example resize_is_reported :
  exists chain',
    run_calls true
      [call_acquire 0 None []; call_present 0 None example_resized_io;
       call_acquire 0 None []; call_present 1 None example_present_io]
      example_chain
    = Some ([VK_SUCCESS; VK_SUBOPTIMAL_KHR; VK_SUBOPTIMAL_KHR;
             VK_SUBOPTIMAL_KHR], chain')
    /\ chain_extent chain' = chain_extent example_chain.
Proof. eexists. split; vm_compute; reflexivity. Qed.

(** A present completes by flip, the next one by copy: from then on the
    chain reports [VK_SUBOPTIMAL_KHR]. *)
Example copy_after_flip_is_suboptimal :
  exists chain',
    run_calls true
      [call_present 0 None example_present_io;
       call_present 1 None (example_complete_io XCB_PRESENT_COMPLETE_MODE_FLIP 1);
       call_present 2 None (example_complete_io XCB_PRESENT_COMPLETE_MODE_COPY 2)]
      example_chain
    = Some ([VK_SUCCESS; VK_SUCCESS; VK_SUBOPTIMAL_KHR], chain')
    /\ status chain' = VK_SUBOPTIMAL_KHR
    /\ copy_is_suboptimal chain' = true.
Proof. eexists. split; [vm_compute; reflexivity |]. split; reflexivity. Qed.

(** A depth-24 visual keeps the two 8-bit formats; the option puts
    [VK_FORMAT_B8G8R8A8_UNORM] first. *)
Example formats_of_a_depth_24_visual :
  get_sorted_vk_formats (Some example_visual) example_device
  = Some [VK_FORMAT_B8G8R8A8_SRGB; VK_FORMAT_B8G8R8A8_UNORM]
  /\ get_sorted_vk_formats (Some example_visual) example_device_bgra8_first
     = Some [VK_FORMAT_B8G8R8A8_UNORM; VK_FORMAT_B8G8R8A8_SRGB].
Proof. split; vm_compute; reflexivity. Qed.

(** A present with one damage rectangle sets the region of the image and
    presents it as update area. *)
Example damage_is_used :
  exists chain',
    x11_queue_present true example_chain 0
      (Some {| rectangleCount := 1; pRectangles := Some [example_rect] |})
      example_present_io
    = Some (VK_SUCCESS, chain')
    /\ conn chain'
       = [xcb_xfixes_set_region 101 1
            [{| rect_x := 0; rect_y := 0; rect_width := 8; rect_height := 8 |}];
          xcb_present_pixmap_checked 7 1 1 101 201 9 0].
Proof. eexists. split; vm_compute; reflexivity. Qed.

(** ** Further instances *)

Lemma absolute_timeout_saturates_witness :
  wsi_get_absolute_timeout 18446744073709551000 1000 = UINT64_MAX
  /\ wsi_get_absolute_timeout 5 1000 = 1005.
Proof.
  split.
  - rewrite (proj1 (absolute_timeout_saturates 18446744073709551000 1000
                      ltac:(unfold UINT64_MAX; lia)
                      ltac:(unfold UINT64_MAX; lia))).
    reflexivity.
  - rewrite (proj1 (absolute_timeout_saturates 5 1000
                      ltac:(unfold UINT64_MAX; lia)
                      ltac:(unfold UINT64_MAX; lia))).
    reflexivity.
Defined.

Lemma wakeup_keeps_the_deadline_witness :
  x11_acquire_next_image_poll_x11 true
    [example_poll_io; example_poll_timeout_io] example_busy_chain 1000
  = x11_acquire_next_image_poll_x11 true [example_poll_timeout_io]
      (send example_busy_chain xcb_flush) 950.
Proof.
  destruct (wakeup_keeps_the_deadline true example_poll_io
              [example_poll_timeout_io] example_busy_chain 1000)
    as (left & _ & Hleft & Hrun).
  - unfold ring. simpl. repeat constructor.
  - unfold UINT64_MAX. lia.
  - reflexivity.
  - split; discriminate.
  - simpl. lia.
  - rewrite Hrun, Hleft. reflexivity.
Defined.

Lemma complete_notify_matches_the_present_witness :
  from_option present_queued true
    (images
       (x11_handle_dri3_present_event true (present_pixmap example_chain 1 0 0)
          (XCB_PRESENT_EVENT_COMPLETE_NOTIFY XCB_PRESENT_COMPLETE_KIND_PIXMAP
             XCB_PRESENT_COMPLETE_MODE_FLIP 1 1000)).2
       !! Z.to_nat 1)
  = false
  /\ from_option present_queued true
       (images
          (x11_handle_dri3_present_event true (present_pixmap example_chain 1 0 0)
             (XCB_PRESENT_EVENT_COMPLETE_NOTIFY XCB_PRESENT_COMPLETE_KIND_PIXMAP
                XCB_PRESENT_COMPLETE_MODE_FLIP 2 1000)).2
          !! Z.to_nat 1)
     = true.
Proof.
  split.
  - rewrite (proj2 (proj2 (complete_notify_matches_the_present true
                             example_chain 1 0 0 XCB_PRESENT_COMPLETE_MODE_FLIP
                             1 1000 ltac:(simpl; lia) ltac:(simpl; lia)))).
    reflexivity.
  - rewrite (proj2 (proj2 (complete_notify_matches_the_present true
                             example_chain 1 0 0 XCB_PRESENT_COMPLETE_MODE_FLIP
                             2 1000 ltac:(simpl; lia) ltac:(simpl; lia)))).
    reflexivity.
Defined.


Lemma no_double_acquire_witness :
  exists chain' chain'',
    x11_acquire_next_image_poll_x11 true [] example_chain 0
    = Some (VK_SUCCESS, Some 0, chain')
    /\ x11_acquire_next_image_poll_x11 true [] chain' 0
       = Some (VK_SUCCESS, Some 1, chain'')
    /\ from_option busy false (images chain' !! Z.to_nat 0) = true
    /\ 1 <> 0.
Proof.
  pose (chain' :=
          from_option snd example_chain
            (x11_acquire_next_image_poll_x11 true [] example_chain 0)).
  pose (chain'' :=
          from_option snd example_chain
            (x11_acquire_next_image_poll_x11 true [] chain' 0)).
  assert (H1 : x11_acquire_next_image_poll_x11 true [] example_chain 0
               = Some (VK_SUCCESS, Some 0, chain'))
    by (vm_compute; reflexivity).
  assert (H2 : x11_acquire_next_image_poll_x11 true [] chain' 0
               = Some (VK_SUCCESS, Some 1, chain''))
    by (vm_compute; reflexivity).
  exists chain', chain''. split; [exact H1 |]. split; [exact H2 |].
  destruct (no_double_acquire true [] [] example_chain 0 0 VK_SUCCESS
              VK_SUCCESS 0 1 chain' chain'' H1 (Forall_nil_2 _) H2)
    as (Hbusy & _ & _ & Hne).
  split; [exact Hbusy | exact Hne].
Defined.

Lemma acquire_gives_up_witness :
  x11_acquire_next_image_poll_x11 true [example_poll_timeout_io]
    example_busy_chain 0
  = Some (VK_NOT_READY, None, send example_busy_chain xcb_flush)
  /\ x11_acquire_next_image_poll_x11 true [example_poll_timeout_io]
       example_busy_chain 1000
     = Some (VK_TIMEOUT, None, send example_busy_chain xcb_flush)
  /\ x11_acquire_next_image_poll_x11 true [example_poll_error_io]
       example_busy_chain 1000
     = Some (VK_ERROR_OUT_OF_DATE_KHR, None,
             set_status (send example_busy_chain xcb_flush)
               VK_ERROR_OUT_OF_DATE_KHR).
Proof.
  assert (Hbusy : Forall (fun img => busy img = true) (ring example_busy_chain))
    by (unfold ring; simpl; repeat constructor).
  assert (Hstatus : 0 <= status example_busy_chain)
    by (vm_compute; discriminate).
  destruct (acquire_gives_up true example_poll_timeout_io [] example_busy_chain
              1000 Hbusy Hstatus eq_refl) as (H0 & Htimeout & _).
  destruct (acquire_gives_up true example_poll_error_io [] example_busy_chain
              1000 Hbusy Hstatus eq_refl) as (_ & _ & Herror).
  split; [exact H0 |]. split.
  - apply Htimeout; [unfold UINT64_MAX; lia | reflexivity].
  - apply Herror; [unfold UINT64_MAX; lia | reflexivity].
Defined.

Lemma creation_sets_up_the_queues_witness :
  exists chain,
    x11_surface_create_swapchain example_device 7 VK_PRESENT_MODE_FIFO_KHR
      example_create_info example_create_io
    = (VK_SUCCESS, Some chain)
    /\ status chain = VK_SUCCESS
    /\ has_present_queue chain = true /\ has_acquire_queue chain = true
    /\ acquire_queue chain = [0; 1].
Proof.
  pose (chain :=
          from_option id example_chain
            (x11_surface_create_swapchain example_device 7
               VK_PRESENT_MODE_FIFO_KHR example_create_info
               example_create_io).2).
  assert (Hcreate : x11_surface_create_swapchain example_device 7
                      VK_PRESENT_MODE_FIFO_KHR example_create_info
                      example_create_io
                    = (VK_SUCCESS, Some chain))
    by (vm_compute; reflexivity).
  exists chain. split; [exact Hcreate |].
  destruct (creation_sets_up_the_queues example_device 7
              VK_PRESENT_MODE_FIFO_KHR example_create_info example_create_io
              example_connection example_geometry VK_SUCCESS chain
              eq_refl eq_refl Hcreate)
    as (_ & _ & _ & _ & _ & Hst & Hhp & Hha & _ & Haq & _).
  split; [rewrite Hst; reflexivity |].
  split; [rewrite Hhp; reflexivity |].
  split; [rewrite Hha; reflexivity |].
  rewrite Haq. reflexivity.
Defined.

Lemma queue_failure_returns_success_witness :
  x11_surface_create_swapchain example_device 7 VK_PRESENT_MODE_FIFO_KHR
    example_create_info example_create_io_no_thread
  = (VK_SUCCESS, None).
Proof.
  apply (queue_failure_returns_success example_device 7
           VK_PRESENT_MODE_FIFO_KHR example_create_info
           example_create_io_no_thread example_connection example_geometry
           [example_image 1; example_image 2]).
  - reflexivity.
  - reflexivity.
  - reflexivity.
  - reflexivity.
  - simpl. lia.
  - vm_compute. reflexivity.
  - reflexivity.
  - right. left. simpl. lia.
Defined.

Lemma fifo_acquires_in_index_order_witness :
  exists chain,
    x11_surface_create_swapchain example_device 7 VK_PRESENT_MODE_FIFO_KHR
      example_create_info example_create_io
    = (VK_SUCCESS, Some chain)
    /\ (acquire_run true 2 chain 0).1
       = [(VK_SUCCESS, Some 0); (VK_SUCCESS, Some 1)]
    /\ acquire_queue (acquire_run true 2 chain 0).2 = [].
Proof.
  pose (chain :=
          from_option id example_chain
            (x11_surface_create_swapchain example_device 7
               VK_PRESENT_MODE_FIFO_KHR example_create_info
               example_create_io).2).
  assert (Hcreate : x11_surface_create_swapchain example_device 7
                      VK_PRESENT_MODE_FIFO_KHR example_create_info
                      example_create_io
                    = (VK_SUCCESS, Some chain))
    by (vm_compute; reflexivity).
  exists chain. split; [exact Hcreate |].
  destruct (fifo_acquires_in_index_order true example_device 7
              VK_PRESENT_MODE_FIFO_KHR example_create_info example_create_io
              example_connection example_geometry VK_SUCCESS chain 2 0
              eq_refl eq_refl Hcreate (or_introl eq_refl) eq_refl
              ltac:(vm_compute; discriminate))
    as [Hrun Hq].
  split; [rewrite Hrun; reflexivity | rewrite Hq; reflexivity].
Defined.

Lemma present_sends_one_request_witness :
  (x11_present_to_x11_dri3 true example_refused_io example_chain 0 0).1
  = VK_ERROR_SURFACE_LOST_KHR
  /\ status (x11_present_to_x11_dri3 true example_refused_io example_chain 0 0).2
     = VK_ERROR_SURFACE_LOST_KHR
  /\ sent_image_count
       (x11_present_to_x11_dri3 true example_refused_io example_chain 0 0).2
     = 1
  /\ (x11_present_to_x11_dri3 true example_present_io example_chain 0 0).1
     = VK_SUCCESS.
Proof.
  destruct (present_sends_one_request true example_refused_io example_chain 0 0
              example_connection (example_image 1) eq_refl eq_refl eq_refl
              ltac:(vm_compute; discriminate))
    as (Hr & Hs & _ & _ & Hn & _).
  destruct (present_sends_one_request true example_present_io example_chain 0 0
              example_connection (example_image 1) eq_refl eq_refl eq_refl
              ltac:(vm_compute; discriminate))
    as (Hr' & _).
  split; [exact Hr |]. split; [rewrite Hs; exact Hr |].
  split; [exact Hn | exact Hr'].
Defined.

Lemma queued_present_only_queues_witness :
  exists chain',
    (forall io, x11_queue_present true example_fifo_chain 0 None io
                = Some (VK_SUCCESS, chain'))
    /\ present_queue chain' = [0]
    /\ send_sbc chain' = 0.
Proof.
  destruct (queued_present_only_queues true example_fifo_chain 0 None
              ltac:(vm_compute; discriminate) eq_refl)
    as (chain' & Hrun & Hq & _ & Hsbc & _).
  exists chain'. split; [exact Hrun |]. split; [exact Hq | exact Hsbc].
Defined.


Lemma software_present_frees_the_image_witness :
  exists chain',
    x11_queue_present true example_sw_chain 0 None example_present_io
    = Some (VK_SUCCESS, chain')
    /\ (exists img', images chain' !! Z.to_nat 0 = Some img'
                     /\ busy img' = false)
    /\ last (conn chain') = Some xcb_flush.
Proof.
  destruct (software_present_frees_the_image true example_sw_chain 0 None
              example_present_io (example_image 1) eq_refl eq_refl eq_refl
              ltac:(vm_compute; discriminate) eq_refl
              ltac:(vm_compute; reflexivity))
    as (chain' & Hrun & _ & Himg & Hlast & _).
  exists chain'. split; [exact Hrun |]. split; [exact Himg | exact Hlast].
Defined.

Lemma sentinel_wakes_the_acquire_witness :
  exists chain',
    x11_acquire_next_image_from_queue
      (manager_fail example_fifo_chain VK_ERROR_SURFACE_LOST_KHR) UINT64_MAX
    = Some (VK_ERROR_SURFACE_LOST_KHR, None, chain')
    /\ status chain' = VK_ERROR_SURFACE_LOST_KHR.
Proof.
  assert (Hneg : VK_ERROR_SURFACE_LOST_KHR < 0) by (vm_compute; reflexivity).
  destruct (sentinel_wakes_the_acquire example_fifo_chain
              VK_ERROR_SURFACE_LOST_KHR UINT64_MAX eq_refl (or_intror Hneg))
    as (chain' & Hrun & Hs & _).
  exists chain'. split; [exact Hrun | exact Hs].
Defined.

Lemma probed_entry_is_consistent_witness :
  exists wsi_conn,
    wsi_x11_connection_create true example_shm_device example_shm_probe_io
    = Some wsi_conn
    /\ has_mit_shm wsi_conn = true
    /\ has_dri3_modifiers wsi_conn = true
    /\ is_proprietary_x11 wsi_conn = true
    /\ is_xwayland wsi_conn = false.
Proof.
  pose (wsi_conn :=
          from_option id example_connection
            (wsi_x11_connection_create true example_shm_device
               example_shm_probe_io)).
  assert (Hprobe : wsi_x11_connection_create true example_shm_device
                     example_shm_probe_io = Some wsi_conn)
    by (vm_compute; reflexivity).
  exists wsi_conn. split; [exact Hprobe |].
  destruct (probed_entry_is_consistent true example_shm_device
              example_shm_probe_io wsi_conn Hprobe)
    as (_ & _ & Hprop & Hxwl).
  split; [reflexivity |]. split; [reflexivity |].
  split; [rewrite Hprop; reflexivity | rewrite Hxwl; reflexivity].
Defined.

Lemma present_modes_two_calls_witness :
  x11_surface_get_present_modes 2
    (Some [VK_PRESENT_MODE_FIFO_KHR; VK_PRESENT_MODE_FIFO_KHR])
  = (VK_INCOMPLETE, 2,
     Some [VK_PRESENT_MODE_IMMEDIATE_KHR; VK_PRESENT_MODE_MAILBOX_KHR]).
Proof.
  rewrite (proj1 (proj2 (present_modes_two_calls 2
                           [VK_PRESENT_MODE_FIFO_KHR; VK_PRESENT_MODE_FIFO_KHR]
                           ltac:(lia) eq_refl))).
  reflexivity.
Defined.

Lemma visual_has_alpha_bits_witness :
  visual_has_alpha example_visual 32 = true.
Proof.
  apply (proj2 (visual_has_alpha_bits example_visual 32 ltac:(lia))).
  exists 24. repeat split; try lia; reflexivity.
Defined.

Lemma surface_support_implies_device_support_witness :
  wsi_get_physical_device_xcb_presentation_support example_device
    (Some example_connection) example_screens 33
  = true.
Proof.
  apply (surface_support_implies_device_support example_device
           (Some example_connection) example_screens 1 33).
  - change (NoDup [33; 34]). apply NoDup_cons_2; [| apply NoDup_singleton].
    intros H. apply list_elem_of_singleton in H. discriminate.
  - reflexivity.
Defined.

Lemma capabilities_fit_creation_witness :
  exists caps chain,
    x11_surface_get_capabilities example_device (Some (example_visual, 24))
      (Some example_geometry) example_caps
    = (VK_SUCCESS, caps)
    /\ x11_surface_create_swapchain example_device 7
         VK_PRESENT_MODE_IMMEDIATE_KHR
         {| minImageCount := caps_minImageCount caps;
            imageExtent := currentExtent caps |}
         example_create_io
       = (VK_SUCCESS, Some chain)
    /\ status chain = VK_SUCCESS
    /\ 3 <= image_count (base chain).
Proof.
  pose (caps :=
          (x11_surface_get_capabilities example_device
             (Some (example_visual, 24)) (Some example_geometry)
             example_caps).2).
  pose (chain :=
          from_option id example_chain
            (x11_surface_create_swapchain example_device 7
               VK_PRESENT_MODE_IMMEDIATE_KHR
               {| minImageCount := caps_minImageCount caps;
                  imageExtent := currentExtent caps |}
               example_create_io).2).
  assert (Hcaps : x11_surface_get_capabilities example_device
                    (Some (example_visual, 24)) (Some example_geometry)
                    example_caps
                  = (VK_SUCCESS, caps))
    by (vm_compute; reflexivity).
  assert (Hcreate : x11_surface_create_swapchain example_device 7
                      VK_PRESENT_MODE_IMMEDIATE_KHR
                      {| minImageCount := caps_minImageCount caps;
                         imageExtent := currentExtent caps |}
                      example_create_io
                    = (VK_SUCCESS, Some chain))
    by (vm_compute; reflexivity).
  exists caps, chain. split; [exact Hcaps |]. split; [exact Hcreate |].
  destruct (capabilities_fit_creation example_device
              (Some (example_visual, 24)) example_geometry example_caps caps 7
              VK_PRESENT_MODE_IMMEDIATE_KHR
              {| minImageCount := caps_minImageCount caps;
                 imageExtent := currentExtent caps |}
              example_create_io example_connection VK_SUCCESS chain
              ltac:(simpl; lia) ltac:(simpl; lia) Hcaps eq_refl eq_refl eq_refl
              Hcreate)
    as (Hst & _ & Hmin & _).
  split; [exact Hst |]. apply (Hmin eq_refl).
Defined.

Lemma present_then_idle_round_trip_witness :
  exists chain' img',
    x11_queue_present true example_chain 1 None example_present_io
    = Some (VK_SUCCESS, chain')
    /\ sent_image_count chain' = 1
    /\ images chain' !! 1%nat = Some img' /\ busy img' = true
    /\ sent_image_count
         (x11_handle_dri3_present_event true chain'
            (XCB_PRESENT_EVENT_IDLE_NOTIFY 2)).2
       = 0
    /\ images
         (x11_handle_dri3_present_event true chain'
            (XCB_PRESENT_EVENT_IDLE_NOTIFY 2)).2
       = <[1%nat := set_busy img' false]> (images example_chain).
Proof.
  destruct (present_then_idle_round_trip true example_chain 1
              (example_image 2) example_present_io example_connection
              eq_refl eq_refl ltac:(vm_compute; discriminate) eq_refl eq_refl
              eq_refl ltac:(simpl; lia) eq_refl)
    as (chain' & img' & Hrun & Hsent & Himg & Hbusy & Hidle & _ & Himages).
  - intros [| j] img0 Hj Himg0; [| lia].
    injection Himg0 as <-. discriminate.
  - exists chain', img'. split; [exact Hrun |]. split; [exact Hsent |].
    split; [exact Himg |]. split; [exact Hbusy |].
    split; [exact Hidle | exact Himages].
Defined.

Lemma manager_waits_for_completion_witness :
  exists chain',
    manager_turn true example_connection example_completing_manager_io
      example_queued_chain VK_SUCCESS
    = turn_next VK_SUCCESS chain'
    /\ from_option present_queued false (images chain' !! Z.to_nat 0) = false
    /\ 1 <= x11_driver_owned_images chain'.
Proof.
  pose (chain' :=
          match manager_turn true example_connection
                  example_completing_manager_io example_queued_chain VK_SUCCESS
          with
          | turn_next _ c => c
          | _ => example_chain
          end).
  assert (Hturn : manager_turn true example_connection
                    example_completing_manager_io example_queued_chain
                    VK_SUCCESS
                  = turn_next VK_SUCCESS chain')
    by (vm_compute; reflexivity).
  exists chain'. split; [exact Hturn |].
  destruct (manager_waits_for_completion true example_connection
              example_completing_manager_io example_queued_chain VK_SUCCESS
              VK_SUCCESS chain' Hturn ltac:(vm_compute; reflexivity))
    as (i & q & Hq & Hp & Ht).
  injection Hq as <- <-. split; [exact Hp | exact Ht].
Defined.


Lemma software_acquire_never_waits_witness :
  exists chain',
    x11_acquire_next_image true example_sw_chain UINT64_MAX
      (Some example_geometry) []
    = Some (VK_SUCCESS, Some 0, chain')
    /\ status chain' = VK_SUCCESS
    /\ images chain'
       = [ set_busy (example_image 1) true; example_image 2; example_image 3 ].
Proof.
  destruct (software_acquire_never_waits true example_sw_chain UINT64_MAX
              (Some example_geometry) [] eq_refl eq_refl
              ltac:(vm_compute; discriminate))
    as (r & out & chain' & Hrun & Hs & _ & Himg).
  assert (Hout : r = VK_SUCCESS /\ out = Some 0).
  { vm_compute in Hrun. injection Hrun as <- <- _. split; reflexivity. }
  destruct Hout as [-> ->].
  exists chain'. split; [exact Hrun |]. split; [exact Hs |].
  destruct (Himg 0 eq_refl) as (img & Himg0 & _ & Himages).
  injection Himg0 as <-. exact Himages.
Defined.
